(** * grunt-tizen: the Bridge orchestration core

    A shallow embedding of the promise-based [Bridge] (lib/bridge.js), of the
    task orchestrator built on it (lib/tasks-maker.js), of the [SdbWrapper]
    transport (lib/sdb-wrapper.js) and of [TizenConfig]
    (lib/tizen-config.js), together with the properties of these components
    that the specification states.

    Promises are modelled by explicit state passing: a promise-returning
    function is a function from the trace of observable events so far to a
    settled result and the extended trace.  Injected collaborators (the sdb
    wrapper, the file lister, the browser wrapper, the bridge seen from the
    tasks) are records of such functions, as in the source, where they are
    objects handed to the constructors. *)

From Stdlib Require Import String Ascii List Bool NArith ZArith Arith Lia.
From Stdlib Require Import DecimalString Permutation DecimalN Sorted.
Import ListNotations.
Local Open Scope list_scope.
Local Open Scope string_scope.

(** ** JavaScript strings *)

Module Js.

Definition LF : ascii := "010"%char.
Definition CR : ascii := "013"%char.
Definition SLASH : ascii := "/"%char.
Definition DQUOTE : string := String "034"%char EmptyString.

(** Truthiness of a value that is a string, [undefined] or [null]. *)
Definition truthy (v : option string) : bool :=
  match v with
  | Some s => negb (String.eqb s EmptyString)
  | None => false
  end.

(** [v || null]: the string when it is truthy. *)
Definition present (v : option string) : option string :=
  if truthy v then v else None.

(** [s.indexOf(p) !== -1], which is also what [s.match(p)] tests when the
    pattern [p] has no regular-expression operator. *)
Fixpoint includes (p s : string) : bool :=
  if String.prefix p s then true
  else match s with
       | EmptyString => false
       | String _ s' => includes p s'
       end.

(** [s.replace(/\r/g, '')] *)
Fixpoint remove_cr (s : string) : string :=
  match s with
  | EmptyString => EmptyString
  | String c s' =>
      if Ascii.eqb c CR then remove_cr s' else String c (remove_cr s')
  end.

(** [s.replace(/^\n$/g, '')]: without the [m] flag the anchors are the two
    ends of the input, so only the string made of one newline matches. *)
Definition drop_lone_newline (s : string) : string :=
  if String.eqb s (String LF EmptyString) then EmptyString else s.

(** [s.split(sep)] for a one-character separator. *)
Fixpoint split (sep : ascii) (s : string) : list string :=
  match s with
  | EmptyString => [EmptyString]
  | String c s' =>
      if Ascii.eqb c sep then EmptyString :: split sep s'
      else match split sep s' with
           | [] => [String c EmptyString]
           | h :: t => String c h :: t
           end
  end.

(** [arr.join(sep)] *)
Definition join (sep : string) (arr : list string) : string :=
  String.concat sep arr.

(** [s.replace(/\/$/, '')]: removes the last character when it is a slash. *)
Fixpoint strip_trailing_slash (s : string) : string :=
  match s with
  | EmptyString => EmptyString
  | String c s' =>
      match s' with
      | EmptyString => if Ascii.eqb c SLASH then EmptyString else s
      | String _ _ => String c (strip_trailing_slash s')
      end
  end.

(** What follows [p] in [s] when [s] starts with [p]. *)
Fixpoint strip_prefix (p s : string) : option string :=
  match p, s with
  | EmptyString, _ => Some s
  | String a p', String b s' =>
      if Ascii.eqb a b then strip_prefix p' s' else None
  | String _ _, EmptyString => None
  end.

(** [s.replace(p, r)] for a string pattern: the first occurrence only.
    The replacement is inserted as it is, which is what [replace] does
    with a replacement that holds no dollar sign. *)
Fixpoint replace_first (p r s : string) : string :=
  match strip_prefix p s with
  | Some rest => r ++ rest
  | None => match s with
            | EmptyString => EmptyString
            | String c s' => String c (replace_first p r s')
            end
  end.

Definition is_digit (c : ascii) : bool :=
  let n := nat_of_ascii c in (48 <=? n)%nat && (n <=? 57)%nat.

(** The longest prefix of decimal digits, [\d*] at the head of [s]. *)
Fixpoint take_digits (s : string) : string :=
  match s with
  | EmptyString => EmptyString
  | String c s' =>
      if is_digit c then String c (take_digits s') else EmptyString
  end.

(** A match of [/PORT (\d+)/] that starts at the head of [s]: the capture
    group, which takes as many digits as there are. *)
Definition port_here (s : string) : option string :=
  match strip_prefix "PORT " s with
  | Some rest => match take_digits rest with
                 | EmptyString => None
                 | String d ds => Some (String d ds)
                 end
  | None => None
  end.

(** [s.match(/PORT (\d+)/)]: the capture group of the leftmost match,
    [None] when the pattern does not occur. *)
Fixpoint match_port (s : string) : option string :=
  match port_here s with
  | Some ds => Some ds
  | None => match s with
            | EmptyString => None
            | String _ s' => match_port s'
            end
  end.

(** [parseInt(ds, 10)] on a string of decimal digits: the value that the
    digits denote.  The number of the source is a double: it is this value
    as long as the value is below 2^53, and the nearest double above, so
    that what is stated of a parsed number is stated below that bound. *)
Fixpoint parseInt_acc (acc : N) (ds : string) : N :=
  match ds with
  | EmptyString => acc
  | String c ds' =>
      if is_digit c
      then parseInt_acc (acc * 10 + (N_of_ascii c - 48)) ds'
      else acc
  end.

Definition parseInt (ds : string) : N := parseInt_acc 0 ds.

(** [String(n)] for a non-negative integer below 2^53, which JavaScript
    holds exactly and writes with all its digits (from 1e21 on it writes
    an exponent): what is stated of a number written this way is stated
    below that bound. *)
Definition of_N (n : N) : string := NilEmpty.string_of_uint (N.to_uint n).

(** [path.basename(p)] of Node's POSIX [path] module: trailing slashes are
    dropped, then everything up to the last slash. *)
Fixpoint basename_acc (cur last : string) (s : string) : string :=
  match s with
  | EmptyString => if String.eqb cur EmptyString then last else cur
  | String c s' =>
      if Ascii.eqb c SLASH
      then basename_acc EmptyString
                        (if String.eqb cur EmptyString then last else cur) s'
      else basename_acc (cur ++ String c EmptyString) last s'
  end.

Definition basename (p : string) : string :=
  basename_acc EmptyString EmptyString p.

End Js.

(** ** Errors, settled promises and the event trace *)

Inductive JsError : Type :=
| Error (message : string)
| TypeError (message : string).

Definition message (e : JsError) : string :=
  match e with Error m => m | TypeError m => m end.

(** A settled promise. *)
Inductive Result (A : Type) : Type :=
| Resolved (value : A)
| Rejected (reason : JsError).
Arguments Resolved {A} value.
Arguments Rejected {A} reason.

Definition is_rejected {A} (r : Result A) : bool :=
  match r with Rejected _ => true | Resolved _ => false end.

(** A file specification: a path, an array of paths or a pattern object
    [{pattern: ..., filter: ...}]. *)
Inductive FileSpec : Type :=
| FString (path : string)
| FArray (paths : list string)
| FPattern (pattern : string) (filter : option string).

(** A local port as the tasks hand it over: the number given by the caller
    or the default, which the source writes as the string ['8888']. *)
Inductive JsPort : Type :=
| PortNum (n : N)
| PortStr (s : string).

Definition port_to_string (p : JsPort) : string :=
  match p with PortNum n => Js.of_N n | PortStr s => s end.

Inductive Level : Type := LOk | LWarn | LWrite | LError.

Inductive LogArg : Type :=
| LStr (s : string)
| LErr (e : JsError).

(** What an observer of a run sees: the calls on the logger and the calls
    that reach a recording collaborator. *)
Inductive Event : Type :=
| Log (lvl : Level) (arg : LogArg)
| SdbShell (cmd : string)
| SdbPush (localFile remotePath : string)
| SdbForward (localPort : JsPort) (remotePort : N)
| SdbRoot (on : bool)
| ListFiles (spec : FileSpec)
| Browser (cmd : string)
| Exec (cmdline : string)
| FsStat (path : string).

Definition Trace : Type := list Event.

(** ** Promises (the part of Q that the source uses) *)

Definition Promise (A : Type) : Type := Trace -> Result A * Trace.

Module Q.

(** [Q.resolve(v)] *)
Definition resolve {A} (v : A) : Promise A := fun t => (Resolved v, t).

(** [Q.reject(e)], and [throw e] inside a handler *)
Definition reject {A} (e : JsError) : Promise A := fun t => (Rejected e, t).

(** [p.then(onFulfilled, onRejected)] *)
Definition then2 {A B} (p : Promise A)
           (onFulfilled : A -> Promise B) (onRejected : JsError -> Promise B)
  : Promise B :=
  fun t => match p t with
           | (Resolved v, t') => onFulfilled v t'
           | (Rejected e, t') => onRejected e t'
           end.

(** [p.then(onFulfilled)] *)
Definition then_ {A B} (p : Promise A) (onFulfilled : A -> Promise B)
  : Promise B :=
  then2 p onFulfilled reject.

(** [p.fail(onRejected)] *)
Definition fail {A} (p : Promise A) (onRejected : JsError -> Promise A)
  : Promise A :=
  then2 p resolve onRejected.

(** [p.finally(callback)]: the callback runs once [p] is settled, either
    way; its rejection replaces the outcome of [p], its value is dropped. *)
Definition finally {A B} (p : Promise A) (callback : Promise B) : Promise A :=
  fun t => match p t with
           | (r, t') => match callback t' with
                        | (Resolved _, t'') => (r, t'')
                        | (Rejected e, t'') => (Rejected e, t'')
                        end
           end.

(** A deferred is settled by the first [resolve] or [reject] it receives;
    later ones are ignored. *)
Definition Deferred (A : Type) : Type := option (Result A).

Definition defer {A} : Deferred A := None.

Definition settle {A} (d : Deferred A) (r : Result A) : Deferred A :=
  match d with Some _ => d | None => Some r end.

(** The promise of a fresh deferred on which [first] and then [later] are
    attempted, in this order. *)
Definition settled {A} (first : Result A) (later : list (Result A))
  : Promise A :=
  fun t => (match fold_left settle later (settle defer first) with
            | Some r => r
            | None => first
            end, t).

End Q.

Notation "p >>= f" := (Q.then_ p f) (at level 50, left associativity).
Notation "p ;; q" := (Q.then_ p (fun _ => q)) (at level 61, right associativity).

(** The logger handed to the bridge: every call is recorded. *)
Definition log (lvl : Level) (arg : LogArg) : Promise unit :=
  fun t => (Resolved tt, (t ++ [Log lvl arg])%list).

(** [async.each(arr, iterator, callback)] of the async library: the iterator
    is started on every element of [arr], in order, whatever the others
    report; [callback] receives the first error reported, or nothing when
    every iterator reported success.  The value computed here is the
    argument of [callback].

    The library starts all the iterators before any of them reports; here
    they are sequentialised, each one running to its end before the next is
    started, and the first error is the first one in the order of [arr].
    What is stated about the fan-out below (which operations are started,
    and whether the whole fails) does not depend on that order. *)
Fixpoint async_each {A} (arr : list A) (iterator : A -> Promise unit)
  : Trace -> option JsError * Trace :=
  fun t =>
    match arr with
    | [] => (None, t)
    | x :: rest =>
        match iterator x t with
        | (r, t') =>
            match async_each rest iterator t' with
            | (err, t'') =>
                (match r with Rejected e => Some e | Resolved _ => err end, t'')
            end
        end
    end.

(** The final callback of [async.each] seen from the reports of the
    iterators, in the order in which they arrive, [pending] iterators not
    having reported yet: it is called with the first error that arrives, at
    once, or without error when the last iterator has reported; [None] when
    it has not been called yet. *)
Fixpoint callback_arg (pending : nat) (arrivals : list (Result unit))
  : option (option JsError) :=
  match pending with
  | 0 => Some None
  | S pending' =>
      match arrivals with
      | [] => None
      | Rejected e :: _ => Some (Some e)
      | Resolved _ :: later => callback_arg pending' later
      end
  end.

(** ** SdbWrapper (lib/sdb-wrapper.js) *)

(** The interface the bridge uses. *)
Record SdbWrapperI : Type := {
  sdb_shell : string -> Promise string;
  sdb_push : string -> string -> Promise string;
  sdb_forward : JsPort -> N -> Promise string;
  sdb_root : bool -> Promise string
}.

(** What [child_process.exec] reports to its callback. *)
Record ExecOutcome : Type := {
  exec_err : option JsError;
  exec_stdout : string;
  exec_stderr : string
}.

(** The host below the wrapper: [exec] and [fs.stat], whose answers may
    depend on everything that happened before. *)
Record Host : Type := {
  host_exec : Trace -> string -> ExecOutcome;
  host_stat : Trace -> string -> option JsError
}.

Module SdbWrapper.
Section WithHost.

Variable host : Host.
Variable sdbCmd : string.

Definition execute (command : string) : Promise string :=
  fun t =>
    let cmdline := sdbCmd ++ " " ++ command in
    let out := host_exec host t cmdline in
    let t' := (t ++ [Exec cmdline])%list in
    match exec_err out with
    | Some err => (Rejected err, t')
    | None =>
        if Js.includes "command not found" (exec_stdout out)
        then (Rejected (Error (exec_stdout out)), t')
        else if Js.includes "No such file or directory" (exec_stdout out)
        then (Rejected (Error (exec_stdout out)), t')
        else if Js.includes "failed" (exec_stderr out)
        then (Rejected (Error (exec_stderr out)), t')
        else (Resolved (exec_stdout out), t')
    end.

Definition shell (remoteCommand : string) : Promise string :=
  execute ("shell " ++ Js.DQUOTE ++ remoteCommand ++ Js.DQUOTE).

Definition push (localFile remotePath : string) : Promise string :=
  fun t =>
    match host_stat host t localFile with
    | Some err => (Rejected err, (t ++ [FsStat localFile])%list)
    | None => execute ("push " ++ localFile ++ " " ++ remotePath)
                      (t ++ [FsStat localFile])%list
    end.

Definition forward (localPort : JsPort) (remotePort : N) : Promise string :=
  execute ("forward tcp:" ++ port_to_string localPort
                          ++ " tcp:" ++ Js.of_N remotePort).

Definition root (on : bool) : Promise string :=
  execute ("root " ++ (if on then "on" else "off")).

Definition wrapper : SdbWrapperI :=
  {| sdb_shell := shell; sdb_push := push;
     sdb_forward := forward; sdb_root := root |}.

End WithHost.
End SdbWrapper.

(** A recording sdb wrapper, as the unit tests use: each call is recorded
    and answered by [answers], which sees the trace so far. *)
Record SdbAnswers : Type := {
  on_shell : Trace -> string -> Result string;
  on_push : Trace -> string -> string -> Result string;
  on_forward : Trace -> JsPort -> N -> Result string;
  on_root : Trace -> bool -> Result string
}.

Definition recordingSdb (answers : SdbAnswers) : SdbWrapperI :=
  {| sdb_shell := fun cmd t => (on_shell answers t cmd, (t ++ [SdbShell cmd])%list);
     sdb_push := fun l r t => (on_push answers t l r, (t ++ [SdbPush l r])%list);
     sdb_forward := fun lp rp t =>
       (on_forward answers t lp rp, (t ++ [SdbForward lp rp])%list);
     sdb_root := fun on t => (on_root answers t on, (t ++ [SdbRoot on])%list) |}.

(** ** Bridge (lib/bridge.js) *)

(** The configuration object of the constructor.  The logger is the
    recording one, [log]; [scriptInterpreterPath] is set by the constructor
    itself. *)
Record BridgeConfig : Type := {
  sdbWrapper : SdbWrapperI;
  fileLister : FileSpec -> Promise (list string);
  tizenAppScriptPath : option string;
  browserWrapper : option (string -> Promise string)
}.

Module Bridge.
Section WithConfig.

Variable config : BridgeConfig.

Let sdb := sdbWrapper config.

Definition scriptInterpreterPath : string := "/bin/sh".

Definition fileExists (remotePath : string) : Promise bool :=
  let cmd := "stat " ++ remotePath in
  Q.fail
    (sdb_shell sdb cmd >>= fun _ => Q.resolve true)
    (fun err =>
       if String.eqb (message err) "No such file or directory"
       then Q.resolve false
       else log LError (LErr err) ;; Q.reject err).

Definition chmod (remotePath chmod : string) : Promise unit :=
  let cmd := "chmod " ++ chmod ++ " " ++ remotePath in
  Q.fail
    (sdb_shell sdb cmd >>= fun stdout =>
       log LWrite (LStr stdout) ;;
       log LOk (LStr ("did chmod " ++ chmod ++ " on " ++ remotePath)))
    (fun err =>
       log LError (LStr (message err)) ;;
       log LError (LStr ("could not chmod " ++ remotePath)) ;;
       Q.reject err).

(** [[fileArray[0]]] is [firstn 1 fileArray]: [split] never returns an
    empty array. *)
Definition listRemoteFiles (remoteFiles : FileSpec) : Promise (list string) :=
  match remoteFiles with
  | FString path => Q.resolve [path]
  | FArray paths => Q.resolve paths
  | FPattern pattern filter =>
      let cmd := "ls -1 -c " ++ pattern in
      Q.fail
        (sdb_shell sdb cmd >>= fun stdout =>
           let stdout := Js.remove_cr stdout in
           let stdout := Js.drop_lone_newline stdout in
           let fileArray := Js.split Js.LF stdout in
           if match filter with
              | Some f => String.eqb f "latest"
              | None => false
              end
           then Q.resolve (firstn 1 fileArray)
           else Q.resolve fileArray)
        (fun err =>
           log LError (LStr "could not run ls on device") ;;
           log LError (LStr (message err)) ;;
           Q.reject err)
  end.

Definition getDestination (localFile remoteDir : string) : string :=
  let basename := Js.basename localFile in
  let remoteDir := Js.strip_trailing_slash remoteDir in
  remoteDir ++ "/" ++ basename.

Definition pushRaw (localFile remotePath : string) : Promise unit :=
  Q.fail
    (sdb_push sdb localFile remotePath >>= fun _ =>
       log LOk (LStr ("pushed local:" ++ localFile
                                      ++ " to remote:" ++ remotePath)))
    (fun err =>
       if Js.includes "failed to copy" (message err)
          || Js.includes "cannot stat" (message err)
          || Js.includes "device not found" (message err)
       then log LError (LStr (message err)) ;;
            Q.reject (Error "could not push file to device")
       else Q.reject err).

Definition pushOne (localFile remoteDir : string) (overwrite : bool)
           (chmodArg : option string) : Promise unit :=
  let remotePath := getDestination localFile remoteDir in
  let setChmod : Promise unit :=
    match Js.present chmodArg with
    | Some c => chmod remotePath c
    | None => Q.resolve tt
    end in
  if overwrite then pushRaw localFile remotePath ;; setChmod
  else
    fileExists remotePath >>= fun exists_ =>
      if exists_ : bool
      then log LWarn (LStr ("not pushing to " ++ remotePath
                            ++ " as file exists and overwrite is false"))
      else pushRaw localFile remotePath ;; setChmod.

Definition push (localFiles : FileSpec) (remoteDir : string)
           (overwrite : bool) (chmodArg : option string) : Promise unit :=
  fileLister config localFiles >>= fun filesToPush =>
    fun t =>
      match async_each filesToPush
              (fun localFile => pushOne localFile remoteDir overwrite chmodArg)
              t with
      | (Some err, t') =>
          (log LError (LErr err) ;;
           Q.settled (Rejected (Error "error while pushing files")) []) t'
      | (None, t') =>
          (log LOk (LStr "all files pushed") ;;
           Q.settled (Resolved tt) []) t'
      end.

Definition runScript (remoteScriptArg : string) (args : list string)
  : Promise string :=
  let remoteScript := scriptInterpreterPath ++ " " ++ remoteScriptArg in
  let cmd := if (0 <? length args)%nat
             then remoteScript ++ " " ++ Js.join " " args
             else remoteScript in
  log LOk (LStr ("running: " ++ cmd)) ;;
  Q.fail
    (sdb_shell sdb cmd >>= fun stdout =>
       log LWrite (LStr stdout) ;; Q.resolve stdout)
    (fun err =>
       log LError (LStr (message err)) ;;
       Q.reject (Error ("error occurred while running command " ++ cmd))).

Definition runTizenAppScript (command : string) (args : list string)
  : Promise string :=
  match Js.present (tizenAppScriptPath config) with
  | None => Q.reject (Error ("cannot run tizen-app.sh as tizenAppScriptPath "
                               ++ "is not set on Bridge"))
  | Some script =>
      let cmd := script ++ " " ++ command in
      let cmd := if (0 <? length args)%nat
                 then cmd ++ " " ++ Js.join " " args
                 else cmd in
      sdb_shell sdb cmd
  end.

Definition installOne (remoteFile : string) : Promise unit :=
  runTizenAppScript "install" [remoteFile] >>= fun stdout =>
    log LWrite (LStr stdout) ;;
    if Js.includes "key[end] val[fail]" stdout
    then log LError (LStr ("error installing package " ++ remoteFile)) ;;
         log LError (LStr stdout) ;;
         Q.reject (Error "installation failed")
    else log LOk (LStr ("installed package " ++ remoteFile)).

Definition install (remoteFiles : FileSpec) : Promise unit :=
  listRemoteFiles remoteFiles >>= fun filesToInstall =>
    fun t =>
      match async_each filesToInstall installOne t with
      | (Some err, t') =>
          (log LError (LErr err) ;;
           Q.settled (Rejected (Error "error while installing package"))
                     [Resolved tt]) t'
      | (None, t') =>
          ((if (length filesToInstall =? 0)%nat
            then log LWarn (LStr "no packages to install")
            else log LOk (LStr "all packages installed")) ;;
           Q.settled (Resolved tt) []) t'
      end.

(** [stdout.match('not installed|failed')] *)
Definition uninstall_failed (stdout : string) : bool :=
  Js.includes "not installed" stdout || Js.includes "failed" stdout.

Definition uninstall (packageName : string) (stopOnFailure : bool)
  : Promise unit :=
  let errorHandler (err : JsError) : Promise unit :=
    if stopOnFailure then Q.reject err
    else log LWarn (LStr "could not uninstall package; continuing anyway") in
  Q.fail
    (runTizenAppScript "uninstall" [packageName] >>= fun stdout =>
       log LWrite (LStr stdout) ;;
       if uninstall_failed stdout
       then errorHandler (Error ("package " ++ packageName
                                   ++ " could not be uninstalled"))
       else log LOk (LStr ("package with name " ++ packageName
                                                 ++ " uninstalled")))
    errorHandler.

(** [stdout.match('running|does not exist|failed')] *)
Definition launch_failed (stdout : string) : bool :=
  Js.includes "running" stdout
  || Js.includes "does not exist" stdout
  || Js.includes "failed" stdout.

(** The promise is fulfilled with the standard output, or with [undefined]
    ([None]) when a failure is tolerated. *)
Definition launch (subcommand appUri : string) (stopOnFailure : bool)
  : Promise (option string) :=
  let actionDone :=
    if String.eqb subcommand "stop" then "stopped" else "launched" in
  let errorHandler (err : JsError) : Promise (option string) :=
    let warning := "app with id " ++ appUri ++ " could not be "
                                  ++ actionDone in
    if stopOnFailure
    then log LError (LStr warning) ;;
         log LError (LStr (message err)) ;;
         Q.reject err
    else log LWarn (LStr (warning ++ "; continuing anyway")) ;;
         Q.resolve None in
  Q.then2
    (runTizenAppScript subcommand [appUri])
    (fun stdout =>
       if launch_failed stdout
       then errorHandler (Error stdout) ;; Q.resolve None
       else log LWrite (LStr stdout) ;;
            log LOk (LStr ("app with id " ++ appUri ++ " " ++ actionDone)) ;;
            Q.resolve (Some stdout))
    errorHandler.

Definition getDebugUrl (localPort : JsPort) : string :=
  "http://localhost:" ++ port_to_string localPort ++ "/inspector.html?page=1".

Definition runBrowser (browserCmd : string) (localPort : JsPort)
  : Promise string :=
  let url := getDebugUrl localPort in
  match browserWrapper config with
  | Some browserWrapper =>
      let browserCmd := Js.replace_first "%URL%" url browserCmd in
      Q.fail
        (browserWrapper browserCmd >>= fun stdout =>
           log LWrite (LStr stdout) ;; Q.resolve stdout)
        (fun err => log LError (LStr (message err)) ;; Q.reject err)
  | None =>
      Q.reject (Error ("cannot run browser: no browserWrapper "
                         ++ "configured for Bridge"))
  end.

Definition portForward (localPort : JsPort) (remotePort : N)
  : Promise string :=
  Q.fail
    (sdb_forward sdb localPort remotePort >>= fun stdout =>
       let url := getDebugUrl localPort in
       log LOk (LStr ("app is ready for debugging at "
                        ++ String Js.LF EmptyString ++ url)) ;;
       Q.resolve stdout)
    (fun err =>
       log LError (LStr (message err)) ;;
       log LError (LStr "could not forward local port to remote port") ;;
       Q.reject err).

Definition root (on : bool) : Promise unit :=
  let state := if on then "on" else "off" in
  Q.fail
    (sdb_root sdb on >>= fun stdout =>
       log LWrite (LStr stdout) ;;
       if on
       then log LWarn (LStr ("*** called " ++ Js.DQUOTE ++ "sdb root " ++ state
                               ++ Js.DQUOTE ++ "; "
                               ++ "commands now running as root ***"))
       else log LOk (LStr ("*** called " ++ Js.DQUOTE ++ "sdb root " ++ state
                             ++ Js.DQUOTE ++ "; "
                             ++ "commands no longer running as root ***")))
    (fun err => log LError (LStr (message err)) ;; Q.reject err).

End WithConfig.
End Bridge.

(** ** Tasks (lib/tasks-maker.js) *)

(** Application metadata, as [tizenConfig.getMeta()] gives it. *)
Record Meta : Type := {
  id : string;
  uri : string;
  packageName : string;
  content : string
}.

(** The bridge as the tasks use it. *)
Record BridgeI : Type := {
  bridge_push : FileSpec -> string -> bool -> option string -> Promise unit;
  bridge_install : FileSpec -> Promise unit;
  bridge_uninstall : string -> bool -> Promise unit;
  bridge_runScript : string -> list string -> Promise string;
  bridge_launch : string -> string -> bool -> Promise (option string);
  bridge_portForward : JsPort -> N -> Promise string;
  bridge_runBrowser : string -> JsPort -> Promise string;
  bridge_root : bool -> Promise unit
}.

(** The [Bridge] of lib/bridge.js behind that interface. *)
Definition theBridge (config : BridgeConfig) : BridgeI :=
  {| bridge_push := Bridge.push config;
     bridge_install := Bridge.install config;
     bridge_uninstall := Bridge.uninstall config;
     bridge_runScript := Bridge.runScript config;
     bridge_launch := Bridge.launch config;
     bridge_portForward := Bridge.portForward config;
     bridge_runBrowser := Bridge.runBrowser config;
     bridge_root := Bridge.root config |}.

(** The [data] object of a task invocation; an absent property is [None]. *)
Record TaskData : Type := {
  action : option string;
  asRoot : option bool;
  localFiles : option FileSpec;
  remoteDir : option string;
  overwrite : option bool;
  chmod : option string;
  remoteFiles : option FileSpec;
  stopOnFailure : option bool;
  remoteScript : option string;
  args : option (list string);
  localPort : option JsPort;
  browserCmd : option string
}.

(** A file specification when it is truthy: only the empty string is
    falsy. *)
Definition present_spec (v : option FileSpec) : option FileSpec :=
  match v with
  | Some (FString path) => if String.eqb path EmptyString then None else v
  | _ => v
  end.

(** A port when it is truthy: [0] and the empty string are falsy. *)
Definition present_port (v : option JsPort) : option JsPort :=
  match v with
  | Some (PortNum n) => if N.eqb n 0 then None else v
  | Some (PortStr s) => if String.eqb s EmptyString then None else v
  | None => None
  end.

Module Tasks.
Section Create.

Variable bridge : BridgeI.
(** [tizenConfig.getMeta()] *)
Variable getMeta : Promise Meta.

(** The value a task promise is fulfilled with: a string or [undefined]. *)
Definition undefined : option string := None.

Definition push (data : TaskData) : Promise (option string) :=
  match present_spec (localFiles data) with
  | None =>
      Q.reject (Error ("tizen " ++ Js.DQUOTE ++ "push" ++ Js.DQUOTE
                         ++ " action needs a localFiles property"))
  | Some localFiles_ =>
      match Js.present (remoteDir data) with
      | None =>
          Q.reject (Error ("tizen " ++ Js.DQUOTE ++ "push" ++ Js.DQUOTE
                             ++ " action needs a remoteDir property"))
      | Some remoteDir_ =>
          let overwrite_ := match overwrite data with
                            | Some false => false
                            | _ => true
                            end in
          let chmod_ := Js.present (chmod data) in
          bridge_push bridge localFiles_ remoteDir_ overwrite_ chmod_
            >>= fun _ => Q.resolve undefined
      end
  end.

Definition install (data : TaskData) : Promise (option string) :=
  match present_spec (remoteFiles data) with
  | None =>
      Q.reject (Error ("tizen " ++ Js.DQUOTE ++ "install" ++ Js.DQUOTE
                         ++ " action needs a remoteFiles property"))
  | Some remoteFiles_ =>
      bridge_install bridge remoteFiles_ >>= fun _ => Q.resolve undefined
  end.

Definition uninstall (data : TaskData) : Promise (option string) :=
  let stopOnFailure_ := match stopOnFailure data with
                        | Some true => true
                        | _ => false
                        end in
  getMeta >>= fun meta =>
    bridge_uninstall bridge (packageName meta) stopOnFailure_
      >>= fun _ => Q.resolve undefined.

Definition script (data : TaskData) : Promise (option string) :=
  match Js.present (remoteScript data) with
  | None =>
      Q.reject (Error ("tizen " ++ Js.DQUOTE ++ "script" ++ Js.DQUOTE
                         ++ " action needs a remoteScript property"))
  | Some remoteScript_ =>
      let args_ := match args data with Some a => a | None => [] end in
      getMeta >>= fun meta =>
        let args_ := ([packageName meta; id meta] ++ args_)%list in
        bridge_runScript bridge remoteScript_ args_
          >>= fun stdout => Q.resolve (Some stdout)
  end.

Definition launch (data : TaskData) (subcommand : string)
  : Promise (option string) :=
  let localPort_ := match present_port (localPort data) with
                    | Some p => p
                    | None => PortStr "8888"
                    end in
  let browserCmd_ := Js.present (browserCmd data) in
  let stopOnFailure_ := match stopOnFailure data with
                        | Some true => true
                        | _ => false
                        end in
  getMeta >>= fun meta =>
    bridge_launch bridge subcommand (id meta) stopOnFailure_ >>= fun result =>
      if String.eqb subcommand "debug"
      then
        match result with
        | None =>
            (* [result.match] on [undefined]: a [TypeError], with the
               message of the engine *)
            Q.reject (TypeError ("Cannot read property 'match' "
                                   ++ "of undefined"))
        | Some stdout =>
            match Js.match_port stdout with
            | None =>
                Q.reject (Error "no remote port available for debugging")
            | Some digits =>
                let remotePort := Js.parseInt digits in
                bridge_portForward bridge localPort_ remotePort >>= fun _ =>
                  match browserCmd_ with
                  | Some cmd =>
                      bridge_runBrowser bridge cmd localPort_
                        >>= fun stdout => Q.resolve (Some stdout)
                  | None => Q.resolve undefined
                  end
            end
        end
      else Q.resolve undefined.

(** The command function and the arguments that [tizenTask] selects for an
    action, with the [asRoot] flag as the action leaves it. *)
Definition select (data : TaskData) (action_ : string) (asRoot_ : bool)
  : option (Promise (option string)) * bool :=
  if String.eqb action_ "push" then (Some (push data), asRoot_)
  else if String.eqb action_ "install" then (Some (install data), true)
  else if String.eqb action_ "uninstall" then (Some (uninstall data), asRoot_)
  else if String.eqb action_ "script" then (Some (script data), asRoot_)
  else if String.eqb action_ "start" || String.eqb action_ "stop"
          || String.eqb action_ "debug"
  then (Some (launch data action_), asRoot_)
  else (None, asRoot_).

Definition tizenTask (data : TaskData) : Promise (option string) :=
  let asRoot_ := match asRoot data with Some b => b | None => false end in
  match Js.present (action data) with
  | None => Q.reject (Error "tizen task requires action argument")
  | Some action_ =>
      match select data action_ asRoot_ with
      | (None, _) =>
          Q.reject (Error ("action " ++ Js.DQUOTE ++ action_ ++ Js.DQUOTE
                             ++ " was not recognised as valid"))
      | (Some cmd, asRoot_) =>
          if asRoot_
          then Q.finally (bridge_root bridge true >>= fun _ => cmd)
                         (bridge_root bridge false)
          else cmd
      end
  end.

End Create.
End Tasks.

(** ** TizenConfig (lib/tizen-config.js) *)

Module TizenConfig.
Section WithParser.

(** [JSON.parse(xml2json.toJson(content)).widget] followed by the reading
    of the four attributes; it throws on a document that is not as
    expected. *)
Variable parse : string -> Result Meta.

(** [fs.readFileSync(path, 'utf8')]: the content of the file, or the
    exception that the file system throws. *)
Definition FileSystem : Type := string -> Result string.

(** The two properties of a [TizenConfig] object. *)
Record t : Type := {
  configFile : string;
  configParsed : option Meta
}.

(** [TizenConfig.create(config)] *)
Definition create (configFile_ : option string) : t :=
  {| configFile := match Js.present configFile_ with
                   | Some f => f
                   | None => "config.xml"
                   end;
     configParsed := None |}.

(** [getMeta()]: the value returned or the exception thrown, the object
    afterwards, and the paths given to [fs.readFileSync] by this call. *)
Definition getMeta (fs : FileSystem) (this : t)
  : Result Meta * t * list string :=
  match configParsed this with
  | Some meta => (Resolved meta, this, [])
  | None =>
      match fs (configFile this) with
      | Rejected e => (Rejected e, this, [configFile this])
      | Resolved content_ =>
          match parse content_ with
          | Rejected e => (Rejected e, this, [configFile this])
          | Resolved meta =>
              (Resolved meta,
               {| configFile := configFile this;
                  configParsed := Some meta |},
               [configFile this])
          end
      end
  end.

(** What a holder of the object can do with it, in a file system that may
    change under it. *)
Inductive Op : Type :=
| CallGetMeta (fs : FileSystem)
| SetConfigFile (path : string).

(** One operation: the object afterwards and what was observed (the
    outcome of [getMeta] and the paths it read). *)
Definition step (this : t) (op : Op)
  : t * option (Result Meta * list string) :=
  match op with
  | CallGetMeta fs =>
      match getMeta fs this with
      | (r, this', reads) => (this', Some (r, reads))
      end
  | SetConfigFile path =>
      ({| configFile := path; configParsed := configParsed this |}, None)
  end.

Fixpoint run (this : t) (ops : list Op)
  : t * list (option (Result Meta * list string)) :=
  match ops with
  | [] => (this, [])
  | op :: ops' =>
      match step this op with
      | (this', obs) =>
          match run this' ops' with
          | (this'', rest) => (this'', obs :: rest)
          end
      end
  end.

End WithParser.
End TizenConfig.

(** ** Recording collaborators and reference definitions *)

(** How the recording collaborators answer; every answer may depend on the
    trace so far. *)
Record Answers : Type := {
  sdb_answers : SdbAnswers;
  on_list : Trace -> FileSpec -> Result (list string);
  on_browser : Trace -> string -> Result string
}.

(** A bridge configuration in which every collaborator records its calls. *)
Definition recordingConfig (answers : Answers) (scriptPath : option string)
  : BridgeConfig :=
  {| sdbWrapper := recordingSdb (sdb_answers answers);
     fileLister := fun spec t =>
       (on_list answers t spec, (t ++ [ListFiles spec])%list);
     tizenAppScriptPath := scriptPath;
     browserWrapper := Some (fun cmd t =>
       (on_browser answers t cmd, (t ++ [Browser cmd])%list)) |}.

(** A remote invocation counts as failed when it is rejected or when its
    standard output matches the failure pattern. *)
Definition remote_failed (pattern : string -> bool) (r : Result string)
  : bool :=
  match r with
  | Rejected _ => true
  | Resolved stdout => pattern stdout
  end.

(** The error that such a failure stands for: the rejection itself, or the
    one that [describe] builds from the standard output. *)
Definition remote_error (describe : string -> JsError) (r : Result string)
  : JsError :=
  match r with
  | Rejected e => e
  | Resolved stdout => describe stdout
  end.

(** Running an operation on every element of a list, each from the trace the
    previous one left, and keeping every outcome with the events it added. *)
Fixpoint run_each {A} (op : A -> Promise unit) (items : list A) (t : Trace)
  : list (Result unit * Trace) :=
  match items with
  | [] => []
  | x :: rest =>
      match op x t with
      | (r, t') => (r, t') :: run_each op rest t'
      end
  end.

(** The trace after the last of these runs. *)
Definition last_trace (t : Trace) (runs : list (Result unit * Trace)) : Trace :=
  last (map snd runs) t.

(** The first call that [pushOne] makes on the sdb wrapper. *)
Definition pushOne_entry (remoteDir : string) (overwrite : bool)
           (localFile : string) : Event :=
  let remotePath := Bridge.getDestination localFile remoteDir in
  if overwrite then SdbPush localFile remotePath
  else SdbShell ("stat " ++ remotePath).

(** The character [c] does not occur in [s]. *)
Definition no_char (c : ascii) (s : string) : bool :=
  negb (existsb (Ascii.eqb c) (list_ascii_of_string s)).

(** [s] is made of decimal digits. *)
Definition all_digits (s : string) : bool :=
  forallb Js.is_digit (list_ascii_of_string s).

Definition starts_with_digit (s : string) : bool :=
  match s with
  | EmptyString => false
  | String c _ => Js.is_digit c
  end.

(** ** Concrete collaborators for the examples *)

Definition CRLF : string := String Js.CR (String Js.LF EmptyString).

(** An sdb wrapper whose every call succeeds with an empty output. *)
Definition quietSdb : SdbAnswers :=
  {| on_shell := fun _ _ => Resolved "";
     on_push := fun _ _ _ => Resolved "";
     on_forward := fun _ _ _ => Resolved "";
     on_root := fun _ _ => Resolved "" |}.

(** The same with a given answer of the shell. *)
Definition shellSdb (answer : string -> Result string) : SdbAnswers :=
  {| on_shell := fun _ cmd => answer cmd;
     on_push := fun _ _ _ => Resolved "";
     on_forward := fun _ _ _ => Resolved "";
     on_root := fun _ _ => Resolved "" |}.

Definition answersOf (sdb : SdbAnswers) (files : list string) : Answers :=
  {| sdb_answers := sdb;
     on_list := fun _ _ => Resolved files;
     on_browser := fun _ _ => Resolved "" |}.

(** A device with two packages in the listed directory. *)
Definition lsConfig : BridgeConfig :=
  recordingConfig
    (answersOf (shellSdb (fun _ => Resolved ("/home/developer/b.wgt" ++ CRLF
                                               ++ "/home/developer/a.wgt")))
               [])
    None.

(** An observation of a [getMeta] call that read and parsed the file. *)
Definition parsed_the_file (o : option (Result Meta * list string)) : bool :=
  match o with
  | Some (Resolved _, _ :: _) => true
  | _ => false
  end.

(** A parser for the examples: the document is its own package name. *)
Definition toyParse (content_ : string) : Result Meta :=
  if String.eqb content_ "" then Rejected (Error "Unexpected end of input")
  else Resolved {| id := "app"; uri := "uri"; packageName := content_;
                   content := "index.html" |}.

(** A file system for the examples, with two documents. *)
Definition toyFs (path : string) : Result string :=
  if String.eqb path "config.xml" then Resolved "pkg1"
  else if String.eqb path "other.xml" then Resolved "pkg2"
  else Rejected (Error ("no file at " ++ path)).

(** A file system without any file. *)
Definition emptyFs (path : string) : Result string :=
  Rejected (Error ("no file at " ++ path)).

(** A device on which the application script reports that the package is
    not installed, and that the application does not exist. *)
Definition failingScriptConfig : BridgeConfig :=
  recordingConfig
    (answersOf (shellSdb (fun cmd =>
                            if Js.includes "uninstall" cmd
                            then Resolved "package is not installed"
                            else Resolved "application does not exist"))
               [])
    (Some "/opt/tizen-app.sh").

Definition exampleMeta : Meta :=
  {| id := "app"; uri := "uri"; packageName := "pkg";
     content := "index.html" |}.

(** A task invocation with the action only. *)
Definition dataFor (action_ : string) : TaskData :=
  {| action := Some action_; asRoot := None; localFiles := None;
     remoteDir := None; overwrite := None; chmod := None;
     remoteFiles := None; stopOnFailure := None; remoteScript := None;
     args := None; localPort := None; browserCmd := None |}.

(** A debug invocation that opens a browser. *)
Definition debugData : TaskData :=
  {| action := Some "debug"; asRoot := None; localFiles := None;
     remoteDir := None; overwrite := None; chmod := None;
     remoteFiles := None; stopOnFailure := None; remoteScript := None;
     args := None; localPort := None; browserCmd := Some "chrome %URL%" |}.

(** A device on which the application script starts the debugger. *)
Definition debugConfig : BridgeConfig :=
  recordingConfig
    (answersOf (shellSdb (fun _ => Resolved "launched; PORT 26099")) [])
    (Some "/opt/tizen-app.sh").

(** A device that refuses to switch to root and accepts to switch back. *)
Definition rootFailsConfig : BridgeConfig :=
  recordingConfig
    (answersOf {| on_shell := fun _ _ => Resolved "";
                  on_push := fun _ _ _ => Resolved "";
                  on_forward := fun _ _ _ => Resolved "";
                  on_root := fun _ on =>
                    if on then Rejected (Error "error: device not found")
                    else Resolved "" |}
               [])
    (Some "/opt/tizen-app.sh").

(** A device on which everything succeeds, silently. *)
Definition quietConfig : BridgeConfig :=
  recordingConfig (answersOf quietSdb []) (Some "/opt/tizen-app.sh").

(** The request of the unit tests of the root bracket. *)
Definition installData (asRoot_ : option bool) : TaskData :=
  {| action := Some "install"; asRoot := asRoot_;
     localFiles := None; remoteDir := None; overwrite := None; chmod := None;
     remoteFiles := Some (FString "/tmp/package.wgt");
     stopOnFailure := None; remoteScript := None; args := None;
     localPort := None; browserCmd := None |}.

(** What [stat] prints on the device for a path that does not exist. *)
Definition statOutput (path : string) : string :=
  "stat: cannot stat '" ++ path ++ "': No such file or directory" ++ CRLF.

(** A host on which [sdb shell] runs and [stat] finds no file. *)
Definition noFileHost : Host :=
  {| host_exec := fun _ _ =>
       {| exec_err := None;
          exec_stdout := statOutput "/tmp/foo.txt";
          exec_stderr := "" |};
     host_stat := fun _ _ => None |}.

(** A bridge on the [SdbWrapper] of lib/sdb-wrapper.js. *)
Definition sdbConfig (host : Host) : BridgeConfig :=
  {| sdbWrapper := SdbWrapper.wrapper host "sdb";
     fileLister := fun spec t => (Resolved [], (t ++ [ListFiles spec])%list);
     tizenAppScriptPath := Some "/opt/tizen-app.sh";
     browserWrapper := None |}.

(** [root(false)] called after what came before has settled with [r]: its
    rejection replaces [r]. *)
Definition root_off_after (bridge : BridgeI) (r : Result (option string))
           (t : Trace) : Result (option string) * Trace :=
  match bridge_root bridge false t with
  | (Resolved _, t') => (r, t')
  | (Rejected e, t') => (Rejected e, t')
  end.

(** The request [data] with another [asRoot] property. *)
Definition with_asRoot (asRoot_ : option bool) (data : TaskData) : TaskData :=
  {| action := action data; asRoot := asRoot_;
     localFiles := localFiles data; remoteDir := remoteDir data;
     overwrite := overwrite data; chmod := chmod data;
     remoteFiles := remoteFiles data; stopOnFailure := stopOnFailure data;
     remoteScript := remoteScript data; args := args data;
     localPort := localPort data; browserCmd := browserCmd data |}.

(** The first rejection among the outcomes of such runs. *)
Fixpoint first_error (runs : list (Result unit * Trace)) : option JsError :=
  match runs with
  | [] => None
  | (Rejected e, _) :: _ => Some e
  | (Resolved _, _) :: rest => first_error rest
  end.

(** Whether one of the runs was rejected. *)
Definition some_rejected (runs : list (Result unit * Trace)) : bool :=
  existsb (fun run => is_rejected (fst run)) runs.

(** A device on which the push of [two.wgt] fails and the others succeed,
    with a lister that finds three files. *)
Definition pushTwoFailsAnswers : Answers :=
  answersOf {| on_shell := fun _ _ => Resolved "";
               on_push := fun _ localFile _ =>
                 if Js.includes "two" localFile
                 then Rejected (Error "push failed")
                 else Resolved "";
               on_forward := fun _ _ _ => Resolved "";
               on_root := fun _ _ => Resolved "" |}
            ["build/one.wgt"; "build/two.wgt"; "build/three.wgt"].

Definition pushTwoFailsConfig : BridgeConfig :=
  recordingConfig pushTwoFailsAnswers None.

(** Whether the last character of [s] is a slash. *)
Fixpoint ends_with_slash (s : string) : bool :=
  match s with
  | EmptyString => false
  | String c s' =>
      match s' with
      | EmptyString => Ascii.eqb c Js.SLASH
      | String _ _ => ends_with_slash s'
      end
  end.

(** [xs] occurs in [ys], in this order, possibly with other elements in
    between. *)
Inductive Subsequence {A : Type} : list A -> list A -> Prop :=
| Subsequence_nil : forall ys, Subsequence [] ys
| Subsequence_take : forall x xs ys,
    Subsequence xs ys -> Subsequence (x :: xs) (x :: ys)
| Subsequence_skip : forall xs y ys,
    Subsequence xs ys -> Subsequence xs (y :: ys).

(** ** Reference definitions for the further properties *)

(** The call of the sdb shell that [installOne] makes for a file. *)
Definition installOne_entry (script remoteFile : string) : Event :=
  SdbShell ((script ++ " " ++ "install") ++ " " ++ remoteFile).

(** The bridge with another [root] method. *)
Definition with_root (root_ : bool -> Promise unit) (bridge : BridgeI)
  : BridgeI :=
  {| bridge_push := bridge_push bridge;
     bridge_install := bridge_install bridge;
     bridge_uninstall := bridge_uninstall bridge;
     bridge_runScript := bridge_runScript bridge;
     bridge_launch := bridge_launch bridge;
     bridge_portForward := bridge_portForward bridge;
     bridge_runBrowser := bridge_runBrowser bridge;
     bridge_root := root_ |}.

(** The bridge with other [portForward] and [runBrowser] methods. *)
Definition with_debugging (portForward_ : JsPort -> N -> Promise string)
           (runBrowser_ : string -> JsPort -> Promise string)
           (bridge : BridgeI) : BridgeI :=
  {| bridge_push := bridge_push bridge;
     bridge_install := bridge_install bridge;
     bridge_uninstall := bridge_uninstall bridge;
     bridge_runScript := bridge_runScript bridge;
     bridge_launch := bridge_launch bridge;
     bridge_portForward := portForward_;
     bridge_runBrowser := runBrowser_;
     bridge_root := bridge_root bridge |}.

(** The actions that [tizenTask] knows. *)
Definition known_actions : list string :=
  ["push"; "install"; "uninstall"; "script"; "start"; "stop"; "debug"].

(** [tizenPrepareTask] of lib/tasks-maker.js; the two paths are the
    properties [tizenAppScriptLocal] and [tizenAppScriptDir] of the
    bridge. *)
Definition tizenPrepareTask (bridge : BridgeI)
           (tizenAppScriptLocal tizenAppScriptDir : option string)
  : Promise (option string) :=
  let localScript := tizenAppScriptLocal in
  let remoteDir_ := tizenAppScriptDir in
  Tasks.push bridge
    {| action := None; asRoot := None;
       localFiles := option_map FString localScript;
       remoteDir := remoteDir_;
       overwrite := Some true; chmod := Some "+x";
       remoteFiles := None; stopOnFailure := None; remoteScript := None;
       args := None; localPort := None; browserCmd := None |}.

(** A device on which the installation fails and the return from root
    fails too. *)
Definition rootOffFailsConfig : BridgeConfig :=
  recordingConfig
    (answersOf {| on_shell := fun _ _ => Resolved "key[end] val[fail]";
                  on_push := fun _ _ _ => Resolved "";
                  on_forward := fun _ _ _ => Resolved "";
                  on_root := fun _ on =>
                    if on then Resolved ""
                    else Rejected (Error "error: device offline") |}
               [])
    (Some "/opt/tizen-app.sh").

(** The number that a sequence of decimal digits denotes, after the digits
    already read as [acc]. *)
Fixpoint uint_value (acc : N) (d : Decimal.uint) : N :=
  match d with
  | Decimal.Nil => acc
  | Decimal.D0 d => uint_value (acc * 10 + 0) d
  | Decimal.D1 d => uint_value (acc * 10 + 1) d
  | Decimal.D2 d => uint_value (acc * 10 + 2) d
  | Decimal.D3 d => uint_value (acc * 10 + 3) d
  | Decimal.D4 d => uint_value (acc * 10 + 4) d
  | Decimal.D5 d => uint_value (acc * 10 + 5) d
  | Decimal.D6 d => uint_value (acc * 10 + 6) d
  | Decimal.D7 d => uint_value (acc * 10 + 7) d
  | Decimal.D8 d => uint_value (acc * 10 + 8) d
  | Decimal.D9 d => uint_value (acc * 10 + 9) d
  end.

(** A file lister that answers like lib/file-lister.js for paths and lists
    of paths, and finds nothing for a pattern. *)
Definition echoAnswers (sdb : SdbAnswers) : Answers :=
  {| sdb_answers := sdb;
     on_list := fun _ spec =>
       match spec with
       | FString path => Resolved [path]
       | FArray paths => Resolved paths
       | FPattern _ _ => Resolved []
       end;
     on_browser := fun _ _ => Resolved "" |}.

(** ** FileLister (lib/file-lister.js) *)

Module FileLister.
Section WithFs.

(** [fs.statSync(path).mtime.getTime()], which throws for a path that
    cannot be read. *)
Variable statSync : string -> Result Z.

(** [Array.prototype.sort] with a comparator; the algorithm is the one of
    the engine. *)
Variable sort : (string -> string -> Z) -> list string -> list string.

(** [glob(pattern, callback)]: the matches, or the error that is thrown or
    given to the callback. *)
Variable glob : Trace -> string -> Result (list string).

Definition mtime (path : string) : Z :=
  match statSync path with
  | Resolved time => time
  | Rejected _ => 0%Z
  end.

(** The error of the first path that [statSync] refuses. *)
Fixpoint stat_error (filePaths : list string) : option JsError :=
  match filePaths with
  | [] => None
  | path :: rest =>
      match statSync path with
      | Rejected e => Some e
      | Resolved _ => stat_error rest
      end
  end.

(** [getLatest(filePaths)]: the value returned ([None] is [undefined]) or
    the exception thrown.  Sorting two paths or more compares every one of
    them, so that it throws as soon as one cannot be read; which of
    several errors is thrown depends on the engine, the model takes the
    first in the list. *)
Definition getLatest (filePaths : list string) : Result (option string) :=
  if (1 <? length filePaths)%nat
  then
    let sortFn a b := (mtime b - mtime a)%Z in
    match stat_error filePaths with
    | Some e => Rejected e
    | None => Resolved (hd_error (sort sortFn filePaths))
    end
  else Resolved (hd_error filePaths).

(** [list(localFiles)]; an element [None] is [undefined].  [getLatest]
    is called inside the callback of [glob]: when it throws, the promise is
    rejected if [glob] calls back at once (inside the [try]), which is what
    is written here, and otherwise the exception is caught by nobody and
    the promise is never settled; what is stated of the filter [latest] is
    stated of matches that can all be read. *)
Definition list (localFiles : FileSpec) : Promise (list (option string)) :=
  match localFiles with
  | FString path => Q.resolve [Some path]
  | FArray paths => Q.resolve (map Some paths)
  | FPattern pattern filter =>
      fun t =>
        match glob t pattern with
        | Rejected err => (Rejected err, t)
        | Resolved files =>
            if match filter with
               | Some f => String.eqb f "latest"
               | None => false
               end
            then match getLatest files with
                 | Resolved latest => (Resolved [latest], t)
                 | Rejected err => (Rejected err, t)
                 end
            else (Resolved (map Some files), t)
        end
  end.

End WithFs.
End FileLister.

(** Sorting by insertion, for the examples. *)
Fixpoint insert_sorted (cmp : string -> string -> Z) (x : string)
         (l : list string) : list string :=
  match l with
  | [] => [x]
  | y :: rest =>
      if (cmp x y <=? 0)%Z then x :: y :: rest
      else y :: insert_sorted cmp x rest
  end.

Fixpoint insertion_sort (cmp : string -> string -> Z) (l : list string)
  : list string :=
  match l with
  | [] => []
  | x :: rest => insert_sorted cmp x (insertion_sort cmp rest)
  end.

(** The three files of the unit tests of the file lister. *)
Definition testStat (path : string) : Result Z :=
  if String.eqb path "data/oldest.txt" then Resolved 1372702811185%Z
  else if String.eqb path "data/older.txt" then Resolved 1372702871185%Z
  else if String.eqb path "data/youngest.txt" then Resolved 1372702931185%Z
  else Rejected (Error ("ENOENT, no such file or directory '" ++ path ++ "'")).

(** The conditions under which [SdbWrapper.execute] fulfils its promise. *)
Definition exec_clean (out : ExecOutcome) : bool :=
  match exec_err out with Some _ => false | None => true end
  && negb (Js.includes "command not found" (exec_stdout out))
  && negb (Js.includes "No such file or directory" (exec_stdout out))
  && negb (Js.includes "failed" (exec_stderr out)).

(** A host on which [sdb] succeeds but reports a failure on its error
    stream, and on which a local file is missing. *)
Definition failingHost : Host :=
  {| host_exec := fun _ _ =>
       {| exec_err := None;
          exec_stdout := "";
          exec_stderr := "failed to copy 'a.wgt' to '/tmp/a.wgt'" |};
     host_stat := fun _ path =>
       if String.eqb path "missing.wgt"
       then Some (Error "ENOENT, stat 'missing.wgt'")
       else None |}.

(** ** The tasks with completion callbacks (lib/tasks-maker.js)

    lib/tasks-maker.js is the version of the tasks in which every bridge
    method and every task takes a completion callback [done(err, result)].
    A call in that style is modelled by the events it adds and by the way
    its callback is invoked: [None] when the callback is never invoked,
    [Some (Rejected e)] for [done(e)] with an error, and
    [Some (Resolved v)] for [done(null, v)], where [v] is [None] when no
    result is passed.  A bridge method invokes its callback at most once
    and does not throw. *)

Definition Callback (A : Type) : Type := Trace -> option (Result A) * Trace.

Module Cb.

(** [done(err)] and [done(null, v)] *)
Definition done {A : Type} (r : Result A) : Callback A :=
  fun t => (Some r, t).

(** A call whose callback is never invoked. *)
Definition never {A : Type} : Callback A :=
  fun t => (None, t).

(** [c(..., function (err, result) { k })] *)
Definition on {A B : Type} (c : Callback A) (k : Result A -> Callback B)
  : Callback B :=
  fun t => match c t with
           | (Some r, t') => k r t'
           | (None, t') => (None, t')
           end.

End Cb.

(** The bridge that lib/tasks-maker.js is created with: its methods take
    a callback, and [done] is handed to them as it is. *)
Record BridgeCb : Type := {
  cb_push : FileSpec -> string -> bool -> option string
            -> Callback (option string);
  cb_install : FileSpec -> Callback (option string);
  cb_uninstall : string -> bool -> Callback (option string);
  cb_runScript : string -> list string -> Callback (option string);
  cb_launch : string -> string -> bool -> Callback (option string);
  cb_portForward : JsPort -> N -> Callback (option string);
  cb_runBrowser : string -> JsPort -> Callback (option string);
  cb_root : bool -> Callback (option string);
  cb_tizenAppScriptLocal : option string;
  cb_tizenAppScriptDir : option string
}.

Module TasksCb.
Section Create.

Variable bridge : BridgeCb.
(** What [tizenConfig.getMeta()] returns or throws. *)
Variable getMeta : Result Meta.

Definition push (data : TaskData) : Callback (option string) :=
  match present_spec (localFiles data) with
  | None =>
      Cb.done (Rejected (Error ("tizen " ++ Js.DQUOTE ++ "push" ++ Js.DQUOTE
                                  ++ " action needs a localFiles property")))
  | Some localFiles_ =>
      match Js.present (remoteDir data) with
      | None =>
          Cb.done (Rejected (Error ("tizen " ++ Js.DQUOTE ++ "push"
                                      ++ Js.DQUOTE
                                      ++ " action needs a remoteDir property")))
      | Some remoteDir_ =>
          let overwrite_ := match overwrite data with
                            | Some false => false
                            | _ => true
                            end in
          let chmod_ := Js.present (chmod data) in
          cb_push bridge localFiles_ remoteDir_ overwrite_ chmod_
      end
  end.

Definition install (data : TaskData) : Callback (option string) :=
  match present_spec (remoteFiles data) with
  | None =>
      Cb.done (Rejected (Error ("tizen " ++ Js.DQUOTE ++ "install"
                                  ++ Js.DQUOTE
                                  ++ " action needs a remoteFiles property")))
  | Some remoteFiles_ => cb_install bridge remoteFiles_
  end.

Definition uninstall (data : TaskData) : Callback (option string) :=
  let stopOnFailure_ := match stopOnFailure data with
                        | Some true => true
                        | _ => false
                        end in
  match getMeta with
  | Resolved meta => cb_uninstall bridge (packageName meta) stopOnFailure_
  | Rejected err => Cb.done (Rejected err)
  end.

Definition script (data : TaskData) : Callback (option string) :=
  match Js.present (remoteScript data) with
  | None =>
      Cb.done (Rejected (Error ("tizen " ++ Js.DQUOTE ++ "script"
                                  ++ Js.DQUOTE
                                  ++ " action needs a remoteScript property")))
  | Some remoteScript_ =>
      let args_ := match args data with Some a => a | None => [] end in
      match getMeta with
      | Resolved meta =>
          let args_ := ([packageName meta; id meta] ++ args_)%list in
          cb_runScript bridge remoteScript_ args_
      | Rejected err => Cb.done (Rejected err)
      end
  end.

Definition launch (data : TaskData) (subcommand : string)
  : Callback (option string) :=
  let localPort_ := match present_port (localPort data) with
                    | Some p => p
                    | None => PortStr "8888"
                    end in
  let browserCmd_ := Js.present (browserCmd data) in
  let stopOnFailure_ := match stopOnFailure data with
                        | Some true => true
                        | _ => false
                        end in
  match getMeta with
  | Resolved meta =>
      if String.eqb subcommand "debug"
      then
        let portForwardedCb (r : Result (option string))
          : Callback (option string) :=
          match r with
          | Rejected err => Cb.done (Rejected err)
          | Resolved _ =>
              match browserCmd_ with
              | Some cmd => cb_runBrowser bridge cmd localPort_
              | None => Cb.done (Resolved None)
              end
          end in
        let launchCb (r : Result (option string))
          : Callback (option string) :=
          match r with
          | Rejected err => Cb.done (Rejected err)
          | Resolved result =>
              match Js.present result with
              | Some stdout =>
                  match Js.match_port stdout with
                  | None =>
                      Cb.done (Rejected
                                 (Error
                                    "no remote port available for debugging"))
                  | Some digits =>
                      let remotePort := Js.parseInt digits in
                      Cb.on (cb_portForward bridge localPort_ remotePort)
                            portForwardedCb
                  end
              | None =>
                  Cb.done (Rejected
                             (Error "could not launch app in debug mode"))
              end
          end in
        Cb.on (cb_launch bridge subcommand (id meta) stopOnFailure_) launchCb
      else cb_launch bridge subcommand (id meta) stopOnFailure_
  | Rejected err => Cb.done (Rejected err)
  end.

Definition watch : Callback (option string) := Cb.never.

Definition tizenPrepareTask : Callback (option string) :=
  let localScript := cb_tizenAppScriptLocal bridge in
  let remoteDir_ := cb_tizenAppScriptDir bridge in
  push {| action := None; asRoot := None;
          localFiles := option_map FString localScript;
          remoteDir := remoteDir_;
          overwrite := Some true; chmod := Some "+x";
          remoteFiles := None; stopOnFailure := None;
          remoteScript := None; args := None;
          localPort := None; browserCmd := None |}.

(** The command function that [tizenTask] selects for an action, applied
    to its arguments but for the callback, with the [asRoot] flag as the
    action leaves it. *)
Definition select (data : TaskData) (action_ : string) (asRoot_ : bool)
  : option (Callback (option string)) * bool :=
  if String.eqb action_ "push" then (Some (push data), asRoot_)
  else if String.eqb action_ "install" then (Some (install data), true)
  else if String.eqb action_ "uninstall" then (Some (uninstall data), asRoot_)
  else if String.eqb action_ "script" then (Some (script data), asRoot_)
  else if String.eqb action_ "start" || String.eqb action_ "stop"
          || String.eqb action_ "debug"
  then (Some (launch data action_), asRoot_)
  else if String.eqb action_ "watch" then (Some watch, asRoot_)
  else (None, asRoot_).

Definition tizenTask (data : TaskData) : Callback (option string) :=
  let asRoot_ := match asRoot data with Some b => b | None => false end in
  match Js.present (action data) with
  | None => Cb.done (Rejected (Error "tizen task requires action argument"))
  | Some action_ =>
      match select data action_ asRoot_ with
      | (None, _) =>
          Cb.done (Rejected
                     (Error ("action " ++ Js.DQUOTE ++ action_ ++ Js.DQUOTE
                               ++ " was not recognised as valid")))
      | (Some cmd, asRoot_) =>
          if asRoot_
          then
            (* the callback that turns root off after the command *)
            let cb (r : Result (option string)) : Callback (option string) :=
              Cb.on (cb_root bridge false)
                    (fun r' => match r with
                               | Rejected err => Cb.done (Rejected err)
                               | Resolved _ => Cb.done r'
                               end) in
            Cb.on (cb_root bridge true)
                  (fun r => match r with
                            | Rejected err => Cb.done (Rejected err)
                            | Resolved _ => Cb.on cmd cb
                            end)
          else cmd
      end
  end.

End Create.
End TasksCb.

(** The callback bridge with another [root] method for turning root off;
    turning root on is left as it is. *)
Definition with_root_off (off : Callback (option string)) (bridge : BridgeCb)
  : BridgeCb :=
  {| cb_push := cb_push bridge;
     cb_install := cb_install bridge;
     cb_uninstall := cb_uninstall bridge;
     cb_runScript := cb_runScript bridge;
     cb_launch := cb_launch bridge;
     cb_portForward := cb_portForward bridge;
     cb_runBrowser := cb_runBrowser bridge;
     cb_root := fun on => if on then cb_root bridge true else off;
     cb_tizenAppScriptLocal := cb_tizenAppScriptLocal bridge;
     cb_tizenAppScriptDir := cb_tizenAppScriptDir bridge |}.

(** The callback bridge with other [portForward] and [runBrowser]
    methods. *)
Definition with_debugging_cb
           (portForward_ : JsPort -> N -> Callback (option string))
           (runBrowser_ : string -> JsPort -> Callback (option string))
           (bridge : BridgeCb) : BridgeCb :=
  {| cb_push := cb_push bridge;
     cb_install := cb_install bridge;
     cb_uninstall := cb_uninstall bridge;
     cb_runScript := cb_runScript bridge;
     cb_launch := cb_launch bridge;
     cb_portForward := portForward_;
     cb_runBrowser := runBrowser_;
     cb_root := cb_root bridge;
     cb_tizenAppScriptLocal := cb_tizenAppScriptLocal bridge;
     cb_tizenAppScriptDir := cb_tizenAppScriptDir bridge |}.

(** A promise-based bridge behind the callback interface: every callback
    is invoked once the promise is settled, with its error or with its
    value. *)
Definition call_back {A : Type} (value : A -> option string) (p : Promise A)
  : Callback (option string) :=
  fun t => match p t with
           | (Resolved v, t') => (Some (Resolved (value v)), t')
           | (Rejected e, t') => (Some (Rejected e), t')
           end.

Definition nodeify (bridge : BridgeI) (local dir : option string)
  : BridgeCb :=
  {| cb_push := fun f d o c =>
                  call_back (fun _ => None) (bridge_push bridge f d o c);
     cb_install := fun f => call_back (fun _ => None) (bridge_install bridge f);
     cb_uninstall := fun p s =>
                       call_back (fun _ => None) (bridge_uninstall bridge p s);
     cb_runScript := fun s a => call_back Some (bridge_runScript bridge s a);
     cb_launch := fun c i s => call_back (fun v => v) (bridge_launch bridge c i s);
     cb_portForward := fun l r =>
                         call_back Some (bridge_portForward bridge l r);
     cb_runBrowser := fun c l => call_back Some (bridge_runBrowser bridge c l);
     cb_root := fun on => call_back (fun _ => None) (bridge_root bridge on);
     cb_tizenAppScriptLocal := local;
     cb_tizenAppScriptDir := dir |}.

(** The error a task ends with, if it ends with one. *)
Definition task_error {A : Type} (r : option (Result A)) : option JsError :=
  match r with
  | Some (Rejected e) => Some e
  | _ => None
  end.

(** The actions that the [tizenTask] of lib/tasks-maker.js knows. *)
Definition callback_actions : list string :=
  (known_actions ++ ["watch"])%list.

(** The error of a settled promise, if it is rejected. *)
Definition error_of {A : Type} (r : Result A) : option JsError :=
  match r with
  | Rejected e => Some e
  | Resolved _ => None
  end.

(** Whether the task runs inside the root bracket. *)
Definition runs_as_root (data : TaskData) (action_ : string) : bool :=
  match asRoot data with
  | Some true => true
  | _ => String.eqb action_ "install"
  end.

(** A call with a callback and a promise report the same: the same events,
    the callback is invoked, and with an error exactly when the promise is
    rejected, the error being the same. *)
Definition report_alike {A B : Type} (c : Callback A) (p : Promise B)
  : Prop :=
  forall t, task_error (fst (c t)) = error_of (fst (p t)) /\
            snd (c t) = snd (p t) /\
            fst (c t) <> None.

(** Whether an event is a call of the logger. *)
Definition is_log (ev : Event) : bool :=
  match ev with
  | Log _ _ => true
  | _ => false
  end.

(** A debug invocation on a given local port, without a browser. *)
Definition debugDataOn (port : JsPort) : TaskData :=
  {| action := Some "debug"; asRoot := None; localFiles := None;
     remoteDir := None; overwrite := None; chmod := None;
     remoteFiles := None; stopOnFailure := None; remoteScript := None;
     args := None; localPort := Some port; browserCmd := None |}.

(** A port that is written in full: a string, or a number below 2^53, up
    to which the numbers of JavaScript are exact and written with all
    their digits. *)
Definition exact_port (p : JsPort) : bool :=
  match p with
  | PortNum n => (n <? 2 ^ 53)%N
  | PortStr _ => true
  end.

(** A device on which [ls] prints two packages, each line terminated, as
    [ls] does. *)
Definition terminatedLsConfig : BridgeConfig :=
  recordingConfig
    (answersOf (shellSdb (fun _ => Resolved ("/home/developer/b.wgt" ++ CRLF
                                               ++ "/home/developer/a.wgt"
                                               ++ CRLF)))
               [])
    None.

(** * Properties *)

Example includes_ex :
  Js.includes "failed" "pkgcmd failed: 1" = true /\
  Js.includes "failed" "ok" = false.
Proof. split; reflexivity. Qed.

Example split_ex :
  Js.split Js.LF (String "a" (String Js.LF (String "b" (String Js.LF "")))) = ["a"; "b"; ""] /\
  Js.split Js.LF "" = [""].
Proof. split; reflexivity. Qed.

Example strip_ex :
  Js.strip_trailing_slash "/tmp//" = "/tmp/" /\
  Js.strip_trailing_slash "/tmp/" = "/tmp" /\
  Js.strip_trailing_slash "/tmp" = "/tmp" /\
  Js.strip_trailing_slash "/" = "" /\
  Js.strip_trailing_slash "" = "".
Proof. repeat split; reflexivity. Qed.

Example match_port_ex :
  Js.match_port "PORT 1234" = Some "1234" /\
  Js.match_port "launched; PORT 26099 ok" = Some "26099" /\
  Js.match_port "PORT x PORT 7" = Some "7" /\
  Js.match_port "PORT" = None /\
  Js.match_port "REPORT 12" = Some "12" /\
  Js.match_port "port 12" = None.
Proof. repeat split; reflexivity. Qed.

Example parseInt_ex : Js.parseInt "1234" = 1234%N /\ Js.of_N 8888 = "8888".
Proof. split; reflexivity. Qed.

Example basename_ex :
  Js.basename "build/one.wgt" = "one.wgt" /\
  Js.basename "/a/b/" = "b" /\
  Js.basename "one.wgt" = "one.wgt" /\
  Js.basename "/" = "" /\
  Js.basename "a//b//" = "b".
Proof. repeat split; reflexivity. Qed.

Example replace_first_ex :
  Js.replace_first "%URL%" "http://x" "chrome %URL% %URL%" = "chrome http://x %URL%".
Proof. reflexivity. Qed.

(** ** Facts about the string operations *)

#[local] Arguments Ascii.eqb : simpl never.
#[local] Arguments String.eqb : simpl never.
#[local] Arguments Js.port_here : simpl never.

Section JsFacts.

Lemma split_nonempty (sep : ascii) (s : string) : Js.split sep s <> [].
Proof.
  destruct s as [|c s]; simpl; [discriminate|].
  destruct (Ascii.eqb c sep); [discriminate|].
  destruct (Js.split sep s); discriminate.
Qed.

Lemma split_join (sep : ascii) (s : string) :
  Js.join (String sep EmptyString) (Js.split sep s) = s.
Proof.
  unfold Js.join.
  induction s as [|c s IH]; simpl; [reflexivity|].
  destruct (Ascii.eqb_spec c sep) as [->|Hne].
  - pose proof (split_nonempty sep s) as Hn.
    destruct (Js.split sep s) as [|h tl] eqn:E; [congruence|].
    simpl in *. now rewrite IH.
  - pose proof (split_nonempty sep s) as Hn.
    destruct (Js.split sep s) as [|h tl] eqn:E; [congruence|].
    destruct tl as [|h' tl']; simpl in *; now rewrite <- IH.
Qed.

Lemma split_no_sep (sep : ascii) (s : string) :
  Forall (fun entry => no_char sep entry = true) (Js.split sep s).
Proof.
  induction s as [|c s IH]; simpl.
  - constructor; [reflexivity|constructor].
  - destruct (Ascii.eqb_spec c sep) as [->|Hne].
    + constructor; [reflexivity|exact IH].
    + destruct (Js.split sep s) as [|h tl].
      * constructor; [|constructor].
        unfold no_char; simpl.
        destruct (Ascii.eqb_spec sep c); [congruence|reflexivity].
      * inversion IH as [|? ? Hh Htl]; subst.
        constructor; [|exact Htl].
        unfold no_char in *; simpl.
        destruct (Ascii.eqb_spec sep c); [congruence|exact Hh].
Qed.

Lemma remove_cr_no_cr (s : string) : no_char Js.CR (Js.remove_cr s) = true.
Proof.
  unfold no_char.
  induction s as [|c s IH]; simpl; [reflexivity|].
  destruct (Ascii.eqb_spec c Js.CR) as [->|Hne]; [exact IH|].
  simpl. destruct (Ascii.eqb_spec Js.CR c); [congruence|exact IH].
Qed.

Lemma no_char_drop_lone_newline (c : ascii) (s : string) :
  no_char c s = true -> no_char c (Js.drop_lone_newline s) = true.
Proof.
  unfold Js.drop_lone_newline.
  destruct (String.eqb s (String Js.LF EmptyString)); auto.
Qed.

(** An entry of a split string is made of characters of that string. *)
Lemma split_entries_sub (sep c : ascii) (s : string) :
  no_char c s = true ->
  Forall (fun entry => no_char c entry = true) (Js.split sep s).
Proof.
  unfold no_char.
  induction s as [|a s IH]; simpl; intros H.
  - constructor; [reflexivity|constructor].
  - apply negb_true_iff, orb_false_iff in H. destruct H as [Ha Hs].
    assert (Hs' : negb (existsb (Ascii.eqb c) (list_ascii_of_string s)) = true)
      by (now rewrite Hs).
    specialize (IH Hs').
    destruct (Ascii.eqb a sep).
    + constructor; [reflexivity|exact IH].
    + destruct (Js.split sep s) as [|h tl].
      * constructor; [|constructor]. simpl. now rewrite Ha.
      * inversion IH as [|? ? Hh Htl]; subst.
        constructor; [|exact Htl]. simpl. now rewrite Ha.
Qed.

Lemma append_assoc (a b c : string) : (a ++ b) ++ c = a ++ b ++ c.
Proof. induction a as [|x a IH]; simpl; [reflexivity|now rewrite IH]. Qed.

Lemma strip_trailing_slash_snoc (s : string) (c : ascii) :
  Js.strip_trailing_slash (s ++ String c EmptyString) =
  if Ascii.eqb c Js.SLASH then s else s ++ String c EmptyString.
Proof.
  induction s as [|a s IH]; simpl.
  - destruct (Ascii.eqb c Js.SLASH); reflexivity.
  - destruct (s ++ String c EmptyString) eqn:E.
    + destruct s; discriminate.
    + rewrite IH. destruct (Ascii.eqb c Js.SLASH); reflexivity.
Qed.

(** Every string is empty or ends with some character. *)
Lemma string_snoc_cases (s : string) :
  s = EmptyString \/ exists s' c, s = s' ++ String c EmptyString.
Proof.
  induction s as [|a s IH]; [now left|right].
  destruct IH as [->|(s' & c & ->)].
  - now exists EmptyString, a.
  - now exists (String a s'), c.
Qed.

Lemma strip_prefix_spec (p s rest : string) :
  Js.strip_prefix p s = Some rest <-> s = p ++ rest.
Proof.
  revert s. induction p as [|a p IH]; intros s; simpl.
  - split; [intros H; now injection H|intros ->; reflexivity].
  - destruct s as [|b s]; [split; discriminate|].
    destruct (Ascii.eqb_spec a b) as [->|Hne].
    + rewrite IH. split; [intros ->; reflexivity|intros H; now injection H].
    + split; [discriminate|intros H; injection H; congruence].
Qed.

Lemma take_digits_spec (s : string) :
  exists post,
    s = Js.take_digits s ++ post /\
    all_digits (Js.take_digits s) = true /\
    starts_with_digit post = false.
Proof.
  induction s as [|c s (post & Hs & Hd & Hp)]; simpl.
  - exists EmptyString. repeat split.
  - destruct (Js.is_digit c) eqn:Hc.
    + exists post. simpl. rewrite <- Hs.
      unfold all_digits in *. simpl. rewrite Hc, Hd. repeat split.
      exact Hp.
    + exists (String c s). simpl. rewrite Hc. repeat split.
Qed.

Lemma take_digits_app (ds post : string) :
  all_digits ds = true -> starts_with_digit post = false ->
  Js.take_digits (ds ++ post) = ds.
Proof.
  unfold all_digits. induction ds as [|d ds IH]; simpl; intros Hd Hp.
  - destruct post as [|c post]; [reflexivity|].
    simpl in *. now rewrite Hp.
  - apply andb_true_iff in Hd. destruct Hd as [Hd Hds].
    rewrite Hd. now rewrite IH.
Qed.

(** A match at the head of [s] is the text [PORT ], then the captured
    digits, at least one and as many as there are. *)
Lemma port_here_spec (s ds : string) :
  Js.port_here s = Some ds <->
  exists post,
    s = "PORT " ++ ds ++ post /\ ds <> "" /\
    all_digits ds = true /\ starts_with_digit post = false.
Proof.
  unfold Js.port_here. split.
  - destruct (Js.strip_prefix "PORT " s) as [rest|] eqn:Hrest; [|discriminate].
    apply strip_prefix_spec in Hrest.
    destruct (take_digits_spec rest) as (post & Hs & Hd & Hp).
    destruct (Js.take_digits rest) as [|d ds'] eqn:Htake; [discriminate|].
    intros H. injection H as <-.
    exists post. rewrite Hrest. rewrite Hs at 1.
    repeat split; try assumption. discriminate.
  - intros (post & -> & Hne & Hd & Hp).
    assert (Hstrip : Js.strip_prefix "PORT " ("PORT " ++ ds ++ post)
                     = Some (ds ++ post))
      by (now apply strip_prefix_spec).
    rewrite Hstrip. rewrite (take_digits_app ds post Hd Hp).
    destruct ds; [congruence|reflexivity].
Qed.

Lemma match_port_unfold (s : string) :
  Js.match_port s =
  match Js.port_here s with
  | Some ds => Some ds
  | None => match s with
            | EmptyString => None
            | String _ s' => Js.match_port s'
            end
  end.
Proof. destruct s; reflexivity. Qed.

(** [match_port] returns the capture of the leftmost match. *)
Lemma match_port_spec (s ds : string) :
  Js.match_port s = Some ds <->
  exists pre suf,
    s = pre ++ suf /\ Js.port_here suf = Some ds /\
    (forall p1 p2, pre = p1 ++ p2 -> p2 <> "" ->
                   Js.port_here (p2 ++ suf) = None).
Proof.
  split.
  - induction s as [|c s IH]; rewrite match_port_unfold.
    + destruct (Js.port_here "") eqn:Hh; [|discriminate].
      intros H. injection H as ->. exists "", "". repeat split; try assumption.
      intros p1 p2 Hp Hne. destruct p1; destruct p2; try discriminate; congruence.
    + destruct (Js.port_here (String c s)) as [ds'|] eqn:Hh.
      * intros H. injection H as ->.
        exists "", (String c s). repeat split; try assumption.
        intros p1 p2 Hp Hne. destruct p1; destruct p2; try discriminate; congruence.
      * intros H. destruct (IH H) as (pre & suf & -> & Hsuf & Hleft).
        exists (String c pre), suf. repeat split; try assumption.
        intros p1 p2 Hp Hne. destruct p1 as [|a p1]; simpl in Hp.
        -- subst p2. exact Hh.
        -- injection Hp as -> Hp. now apply (Hleft p1 p2).
  - intros (pre & suf & -> & Hsuf & Hleft).
    induction pre as [|c pre IH].
    + change ("" ++ suf) with suf.
      rewrite match_port_unfold. now rewrite Hsuf.
    + change (String c pre ++ suf) with (String c (pre ++ suf)).
      rewrite match_port_unfold.
      assert (Hhead : Js.port_here (String c (pre ++ suf)) = None)
        by (apply (Hleft "" (String c pre) eq_refl); discriminate).
      rewrite Hhead.
      apply IH. intros p1 p2 -> Hne.
      now apply (Hleft (String c p1) p2).
Qed.

Lemma match_port_none (s : string) :
  Js.match_port s = None <->
  forall pre suf, s = pre ++ suf -> Js.port_here suf = None.
Proof.
  split.
  - intros Hnone pre suf ->.
    induction pre as [|c pre IH].
    + change ("" ++ suf) with suf in Hnone.
      rewrite match_port_unfold in Hnone.
      destruct (Js.port_here suf); [discriminate|reflexivity].
    + change (String c pre ++ suf) with (String c (pre ++ suf)) in Hnone.
      rewrite match_port_unfold in Hnone.
      destruct (Js.port_here (String c (pre ++ suf))); [discriminate|].
      now apply IH.
  - intros Hall. induction s as [|c s IH]; rewrite match_port_unfold.
    + now rewrite (Hall "" "" eq_refl).
    + rewrite (Hall "" (String c s) eq_refl).
      apply IH. intros pre suf ->. now apply (Hall (String c pre) suf).
Qed.

(** A match at the head of a string is still one when text is appended. *)
Lemma port_here_app (p q ds : string) :
  Js.port_here p = Some ds -> Js.port_here (p ++ q) <> None.
Proof.
  intros H. apply port_here_spec in H.
  destruct H as (post & -> & Hne & Hd & _).
  unfold Js.port_here.
  assert (Hstrip : Js.strip_prefix "PORT " (("PORT " ++ ds ++ post) ++ q)
                   = Some ((ds ++ post) ++ q))
    by (now apply strip_prefix_spec).
  rewrite Hstrip.
  destruct ds as [|d ds]; [congruence|].
  unfold all_digits in Hd. simpl in Hd.
  apply andb_true_iff in Hd. destruct Hd as [Hd _].
  simpl. rewrite Hd. discriminate.
Qed.

End JsFacts.


(** ** Bridge.getDestination *)

Lemma ends_with_slash_snoc (s : string) (c : ascii) :
  ends_with_slash (s ++ String c "") = Ascii.eqb c Js.SLASH.
Proof.
  induction s as [|a s IH]; [reflexivity|].
  simpl. destruct (s ++ String c "") eqn:E; [|exact IH].
  destruct s; discriminate.
Qed.

(** C6: [getDestination] is a total function of its two arguments.  It
    removes exactly one trailing slash from [remoteDir]: [remoteDir] is
    either the stem followed by one slash, or the stem itself when it does
    not end with a slash; a second trailing slash stays in the stem.  The
    result is the stem, a slash and the base name of [localPath]. *)
Theorem getDestination_strips_one_trailing_slash :
  forall localPath remoteDir : string,
    (exists stem,
        Bridge.getDestination localPath remoteDir =
        stem ++ "/" ++ Js.basename localPath /\
        (remoteDir = stem ++ "/" \/
         (remoteDir = stem /\ ends_with_slash remoteDir = false))) /\
    Bridge.getDestination localPath (remoteDir ++ "/") =
    remoteDir ++ "/" ++ Js.basename localPath /\
    Bridge.getDestination localPath (remoteDir ++ "//") =
    remoteDir ++ "//" ++ Js.basename localPath.
Proof.
  intros localPath remoteDir. unfold Bridge.getDestination. split; [|split].
  - destruct (string_snoc_cases remoteDir) as [->|(stem & c & ->)].
    + exists "". split; [reflexivity|]. right. now split.
    + rewrite strip_trailing_slash_snoc, ends_with_slash_snoc.
      destruct (Ascii.eqb_spec c Js.SLASH) as [->|Hne].
      * exists stem. split; [reflexivity|]. now left.
      * exists (stem ++ String c ""). split; [reflexivity|]. right. now split.
  - now rewrite (strip_trailing_slash_snoc remoteDir "/").
  - change "//" with ("/" ++ "/").
    rewrite <- (append_assoc remoteDir "/" "/").
    rewrite (strip_trailing_slash_snoc (remoteDir ++ "/") "/").
    rewrite Ascii.eqb_refl. now rewrite append_assoc.
Qed.

Example getDestination_ex :
  Bridge.getDestination "build/one.wgt" "/home/developer" = "/home/developer/one.wgt" /\
  Bridge.getDestination "build/one.wgt" "/home/developer/" = "/home/developer/one.wgt" /\
  Bridge.getDestination "build/one.wgt" "/home/developer//" = "/home/developer//one.wgt".
Proof. repeat split; reflexivity. Qed.


(** ** Bridge.listRemoteFiles *)

Ltac unfold_q :=
  unfold Q.fail, Q.then_, Q.then2, Q.resolve, Q.reject, Q.finally,
    Q.settled, log in *.

(** What holds of [listRemoteFiles]: a path is returned as a one-element
    list and a list of paths as it is, the trace being left as it was
    (nothing is called); for a pattern object the command
    [ls -1 -c <pattern>] is given to the sdb shell and, when it succeeds,
    its output without carriage returns (and emptied when it is a lone
    newline) is split at the newlines, the entries keeping their order;
    with the filter [latest] only the first entry is returned. *)
Theorem listRemoteFiles_spec :
  forall (config : BridgeConfig) (t : Trace),
    (forall path,
        Bridge.listRemoteFiles config (FString path) t = (Resolved [path], t)) /\
    (forall paths,
        Bridge.listRemoteFiles config (FArray paths) t = (Resolved paths, t)) /\
    (forall pattern filter stdout t',
        sdb_shell (sdbWrapper config) ("ls -1 -c " ++ pattern) t
        = (Resolved stdout, t') ->
        exists newest older,
          let normalized := Js.drop_lone_newline (Js.remove_cr stdout) in
          Js.split Js.LF normalized = newest :: older /\
          Js.join (String Js.LF "") (newest :: older) = normalized /\
          (Js.remove_cr stdout = String Js.LF "" -> normalized = "") /\
          Forall (fun entry => no_char Js.CR entry = true
                               /\ no_char Js.LF entry = true)
                 (newest :: older) /\
          Bridge.listRemoteFiles config (FPattern pattern filter) t =
          (Resolved (if match filter with
                        | Some f => String.eqb f "latest"
                        | None => false
                        end
                     then [newest] else newest :: older), t')).
Proof.
  intros config t. split; [reflexivity|]. split; [reflexivity|].
  intros pattern filter stdout t' Hshell.
  set (normalized := Js.drop_lone_newline (Js.remove_cr stdout)).
  destruct (Js.split Js.LF normalized) as [|newest older] eqn:Hsplit.
  { now apply split_nonempty in Hsplit. }
  exists newest, older. cbv zeta. fold normalized.
  split; [exact Hsplit|]. split; [rewrite <- Hsplit; apply split_join|].
  split.
  { intros Hlone. unfold normalized, Js.drop_lone_newline.
    rewrite Hlone. now rewrite String.eqb_refl. }
  split.
  { rewrite <- Hsplit.
    pose proof (split_entries_sub Js.LF Js.CR normalized
                  (no_char_drop_lone_newline _ _ (remove_cr_no_cr stdout))) as Hcr.
    pose proof (split_no_sep Js.LF normalized) as Hlf.
    rewrite Forall_forall in *. intros entry Hin. split; auto. }
  unfold Bridge.listRemoteFiles. unfold_q. rewrite Hshell.
  fold normalized. rewrite Hsplit.
  destruct filter as [f|]; [destruct (String.eqb f "latest")|]; reflexivity.
Qed.

Lemma listRemoteFiles_spec_witness :
  sdb_shell (sdbWrapper lsConfig) ("ls -1 -c " ++ "/home/developer/*.wgt") []
  = (Resolved ("/home/developer/b.wgt" ++ CRLF ++ "/home/developer/a.wgt"),
     [SdbShell "ls -1 -c /home/developer/*.wgt"]) /\
  Bridge.listRemoteFiles lsConfig
    (FPattern "/home/developer/*.wgt" (Some "latest")) []
  = (Resolved ["/home/developer/b.wgt"],
     [SdbShell "ls -1 -c /home/developer/*.wgt"]).
Proof.
  split; [reflexivity|].
  destruct (listRemoteFiles_spec lsConfig []) as (_ & _ & Hpattern).
  destruct (Hpattern "/home/developer/*.wgt" (Some "latest") _ _ eq_refl)
    as (newest & older & Hsplit & _ & _ & _ & Hresult).
  vm_compute in Hsplit. injection Hsplit as <- <-.
  exact Hresult.
Defined.

Lemma split_app (sep : ascii) (a b : string) :
  Js.split sep (a ++ String sep b) = (Js.split sep a ++ Js.split sep b)%list.
Proof.
  induction a as [|c a IH].
  - change ("" ++ String sep b) with (String sep b).
    cbn [Js.split]. now rewrite Ascii.eqb_refl.
  - change (String c a ++ String sep b) with (String c (a ++ String sep b)).
    cbn [Js.split]. rewrite IH.
    destruct (Ascii.eqb c sep); [reflexivity|].
    destruct (Js.split sep a) as [|h rest] eqn:Ha; [|reflexivity].
    now apply split_nonempty in Ha.
Qed.

(** C7: [listRemoteFiles] departs from the specification on blank output.
    Only an output that is one newline, once the carriage returns are
    removed, is emptied: the pattern [^\n$] has no [m] flag and matches
    nothing else.  Every other newline separates two entries, also when
    nothing stands before it, after it or between two of them, so that
    blank lines are kept as empty names: an output made of two empty
    lines gives three empty names (and the empty name as the latest), and
    a listing whose last line is terminated, as [ls] prints it, ends with
    an empty name.  The comment in the source says that the output is
    cleaned up "so it contains no blank lines". *)
Theorem listRemoteFiles_keeps_blank_lines :
  forall (config : BridgeConfig) (pattern stdout : string) (t t' : Trace),
    sdb_shell (sdbWrapper config) ("ls -1 -c " ++ pattern) t
    = (Resolved stdout, t') ->
    let listed := Bridge.listRemoteFiles config (FPattern pattern None) t in
    let latest :=
      Bridge.listRemoteFiles config (FPattern pattern (Some "latest")) t in
    (forall before after,
        Js.remove_cr stdout = before ++ String Js.LF after ->
        before ++ after <> "" ->
        listed
        = (Resolved (Js.split Js.LF before ++ Js.split Js.LF after)%list, t'))
    /\
    (forall listing,
        Js.remove_cr stdout = listing ++ String Js.LF "" ->
        listing <> "" ->
        listed = (Resolved (Js.split Js.LF listing ++ [""])%list, t')) /\
    (Js.remove_cr stdout = String Js.LF (String Js.LF "") ->
     listed = (Resolved [""; ""; ""], t') /\ latest = (Resolved [""], t')).
Proof.
  intros config pattern stdout t t' Hshell listed latest.
  assert (Hrun : forall filter,
             Bridge.listRemoteFiles config (FPattern pattern filter) t
             = (Resolved
                  (let fileArray :=
                     Js.split Js.LF
                              (Js.drop_lone_newline (Js.remove_cr stdout)) in
                   if match filter with
                      | Some f => String.eqb f "latest"
                      | None => false
                      end
                   then firstn 1 fileArray else fileArray), t')).
  { intros filter. unfold Bridge.listRemoteFiles. unfold_q. rewrite Hshell.
    cbv zeta.
    destruct filter as [f|]; [destruct (String.eqb f "latest")|];
      reflexivity. }
  assert (Hsplit : forall before after,
             Js.remove_cr stdout = before ++ String Js.LF after ->
             before ++ after <> "" ->
             listed
             = (Resolved
                  (Js.split Js.LF before ++ Js.split Js.LF after)%list, t')).
  { intros before after Hout Hmore. unfold listed.
    rewrite (Hrun None). cbv zeta. rewrite Hout.
    assert (Hkept : Js.drop_lone_newline (before ++ String Js.LF after)
                    = before ++ String Js.LF after).
    { unfold Js.drop_lone_newline.
      destruct (String.eqb_spec (before ++ String Js.LF after)
                                (String Js.LF "")) as [Hlone|];
        [|reflexivity].
      exfalso. destruct before as [|c before].
      - injection Hlone as ->. now apply Hmore.
      - injection Hlone as _ Hrest. destruct before; discriminate. }
    rewrite Hkept. now rewrite split_app. }
  split; [exact Hsplit|]. split.
  - intros listing Hout Hmore.
    rewrite (Hsplit listing "" Hout); [reflexivity|].
    intros H. apply Hmore. destruct listing; [reflexivity|discriminate].
  - intros Hout. unfold listed, latest.
    rewrite (Hrun None), (Hrun (Some "latest")). cbv zeta.
    rewrite Hout. split; reflexivity.
Qed.

Lemma listRemoteFiles_keeps_blank_lines_witness :
  sdb_shell (sdbWrapper terminatedLsConfig)
            ("ls -1 -c " ++ "/home/developer/*.wgt") []
  = (Resolved ("/home/developer/b.wgt" ++ CRLF ++ "/home/developer/a.wgt"
                 ++ CRLF),
     [SdbShell "ls -1 -c /home/developer/*.wgt"]) /\
  Bridge.listRemoteFiles terminatedLsConfig
    (FPattern "/home/developer/*.wgt" None) []
  = (Resolved ["/home/developer/b.wgt"; "/home/developer/a.wgt"; ""],
     [SdbShell "ls -1 -c /home/developer/*.wgt"]).
Proof.
  split; [reflexivity|].
  destruct (listRemoteFiles_keeps_blank_lines
              terminatedLsConfig "/home/developer/*.wgt" _ [] _ eq_refl)
    as (_ & Hterminated & _).
  rewrite (Hterminated ("/home/developer/b.wgt" ++ String Js.LF ""
                          ++ "/home/developer/a.wgt")
                       eq_refl).
  - reflexivity.
  - discriminate.
Defined.


(** ** TizenConfig.getMeta *)

Section MetaCache.

Variable parse : string -> Result Meta.

Lemma getMeta_when_cached (fs : TizenConfig.FileSystem) (this : TizenConfig.t)
      (meta : Meta) :
  TizenConfig.configParsed this = Some meta ->
  TizenConfig.getMeta parse fs this = (Resolved meta, this, []).
Proof. intros H. unfold TizenConfig.getMeta. now rewrite H. Qed.

Lemma getMeta_success_caches (fs : TizenConfig.FileSystem)
      (this this' : TizenConfig.t) (meta : Meta) (reads : list string) :
  TizenConfig.getMeta parse fs this = (Resolved meta, this', reads) ->
  TizenConfig.configParsed this' = Some meta.
Proof.
  unfold TizenConfig.getMeta.
  destruct (TizenConfig.configParsed this) as [cached|] eqn:Hc.
  - intros H. injection H as <- <- _. exact Hc.
  - destruct (fs (TizenConfig.configFile this)) as [text|e]; [|discriminate].
    destruct (parse text); [|discriminate].
    intros H. now injection H as <- <- _.
Qed.

(** The cache, once filled, survives every operation. *)
Lemma step_keeps_cache (this : TizenConfig.t) (op : TizenConfig.Op)
      (meta : Meta) :
  TizenConfig.configParsed this = Some meta ->
  TizenConfig.configParsed (fst (TizenConfig.step parse this op)) = Some meta /\
  (snd (TizenConfig.step parse this op) = None \/
   snd (TizenConfig.step parse this op) = Some (Resolved meta, [])).
Proof.
  intros Hc. destruct op as [fs|path]; simpl.
  - rewrite (getMeta_when_cached fs this meta Hc). simpl. auto.
  - auto.
Qed.

Lemma run_with_cache (ops : list TizenConfig.Op) :
  forall (this : TizenConfig.t) (meta : Meta),
    TizenConfig.configParsed this = Some meta ->
    TizenConfig.configParsed (fst (TizenConfig.run parse this ops)) = Some meta /\
    Forall (fun o => o = None \/ o = Some (Resolved meta, []))
           (snd (TizenConfig.run parse this ops)).
Proof.
  induction ops as [|op ops IH]; intros this meta Hc; simpl.
  - split; [exact Hc|constructor].
  - destruct (step_keeps_cache this op meta Hc) as [Hc' Hobs].
    destruct (TizenConfig.step parse this op) as [this' obs]. simpl in *.
    destruct (IH this' meta Hc') as [Hfinal Hrest].
    destruct (TizenConfig.run parse this' ops) as [final rest]. simpl in *.
    split; [exact Hfinal|]. constructor; assumption.
Qed.

Lemma run_parses_at_most_once (ops : list TizenConfig.Op) :
  forall this : TizenConfig.t,
    length (filter parsed_the_file (snd (TizenConfig.run parse this ops)))
    <= match TizenConfig.configParsed this with Some _ => 0 | None => 1 end.
Proof.
  induction ops as [|op ops IH]; intros this; simpl.
  - destruct (TizenConfig.configParsed this); lia.
  - destruct op as [fs|path]; simpl.
    + unfold TizenConfig.getMeta.
      destruct (TizenConfig.configParsed this) as [cached|] eqn:Hc.
      * specialize (IH this). rewrite Hc in IH.
        destruct (TizenConfig.run parse this ops) as [final rest]. simpl in *.
        exact IH.
      * destruct (fs (TizenConfig.configFile this)) as [text|e'].
        -- destruct (parse text) as [meta|e].
           ++ match goal with
              | |- context [TizenConfig.run parse ?o ops] => specialize (IH o)
              end.
              simpl in IH.
              destruct (TizenConfig.run parse _ ops) as [final rest].
              simpl in *. lia.
           ++ specialize (IH this). rewrite Hc in IH.
              destruct (TizenConfig.run parse this ops) as [final rest].
              simpl in *. exact IH.
        -- specialize (IH this). rewrite Hc in IH.
           destruct (TizenConfig.run parse this ops) as [final rest].
           simpl in *. exact IH.
    + match goal with
      | |- context [TizenConfig.run parse ?o ops] => specialize (IH o)
      end.
      simpl in IH.
      destruct (TizenConfig.run parse _ ops) as [final rest]. simpl in *.
      exact IH.
Qed.

End MetaCache.

(** C9: on one config object, whatever calls of [getMeta] and assignments to
    [configFile] are made and however the files change, at most one call
    reads and parses the file with success; and once a call has succeeded,
    every later call returns the same metadata without reading any file,
    also after [configFile] has been assigned another path. *)
Theorem getMeta_parses_once_then_cached :
  forall parse : string -> Result Meta,
    (forall (configFile_ : option string) (ops : list TizenConfig.Op),
        length (filter parsed_the_file
                  (snd (TizenConfig.run parse (TizenConfig.create configFile_)
                                        ops))) <= 1) /\
    (forall (fs : TizenConfig.FileSystem) (this this' : TizenConfig.t)
            (meta : Meta) (reads : list string),
        TizenConfig.getMeta parse fs this = (Resolved meta, this', reads) ->
        forall ops : list TizenConfig.Op,
          TizenConfig.configParsed (fst (TizenConfig.run parse this' ops))
          = Some meta /\
          Forall (fun o => o = None \/ o = Some (Resolved meta, []))
                 (snd (TizenConfig.run parse this' ops))).
Proof.
  intros parse. split.
  - intros configFile_ ops.
    apply (run_parses_at_most_once parse ops (TizenConfig.create configFile_)).
  - intros fs this this' meta reads Hget ops.
    apply run_with_cache.
    exact (getMeta_success_caches parse fs this this' meta reads Hget).
Qed.

Lemma getMeta_parses_once_then_cached_witness :
  let meta1 := {| id := "app"; uri := "uri"; packageName := "pkg1";
                  content := "index.html" |} in
  let this' := {| TizenConfig.configFile := "config.xml";
                  TizenConfig.configParsed := Some meta1 |} in
  let ops := [TizenConfig.SetConfigFile "other.xml";
              TizenConfig.CallGetMeta toyFs;
              TizenConfig.CallGetMeta emptyFs] in
  TizenConfig.getMeta toyParse toyFs (TizenConfig.create None)
  = (Resolved meta1, this', ["config.xml"]) /\
  snd (TizenConfig.run toyParse this' ops)
  = [None; Some (Resolved meta1, []); Some (Resolved meta1, [])] /\
  Forall (fun o => o = None \/ o = Some (Resolved meta1, []))
         (snd (TizenConfig.run toyParse this' ops)).
Proof.
  intros meta1 this' ops.
  split; [reflexivity|]. split; [reflexivity|].
  destruct (getMeta_parses_once_then_cached toyParse) as [_ Hcached].
  exact (proj2 (Hcached toyFs (TizenConfig.create None) this' meta1
                        ["config.xml"] eq_refl ops)).
Defined.


(** ** Bridge.uninstall and Bridge.launch *)

(** C5: when the invocation of the application script is rejected, or its
    output matches the failure pattern of the operation, [uninstall] and
    [launch] are rejected with that error when [stopOnFailure] is true, and
    are fulfilled, after one warning on the logger, when it is false. *)
Theorem stopOnFailure_semantics :
  forall (config : BridgeConfig) (t : Trace),
    (forall (packageName_ : string) (r : Result string) (t1 : Trace),
        Bridge.runTizenAppScript config "uninstall" [packageName_] t = (r, t1) ->
        remote_failed Bridge.uninstall_failed r = true ->
        let err := remote_error
                     (fun _ => Error ("package " ++ packageName_
                                        ++ " could not be uninstalled")) r in
        let t2 := match r with
                  | Resolved stdout => (t1 ++ [Log LWrite (LStr stdout)])%list
                  | Rejected _ => t1
                  end in
        Bridge.uninstall config packageName_ true t = (Rejected err, t2) /\
        Bridge.uninstall config packageName_ false t =
        (Resolved tt,
         (t2 ++ [Log LWarn
                     (LStr "could not uninstall package; continuing anyway")])
         %list)) /\
    (forall (subcommand appUri : string) (r : Result string) (t1 : Trace),
        Bridge.runTizenAppScript config subcommand [appUri] t = (r, t1) ->
        remote_failed Bridge.launch_failed r = true ->
        let err := remote_error Error r in
        let warning := "app with id " ++ appUri ++ " could not be "
                       ++ (if String.eqb subcommand "stop"
                           then "stopped" else "launched") in
        Bridge.launch config subcommand appUri true t =
        (Rejected err,
         (t1 ++ [Log LError (LStr warning);
                 Log LError (LStr (message err))])%list) /\
        Bridge.launch config subcommand appUri false t =
        (Resolved None,
         (t1 ++ [Log LWarn (LStr (warning ++ "; continuing anyway"))])%list)).
Proof.
  intros config t. split.
  - intros packageName_ r t1 Hrun Hfailed.
    unfold Bridge.uninstall. unfold_q. rewrite Hrun.
    destruct r as [stdout|e]; simpl in *.
    + rewrite Hfailed. split; reflexivity.
    + split; reflexivity.
  - intros subcommand appUri r t1 Hrun Hfailed.
    unfold Bridge.launch. unfold_q. rewrite Hrun.
    destruct r as [stdout|e]; simpl in *.
    + rewrite Hfailed. rewrite <- !app_assoc. split; reflexivity.
    + rewrite <- !app_assoc. split; reflexivity.
Qed.

Lemma stopOnFailure_semantics_witness :
  (Bridge.runTizenAppScript failingScriptConfig "uninstall" ["pkg"] []
   = (Resolved "package is not installed",
      [SdbShell "/opt/tizen-app.sh uninstall pkg"]) /\
   remote_failed Bridge.uninstall_failed
                 (Resolved "package is not installed") = true /\
   is_rejected (fst (Bridge.uninstall failingScriptConfig "pkg" true []))
   = true /\
   fst (Bridge.uninstall failingScriptConfig "pkg" false []) = Resolved tt) /\
  (Bridge.runTizenAppScript failingScriptConfig "start" ["app"] []
   = (Resolved "application does not exist",
      [SdbShell "/opt/tizen-app.sh start app"]) /\
   remote_failed Bridge.launch_failed
                 (Resolved "application does not exist") = true /\
   is_rejected (fst (Bridge.launch failingScriptConfig "start" "app" true []))
   = true /\
   fst (Bridge.launch failingScriptConfig "start" "app" false [])
   = Resolved None).
Proof.
  destruct (stopOnFailure_semantics failingScriptConfig []) as [Hun Hla].
  split.
  - destruct (Hun "pkg" _ _ eq_refl eq_refl) as [Htrue Hfalse].
    split; [reflexivity|]. split; [reflexivity|].
    rewrite Htrue, Hfalse. split; reflexivity.
  - destruct (Hla "start" "app" _ _ eq_refl eq_refl) as [Htrue Hfalse].
    split; [reflexivity|]. split; [reflexivity|].
    rewrite Htrue, Hfalse. split; reflexivity.
Defined.

(** A tolerated failure of [launch] fulfils the promise with [undefined]. *)
Lemma launch_failure_tolerated (config : BridgeConfig)
      (subcommand appUri : string) (t : Trace) (r : Result string) (t1 : Trace) :
  Bridge.runTizenAppScript config subcommand [appUri] t = (r, t1) ->
  remote_failed Bridge.launch_failed r = true ->
  Bridge.launch config subcommand appUri false t =
  (Resolved None,
   (t1 ++ [Log LWarn
               (LStr (("app with id " ++ appUri ++ " could not be "
                         ++ (if String.eqb subcommand "stop"
                             then "stopped" else "launched"))
                        ++ "; continuing anyway"))])%list).
Proof.
  intros Hrun Hfailed. unfold Bridge.launch. unfold_q. rewrite Hrun.
  destruct r as [stdout|e]; simpl in *.
  - now rewrite Hfailed.
  - reflexivity.
Qed.

(** With recording collaborators the application script adds at most one
    event, a call of the sdb shell. *)
Lemma runTizenAppScript_recorded (answers : Answers) (scriptPath : option string)
      (command : string) (args_ : list string) (t : Trace) :
  snd (Bridge.runTizenAppScript (recordingConfig answers scriptPath)
                                command args_ t) = t \/
  exists cmd,
    snd (Bridge.runTizenAppScript (recordingConfig answers scriptPath)
                                  command args_ t) = (t ++ [SdbShell cmd])%list.
Proof.
  unfold Bridge.runTizenAppScript. simpl.
  destruct (Js.present scriptPath) as [script|]; simpl.
  - right. eexists. reflexivity.
  - now left.
Qed.


(** ** The debug chain of the launch task *)

(** C10: with [stopOnFailure] false, a [launch] whose script invocation is
    rejected or reports a failure is fulfilled with [undefined], not with
    the output; the debug task then fails on the extraction of the port (a
    [TypeError]) right after that launch: nothing is called afterwards, in
    particular the port is never forwarded. *)
Theorem tolerated_launch_failure_stops_debug_chain :
  (forall (config : BridgeConfig) (subcommand appUri : string) (t : Trace)
          (r : Result string) (t1 : Trace),
      Bridge.runTizenAppScript config subcommand [appUri] t = (r, t1) ->
      remote_failed Bridge.launch_failed r = true ->
      fst (Bridge.launch config subcommand appUri false t) = Resolved None) /\
  (forall (config : BridgeConfig) (getMeta : Promise Meta) (data : TaskData)
          (meta : Meta) (t0 t : Trace) (r : Result string) (t1 : Trace),
      stopOnFailure data <> Some true ->
      getMeta t0 = (Resolved meta, t) ->
      Bridge.runTizenAppScript config "debug" [id meta] t = (r, t1) ->
      remote_failed Bridge.launch_failed r = true ->
      exists msg,
        Tasks.launch (theBridge config) getMeta data "debug" t0 =
        (Rejected (TypeError msg),
         snd (Bridge.launch config "debug" (id meta) false t))) /\
  (forall (answers : Answers) (scriptPath : option string)
          (getMeta : Promise Meta) (data : TaskData)
          (meta : Meta) (t0 t : Trace),
      stopOnFailure data <> Some true ->
      getMeta t0 = (Resolved meta, t) ->
      remote_failed Bridge.launch_failed
        (fst (Bridge.runTizenAppScript (recordingConfig answers scriptPath)
                                       "debug" [id meta] t)) = true ->
      forall localPort_ remotePort,
        In (SdbForward localPort_ remotePort)
           (snd (Tasks.launch (theBridge (recordingConfig answers scriptPath))
                              getMeta data "debug" t0)) ->
        In (SdbForward localPort_ remotePort) t).
Proof.
  assert (Hsof : forall data, stopOnFailure data <> Some true ->
                              match stopOnFailure data with
                              | Some true => true
                              | _ => false
                              end = false).
  { intros data H. destruct (stopOnFailure data) as [[|]|]; congruence. }
  assert (Htask : forall config getMeta data meta t0 t r t1,
             stopOnFailure data <> Some true ->
             getMeta t0 = (Resolved meta, t) ->
             Bridge.runTizenAppScript config "debug" [id meta] t = (r, t1) ->
             remote_failed Bridge.launch_failed r = true ->
             Tasks.launch (theBridge config) getMeta data "debug" t0 =
             (Rejected (TypeError ("Cannot read property 'match' "
                                     ++ "of undefined")),
              snd (Bridge.launch config "debug" (id meta) false t))).
  { intros config getMeta data meta t0 t r t1 Hdata Hmeta Hrun Hfailed.
    unfold Tasks.launch. rewrite (Hsof data Hdata).
    unfold Q.then_ at 1. unfold Q.then2 at 1. rewrite Hmeta.
    unfold Q.then_ at 1. unfold Q.then2 at 1. simpl bridge_launch.
    rewrite (launch_failure_tolerated config "debug" (id meta) t r t1 Hrun Hfailed).
    reflexivity. }
  split; [|split].
  - intros config subcommand appUri t r t1 Hrun Hfailed.
    now rewrite (launch_failure_tolerated config subcommand appUri t r t1
                                          Hrun Hfailed).
  - intros config getMeta data meta t0 t r t1 Hdata Hmeta Hrun Hfailed.
    eexists. exact (Htask config getMeta data meta t0 t r t1
                          Hdata Hmeta Hrun Hfailed).
  - intros answers scriptPath getMeta data meta t0 t Hdata Hmeta Hfailed
           localPort_ remotePort.
    set (config := recordingConfig answers scriptPath) in *.
    destruct (Bridge.runTizenAppScript config "debug" [id meta] t)
      as [r t1] eqn:Hrun.
    rewrite (Htask config getMeta data meta t0 t r t1 Hdata Hmeta Hrun Hfailed).
    rewrite (launch_failure_tolerated config "debug" (id meta) t r t1
                                      Hrun Hfailed).
    simpl snd. intros Hin.
    pose proof (runTizenAppScript_recorded answers scriptPath "debug"
                                           [id meta] t) as Hrec.
    fold config in Hrec. rewrite Hrun in Hrec. simpl snd in Hrec.
    apply in_app_or in Hin. destruct Hin as [Hin|[Hin|[]]]; [|discriminate].
    destruct Hrec as [->|[cmd ->]]; [exact Hin|].
    apply in_app_or in Hin. destruct Hin as [Hin|[Hin|[]]];
      [exact Hin|discriminate].
Qed.

Lemma tolerated_launch_failure_stops_debug_chain_witness :
  stopOnFailure (dataFor "debug") <> Some true /\
  Bridge.runTizenAppScript failingScriptConfig "debug" ["app"] []
  = (Resolved "application does not exist",
     [SdbShell "/opt/tizen-app.sh debug app"]) /\
  remote_failed Bridge.launch_failed (Resolved "application does not exist")
  = true /\
  exists msg,
    Tasks.launch (theBridge failingScriptConfig) (Q.resolve exampleMeta)
                 (dataFor "debug") "debug" []
    = (Rejected (TypeError msg),
       [SdbShell "/opt/tizen-app.sh debug app";
        Log LWarn (LStr ("app with id app could not be launched"
                           ++ "; continuing anyway"))]).
Proof.
  assert (Hdata : stopOnFailure (dataFor "debug") <> Some true)
    by discriminate.
  split; [exact Hdata|]. split; [reflexivity|]. split; [reflexivity|].
  destruct tolerated_launch_failure_stops_debug_chain as (_ & Htask & _).
  destruct (Htask failingScriptConfig (Q.resolve exampleMeta)
                  (dataFor "debug") exampleMeta [] [] _ _
                  Hdata eq_refl eq_refl eq_refl) as [msg Hrun].
  exists msg. exact Hrun.
Defined.

(** C4: after a successful launch in debug mode the remote port is the
    capture of the leftmost match of [PORT (\d+)] in the output.  Without
    a match the task is rejected with the message "no remote port available
    for debugging" and nothing more is called.  With a match,
    [portForward] is called with the local port of the request, or
    ['8888'] when there is none, and with the captured number; when it is
    rejected the task is rejected with it and the browser is not run; when
    it is fulfilled, [runBrowser] is called if the request has a browser
    command, and only then.  The captured number is the one written in the
    output as long as it is below 2^53, up to which [parseInt] is exact. *)
Theorem debug_chain :
  forall (bridge : BridgeI) (getMeta : Promise Meta) (data : TaskData)
         (meta : Meta) (stdout : string) (t0 t1 t2 : Trace),
    getMeta t0 = (Resolved meta, t1) ->
    bridge_launch bridge "debug" (id meta)
                  (match stopOnFailure data with
                   | Some true => true
                   | _ => false
                   end) t1
    = (Resolved (Some stdout), t2) ->
    let localPort_ := match present_port (localPort data) with
                      | Some p => p
                      | None => PortStr "8888"
                      end in
    let run := Tasks.launch bridge getMeta data "debug" t0 in
    (Js.match_port stdout = None ->
     (forall pre suf, stdout = pre ++ suf -> Js.port_here suf = None) /\
     run = (Rejected (Error "no remote port available for debugging"), t2)) /\
    (forall digits,
        Js.match_port stdout = Some digits ->
        (exists pre post,
            stdout = pre ++ "PORT " ++ digits ++ post /\
            digits <> "" /\ all_digits digits = true /\
            starts_with_digit post = false /\
            Js.match_port pre = None) /\
        ((Js.parseInt digits < 2 ^ 53)%N ->
         match bridge_portForward bridge localPort_ (Js.parseInt digits) t2
         with
         | (Rejected e, t3) => run = (Rejected e, t3)
         | (Resolved _, t3) =>
             match Js.present (browserCmd data) with
             | None => run = (Resolved None, t3)
             | Some cmd =>
                 run = match bridge_runBrowser bridge cmd localPort_ t3 with
                       | (Resolved out, t4) => (Resolved (Some out), t4)
                       | (Rejected e, t4) => (Rejected e, t4)
                       end
             end
         end)).
Proof.
  intros bridge getMeta data meta stdout t0 t1 t2 Hmeta Hlaunch localPort_ run.
  assert (Hrun : run =
                 match Js.match_port stdout with
                 | None =>
                     (Rejected (Error "no remote port available for debugging"),
                      t2)
                 | Some digits =>
                     match bridge_portForward bridge localPort_
                                              (Js.parseInt digits) t2 with
                     | (Rejected e, t3) => (Rejected e, t3)
                     | (Resolved _, t3) =>
                         match Js.present (browserCmd data) with
                         | None => (Resolved None, t3)
                         | Some cmd =>
                             match bridge_runBrowser bridge cmd localPort_ t3 with
                             | (Resolved out, t4) => (Resolved (Some out), t4)
                             | (Rejected e, t4) => (Rejected e, t4)
                             end
                         end
                     end
                 end).
  { unfold run, Tasks.launch. fold localPort_.
    unfold Q.then_ at 1. unfold Q.then2 at 1. rewrite Hmeta.
    unfold Q.then_ at 1. unfold Q.then2 at 1. rewrite Hlaunch.
    rewrite String.eqb_refl.
    destruct (Js.match_port stdout) as [digits|]; [|reflexivity].
    unfold_q.
    destruct (bridge_portForward bridge localPort_ (Js.parseInt digits) t2)
      as [[out|e] t3]; [|reflexivity].
    destruct (Js.present (browserCmd data)) as [cmd|]; [|reflexivity].
    destruct (bridge_runBrowser bridge cmd localPort_ t3) as [[out'|e] t4];
      reflexivity. }
  split.
  - intros Hnone. split.
    + now apply match_port_none.
    + rewrite Hrun. now rewrite Hnone.
  - intros digits Hsome. split.
    + apply match_port_spec in Hsome.
      destruct Hsome as (pre & suf & -> & Hhere & Hleft).
      apply port_here_spec in Hhere.
      destruct Hhere as (post & -> & Hne & Hd & Hp).
      exists pre, post. repeat split; try assumption.
      apply match_port_none. intros p1 p2 ->.
      destruct p2 as [|c p2]; [reflexivity|].
      destruct (Js.port_here (String c p2)) as [ds|] eqn:Hp2; [|reflexivity].
      exfalso.
      apply (port_here_app (String c p2) ("PORT " ++ digits ++ post) ds Hp2).
      apply (Hleft p1 (String c p2) eq_refl). discriminate.
    + intros _. rewrite Hrun, Hsome.
      destruct (bridge_portForward bridge localPort_ (Js.parseInt digits) t2)
        as [[out|e] t3]; [|reflexivity].
      destruct (Js.present (browserCmd data)) as [cmd|]; reflexivity.
Qed.

Lemma debug_chain_witness :
  Q.resolve exampleMeta [] = (Resolved exampleMeta, []) /\
  bridge_launch (theBridge debugConfig) "debug" "app" false []
  = (Resolved (Some "launched; PORT 26099"),
     [SdbShell "/opt/tizen-app.sh debug app";
      Log LWrite (LStr "launched; PORT 26099");
      Log LOk (LStr "app with id app launched")]) /\
  Js.match_port "launched; PORT 26099" = Some "26099" /\
  (Js.parseInt "26099" < 2 ^ 53)%N /\
  Tasks.launch (theBridge debugConfig) (Q.resolve exampleMeta) debugData
               "debug" []
  = (Resolved (Some ""),
     [SdbShell "/opt/tizen-app.sh debug app";
      Log LWrite (LStr "launched; PORT 26099");
      Log LOk (LStr "app with id app launched");
      SdbForward (PortStr "8888") 26099;
      Log LOk (LStr ("app is ready for debugging at "
                       ++ String Js.LF ""
                       ++ "http://localhost:8888/inspector.html?page=1"));
      Browser "chrome http://localhost:8888/inspector.html?page=1";
      Log LWrite (LStr "")]) /\
  Tasks.launch (theBridge debugConfig) (Q.resolve exampleMeta)
               (debugDataOn (PortNum 9090)) "debug" []
  = (Resolved None,
     [SdbShell "/opt/tizen-app.sh debug app";
      Log LWrite (LStr "launched; PORT 26099");
      Log LOk (LStr "app with id app launched");
      SdbForward (PortNum 9090) 26099;
      Log LOk (LStr ("app is ready for debugging at "
                       ++ String Js.LF ""
                       ++ "http://localhost:9090/inspector.html?page=1"))]) /\
  In (SdbForward (PortStr "8888") 26099)
     (snd (Tasks.launch (theBridge debugConfig) (Q.resolve exampleMeta)
                        (debugDataOn (PortNum 0)) "debug" [])).
Proof.
  assert (Hbound : (Js.parseInt "26099" < 2 ^ 53)%N) by reflexivity.
  split; [reflexivity|]. split; [reflexivity|]. split; [reflexivity|].
  split; [exact Hbound|]. split; [|split].
  - destruct (debug_chain (theBridge debugConfig) (Q.resolve exampleMeta)
                          debugData exampleMeta _ [] [] _ eq_refl eq_refl)
      as [_ Hsome].
    destruct (Hsome "26099" eq_refl) as [_ Hrun].
    exact (Hrun Hbound).
  - destruct (debug_chain (theBridge debugConfig) (Q.resolve exampleMeta)
                          (debugDataOn (PortNum 9090)) exampleMeta _ [] [] _
                          eq_refl eq_refl)
      as [_ Hsome].
    destruct (Hsome "26099" eq_refl) as [_ Hrun].
    exact (Hrun Hbound).
  - destruct (debug_chain (theBridge debugConfig) (Q.resolve exampleMeta)
                          (debugDataOn (PortNum 0)) exampleMeta _ [] [] _
                          eq_refl eq_refl)
      as [_ Hsome].
    destruct (Hsome "26099" eq_refl) as [_ Hrun].
    rewrite (Hrun Hbound). simpl. do 3 right. left. reflexivity.
Defined.


(** ** Bridge.fileExists *)

(** What [fileExists] does with each outcome of the remote [stat]. *)
Lemma fileExists_cases (config : BridgeConfig) (remotePath : string)
      (t : Trace) :
  match sdb_shell (sdbWrapper config) ("stat " ++ remotePath) t with
  | (Resolved _, t1) =>
      Bridge.fileExists config remotePath t = (Resolved true, t1)
  | (Rejected err, t1) =>
      if String.eqb (message err) "No such file or directory"
      then Bridge.fileExists config remotePath t = (Resolved false, t1)
      else Bridge.fileExists config remotePath t
           = (Rejected err, (t1 ++ [Log LError (LErr err)])%list)
  end.
Proof.
  unfold Bridge.fileExists. unfold_q.
  destruct (sdb_shell (sdbWrapper config) ("stat " ++ remotePath) t)
    as [[stdout|err] t1]; [reflexivity|].
  destruct (String.eqb (message err) "No such file or directory");
    reflexivity.
Qed.

(** C2 (the code departs from the specification): [stat] on a missing path prints
    a line that ends with "No such file or directory"; [SdbWrapper.execute]
    rejects with the whole output as message, and [fileExists], which
    compares the message with that text for equality, rejects in turn
    instead of being fulfilled with [false]. *)
Theorem fileExists_rejects_on_stat_output :
  Js.includes "No such file or directory" (statOutput "/tmp/foo.txt") = true /\
  sdb_shell (sdbWrapper (sdbConfig noFileHost)) "stat /tmp/foo.txt" []
  = (Rejected (Error (statOutput "/tmp/foo.txt")),
     [Exec ("sdb shell " ++ Js.DQUOTE ++ "stat /tmp/foo.txt" ++ Js.DQUOTE)]) /\
  Bridge.fileExists (sdbConfig noFileHost) "/tmp/foo.txt" []
  = (Rejected (Error (statOutput "/tmp/foo.txt")),
     [Exec ("sdb shell " ++ Js.DQUOTE ++ "stat /tmp/foo.txt" ++ Js.DQUOTE);
      Log LError (LErr (Error (statOutput "/tmp/foo.txt")))]).
Proof.
  split; [reflexivity|]. split; [reflexivity|].
  pose proof (fileExists_cases (sdbConfig noFileHost) "/tmp/foo.txt" [])
    as Hcases.
  exact Hcases.
Qed.


(** ** The root bracket of tizenTask *)

Section RootBracket.

Variable bridge : BridgeI.
Variable getMeta : Promise Meta.

(** The run of [tizenTask] when the selected command is [cmd] and the
    [asRoot] flag is set. *)
Lemma tizenTask_as_root (data : TaskData) (action_ : string)
      (cmd : Promise (option string)) (t : Trace) :
  Js.present (action data) = Some action_ ->
  Tasks.select bridge getMeta data action_
               (match asRoot data with Some b => b | None => false end)
  = (Some cmd, true) ->
  Tasks.tizenTask bridge getMeta data t =
  match bridge_root bridge true t with
  | (Resolved _, t1) => match cmd t1 with
                        | (r, t2) => root_off_after bridge r t2
                        end
  | (Rejected e, t1) => root_off_after bridge (Rejected e) t1
  end.
Proof.
  intros Haction Hselect. unfold Tasks.tizenTask.
  rewrite Haction, Hselect. unfold root_off_after. unfold_q.
  destruct (bridge_root bridge true t) as [[u|e] t1].
  - destruct (cmd t1) as [r t2]. reflexivity.
  - reflexivity.
Qed.

(** Once [root(true)] has succeeded, the command runs once from there,
    [root(false)] runs once after it whatever its outcome, and the task
    fails exactly when the command or [root(false)] failed. *)
Lemma tizenTask_as_root_on (data : TaskData) (action_ : string)
      (cmd : Promise (option string)) (t t1 : Trace) (u : unit) :
  Js.present (action data) = Some action_ ->
  Tasks.select bridge getMeta data action_
               (match asRoot data with Some b => b | None => false end)
  = (Some cmd, true) ->
  bridge_root bridge true t = (Resolved u, t1) ->
  snd (Tasks.tizenTask bridge getMeta data t)
  = snd (bridge_root bridge false (snd (cmd t1))) /\
  is_rejected (fst (Tasks.tizenTask bridge getMeta data t))
  = is_rejected (fst (cmd t1))
    || is_rejected (fst (bridge_root bridge false (snd (cmd t1)))).
Proof.
  intros Haction Hselect Hon.
  rewrite (tizenTask_as_root data action_ cmd t Haction Hselect), Hon.
  destruct (cmd t1) as [r t2]. unfold root_off_after. simpl.
  destruct (bridge_root bridge false t2) as [[v|e] t3]; simpl.
  - split; [reflexivity|]. now rewrite orb_false_r.
  - split; [reflexivity|]. now rewrite orb_true_r.
Qed.

Lemma select_install (data : TaskData) (asRoot_ : bool) :
  Tasks.select bridge getMeta data "install" asRoot_
  = (Some (Tasks.install bridge data), true).
Proof. reflexivity. Qed.

End RootBracket.

(** C1 (the code departs from the specification): on the request of the unit
    tests, when [root(true)] is rejected the command is not run and the
    task is rejected with that error, but [root(false)] is called all the
    same: the [finally] of the bracket also covers the rejection of
    [root(true)]. *)
Theorem root_off_is_called_after_failed_root_on :
  Tasks.tizenTask (theBridge rootFailsConfig) (Q.resolve exampleMeta)
                  (installData (Some true)) []
  = (Rejected (Error "error: device not found"),
     [SdbRoot true;
      Log LError (LStr "error: device not found");
      SdbRoot false;
      Log LWrite (LStr "");
      Log LOk (LStr ("*** called " ++ Js.DQUOTE ++ "sdb root off" ++ Js.DQUOTE
                       ++ "; commands no longer running as root ***"))]).
Proof.
  rewrite (tizenTask_as_root (theBridge rootFailsConfig) (Q.resolve exampleMeta)
             (installData (Some true)) "install"
             (Tasks.install (theBridge rootFailsConfig)
                            (installData (Some true))) []
             eq_refl eq_refl).
  reflexivity.
Qed.

(** The install command does not look at the [asRoot] property. *)
Lemma install_ignores_asRoot (bridge : BridgeI) (asRoot_ : option bool)
      (data : TaskData) :
  Tasks.install bridge (with_asRoot asRoot_ data) = Tasks.install bridge data.
Proof. reflexivity. Qed.

(** C8: for the action [install], whatever the [asRoot] property of the
    request ([false] included), [root(true)] is called first; when it
    succeeds the install command runs from there and [root(false)] is
    called after it, whatever its outcome; when it fails the task fails.
    The run is the same for every value of [asRoot]. *)
Theorem install_always_under_root_bracket :
  forall (bridge : BridgeI) (getMeta : Promise Meta) (data : TaskData)
         (t : Trace),
    action data = Some "install" ->
    (forall u t1,
        bridge_root bridge true t = (Resolved u, t1) ->
        Tasks.tizenTask bridge getMeta data t =
        root_off_after bridge (fst (Tasks.install bridge data t1))
                       (snd (Tasks.install bridge data t1))) /\
    (forall e t1,
        bridge_root bridge true t = (Rejected e, t1) ->
        is_rejected (fst (Tasks.tizenTask bridge getMeta data t)) = true) /\
    (forall asRoot_,
        Tasks.tizenTask bridge getMeta (with_asRoot asRoot_ data) t =
        Tasks.tizenTask bridge getMeta data t).
Proof.
  intros bridge getMeta data t Haction.
  assert (Hrun : forall d, action d = Some "install" ->
                           Tasks.tizenTask bridge getMeta d t =
                           match bridge_root bridge true t with
                           | (Resolved _, t1) =>
                               match Tasks.install bridge d t1 with
                               | (r, t2) => root_off_after bridge r t2
                               end
                           | (Rejected e, t1) =>
                               root_off_after bridge (Rejected e) t1
                           end).
  { intros d Hd.
    apply (tizenTask_as_root bridge getMeta d "install").
    - now rewrite Hd.
    - apply select_install. }
  split; [|split].
  - intros u t1 Hroot. rewrite (Hrun data Haction), Hroot.
    now destruct (Tasks.install bridge data t1).
  - intros e t1 Hroot. rewrite (Hrun data Haction), Hroot.
    unfold root_off_after.
    now destruct (bridge_root bridge false t1) as [[u|e'] t2].
  - intros asRoot_.
    rewrite (Hrun data Haction), (Hrun (with_asRoot asRoot_ data) Haction).
    now rewrite install_ignores_asRoot.
Qed.

Lemma install_always_under_root_bracket_witness :
  let rootOn := [SdbRoot true;
                 Log LWrite (LStr "");
                 Log LWarn (LStr ("*** called " ++ Js.DQUOTE ++ "sdb root on"
                                    ++ Js.DQUOTE
                                    ++ "; commands now running as root ***"))] in
  let rootOff := [SdbRoot false;
                  Log LWrite (LStr "");
                  Log LOk (LStr ("*** called " ++ Js.DQUOTE ++ "sdb root off"
                                   ++ Js.DQUOTE
                                   ++ "; commands no longer running as root ***"))] in
  action (installData (Some false)) = Some "install" /\
  bridge_root (theBridge quietConfig) true [] = (Resolved tt, rootOn) /\
  Tasks.tizenTask (theBridge quietConfig) (Q.resolve exampleMeta)
                  (installData (Some false)) []
  = (Resolved None,
     (rootOn
        ++ [SdbShell "/opt/tizen-app.sh install /tmp/package.wgt";
            Log LWrite (LStr "");
            Log LOk (LStr "installed package /tmp/package.wgt");
            Log LOk (LStr "all packages installed")]
        ++ rootOff)%list).
Proof.
  intros rootOn rootOff.
  split; [reflexivity|]. split; [reflexivity|].
  destruct (install_always_under_root_bracket
              (theBridge quietConfig) (Q.resolve exampleMeta)
              (installData (Some false)) [] eq_refl) as (Hok & _ & _).
  rewrite (Hok tt rootOn eq_refl). reflexivity.
Defined.


(** ** Bridge.push *)

Lemma last_cons (T : Type) (l : list T) :
  forall a d : T, last (a :: l) d = last l a.
Proof.
  induction l as [|b l IH]; intros a d; [reflexivity|].
  change (last (a :: b :: l) d) with (last (b :: l) d).
  now rewrite (IH b d), (IH b a).
Qed.

Section FanOut.

Context {A : Type}.
Variable op : A -> Promise unit.

(** [async.each] runs the operation on every element and reports the first
    rejection. *)
Lemma async_each_run_each (items : list A) :
  forall t : Trace,
    async_each items op t =
    (first_error (run_each op items t), last_trace t (run_each op items t)).
Proof.
  unfold last_trace.
  induction items as [|x rest IH]; intros t; simpl; [reflexivity|].
  destruct (op x t) as [r t'] eqn:Hop. rewrite IH.
  cbn [map snd first_error]. rewrite last_cons.
  now destruct r.
Qed.

(** The sequential order is one order of arrival of the reports. *)
Lemma async_each_callback_arg (items : list A) (t : Trace) :
  callback_arg (length items) (map fst (run_each op items t))
  = Some (fst (async_each items op t)).
Proof.
  revert t. induction items as [|x rest IH]; intros t; simpl; [reflexivity|].
  destruct (op x t) as [[u|e] t'] eqn:Hop; simpl.
  - rewrite IH. now destruct (async_each rest op t').
  - now destruct (async_each rest op t').
Qed.

Lemma run_each_length (items : list A) :
  forall t : Trace, length (run_each op items t) = length items.
Proof.
  induction items as [|x rest IH]; intros t; simpl; [reflexivity|].
  destruct (op x t) as [r t']. simpl. now rewrite IH.
Qed.

Lemma first_error_some_rejected (runs : list (Result unit * Trace)) :
  some_rejected runs = match first_error runs with
                       | Some _ => true
                       | None => false
                       end.
Proof.
  unfold some_rejected.
  induction runs as [|[[u|e] t] rest IH]; simpl; auto.
Qed.

(** When every run starts with a known event, the trace after the runs is
    the initial one followed by one segment for each element, in order,
    each of which starts with the event of its element. *)
Lemma run_each_segments (entry : A -> Event) :
  (forall x t, exists rest, snd (op x t) = (t ++ entry x :: rest)%list) ->
  forall (items : list A) (t : Trace),
  exists segments : list Trace,
    Forall2 (fun x segment => exists rest, segment = entry x :: rest)
            items segments /\
    last_trace t (run_each op items t) = (t ++ concat segments)%list.
Proof.
  intros Hentry. unfold last_trace.
  induction items as [|x rest IH]; intros t; simpl.
  - exists []. split; [constructor|]. now rewrite app_nil_r.
  - destruct (Hentry x t) as [tail Htail].
    destruct (op x t) as [r t'] eqn:Hop. simpl in Htail. subst t'.
    destruct (IH (t ++ entry x :: tail)%list) as (segments & Hall & Hlast).
    exists ((entry x :: tail) :: segments). split.
    + constructor; [now exists tail|exact Hall].
    + cbn [map snd concat]. rewrite last_cons, Hlast.
      now rewrite <- !app_assoc.
Qed.

End FanOut.

(** Once every iterator has reported, the callback has been called, with an
    error exactly when one of the reports is a rejection. *)
Lemma callback_arg_complete (arrivals : list (Result unit)) :
  exists err,
    callback_arg (length arrivals) arrivals = Some err /\
    (match err with Some _ => true | None => false end)
    = existsb is_rejected arrivals.
Proof.
  induction arrivals as [|[u|e] later (err & Hcall & Herr)]; simpl.
  - now exists None.
  - now exists err.
  - now exists (Some e).
Qed.

Lemma existsb_Permutation (T : Type) (f : T -> bool) (l l' : list T) :
  Permutation l l' -> existsb f l = existsb f l'.
Proof.
  induction 1 as [|x l l' _ IH|x y l|l l' l'' _ IH1 _ IH2]; simpl.
  - reflexivity.
  - now rewrite IH.
  - now destruct (f x), (f y).
  - now rewrite IH1.
Qed.

(** Whether the fan-out fails does not depend on the order in which the
    iterators report. *)
Lemma callback_arg_any_order (arrivals arrivals' : list (Result unit)) :
  Permutation arrivals arrivals' ->
  exists err err',
    callback_arg (length arrivals) arrivals = Some err /\
    callback_arg (length arrivals') arrivals' = Some err' /\
    (match err with Some _ => true | None => false end)
    = (match err' with Some _ => true | None => false end).
Proof.
  intros Hperm.
  destruct (callback_arg_complete arrivals) as (err & Hcall & Herr).
  destruct (callback_arg_complete arrivals') as (err' & Hcall' & Herr').
  exists err, err'. repeat split; try assumption.
  rewrite Herr, Herr'. now apply existsb_Permutation.
Qed.

(** With a recording sdb wrapper, the first event of [pushOne] is its entry
    call: the push itself, or the [stat] that guards it. *)
Lemma pushOne_recorded (answers : Answers) (scriptPath : option string)
      (remoteDir_ : string) (overwrite_ : bool) (chmodArg : option string)
      (localFile : string) (t : Trace) :
  exists rest,
    snd (Bridge.pushOne (recordingConfig answers scriptPath)
                        localFile remoteDir_ overwrite_ chmodArg t)
    = (t ++ pushOne_entry remoteDir_ overwrite_ localFile :: rest)%list.
Proof.
  unfold Bridge.pushOne, pushOne_entry, Bridge.pushRaw, Bridge.fileExists,
    Bridge.chmod.
  set (remotePath := Bridge.getDestination localFile remoteDir_).
  unfold_q. destruct overwrite_; simpl;
    repeat (match goal with
            | |- context [match on_push ?a ?t0 ?l ?r with _ => _ end] =>
                destruct (on_push a t0 l r)
            | |- context [match on_shell ?a ?t0 ?c with _ => _ end] =>
                destruct (on_shell a t0 c)
            | |- context [match Js.present ?c with _ => _ end] =>
                destruct (Js.present c)
            | |- context [if ?b then _ else _] => destruct b
            end; simpl);
    repeat rewrite <- app_assoc; simpl; eexists; reflexivity.
Qed.

Lemma Subsequence_prefixed (A : Type) (pre xs ys : list A) :
  Subsequence xs ys -> Subsequence xs (pre ++ ys)%list.
Proof.
  intros H. induction pre as [|a pre IH]; [exact H|].
  now apply Subsequence_skip.
Qed.

Lemma Subsequence_segments (A B : Type) (entry : A -> B) (items : list A)
      (segments : list (list B)) (post : list B) :
  Forall2 (fun x segment => exists rest, segment = entry x :: rest)
          items segments ->
  Subsequence (map entry items) (concat segments ++ post)%list.
Proof.
  induction 1 as [|x segment items' segments' [rest ->] _ IH]; simpl.
  - constructor.
  - apply Subsequence_take. rewrite <- app_assoc.
    now apply Subsequence_prefixed.
Qed.

(** C3: when the file lister gives [files], [push] starts [pushOne] on
    every one of them, whatever the outcome of the others: the entry calls
    of all these [pushOne] are in the trace, in the order of [files].  When
    one [pushOne] is rejected, [push] is rejected with the error "error
    while pushing files"; when none is, it is fulfilled. *)
Theorem push_fan_out :
  forall (answers : Answers) (scriptPath : option string)
         (localFiles_ : FileSpec) (remoteDir_ : string) (overwrite_ : bool)
         (chmodArg : option string) (files : list string) (t0 : Trace),
    on_list answers t0 localFiles_ = Resolved files ->
    let config := recordingConfig answers scriptPath in
    let t1 := (t0 ++ [ListFiles localFiles_])%list in
    let runs :=
      run_each (fun f => Bridge.pushOne config f remoteDir_ overwrite_ chmodArg)
               files t1 in
    let result :=
      Bridge.push config localFiles_ remoteDir_ overwrite_ chmodArg t0 in
    length runs = length files /\
    (exists added,
        snd result = (t1 ++ added)%list /\
        Subsequence (map (pushOne_entry remoteDir_ overwrite_) files) added) /\
    (some_rejected runs = true ->
     fst result = Rejected (Error "error while pushing files")) /\
    (some_rejected runs = false -> fst result = Resolved tt).
Proof.
  intros answers scriptPath localFiles_ remoteDir_ overwrite_ chmodArg files
         t0 Hlist config t1 runs result.
  set (op := fun f => Bridge.pushOne config f remoteDir_ overwrite_ chmodArg)
    in *.
  assert (Hresult :
            result =
            match first_error runs with
            | Some err =>
                (Rejected (Error "error while pushing files"),
                 (last_trace t1 runs ++ [Log LError (LErr err)])%list)
            | None =>
                (Resolved tt,
                 (last_trace t1 runs ++ [Log LOk (LStr "all files pushed")])
                 %list)
            end).
  { unfold result, Bridge.push. unfold Q.then_ at 1. unfold Q.then2 at 1.
    simpl fileLister. rewrite Hlist. fold t1. fold op.
    rewrite (async_each_run_each op files t1). fold runs.
    destruct (first_error runs); reflexivity. }
  split; [apply run_each_length|]. split; [|split].
  - destruct (run_each_segments op (pushOne_entry remoteDir_ overwrite_)
                (fun f t => pushOne_recorded answers scriptPath remoteDir_
                                             overwrite_ chmodArg f t)
                files t1) as (segments & Hall & Hlast).
    fold runs in Hlast. rewrite Hresult.
    destruct (first_error runs) as [err|]; simpl snd; rewrite Hlast;
      rewrite <- app_assoc; eexists; (split; [reflexivity|]);
      now apply Subsequence_segments.
  - intros Hsome. rewrite first_error_some_rejected in Hsome.
    rewrite Hresult. now destruct (first_error runs).
  - intros Hnone. rewrite first_error_some_rejected in Hnone.
    rewrite Hresult. now destruct (first_error runs).
Qed.

Lemma push_fan_out_witness :
  let spec := FPattern "build/*.wgt" None in
  let files := ["build/one.wgt"; "build/two.wgt"; "build/three.wgt"] in
  let result :=
    Bridge.push pushTwoFailsConfig spec "/home/developer" true (Some "+x") [] in
  on_list pushTwoFailsAnswers [] spec = Resolved files /\
  some_rejected
    (run_each (fun f => Bridge.pushOne pushTwoFailsConfig f "/home/developer"
                                       true (Some "+x"))
              files [ListFiles spec]) = true /\
  fst result = Rejected (Error "error while pushing files") /\
  filter (fun event => match event with SdbPush _ _ => true | _ => false end)
         (snd result)
  = [SdbPush "build/one.wgt" "/home/developer/one.wgt";
     SdbPush "build/two.wgt" "/home/developer/two.wgt";
     SdbPush "build/three.wgt" "/home/developer/three.wgt"].
Proof.
  intros spec files result.
  split; [reflexivity|]. split; [reflexivity|].
  destruct (push_fan_out pushTwoFailsAnswers None spec "/home/developer" true
                         (Some "+x") files [] eq_refl)
    as (_ & _ & Hfails & _).
  split; [exact (Hfails eq_refl)|reflexivity].
Defined.


(** * Further properties of the bridge *)

(** ** Tolerated and propagated failures *)

(** X1: [uninstall] and [launch] are rejected exactly when [stopOnFailure]
    is true and the script invocation failed (by rejection or by its
    output); in particular they are never rejected when [stopOnFailure] is
    false.  A launch whose output shows no failure is fulfilled with that
    output, whatever the flag. *)
Theorem stopOnFailure_decides_rejection :
  forall (config : BridgeConfig) (t : Trace),
    (forall packageName_ stopOnFailure_,
        is_rejected (fst (Bridge.uninstall config packageName_
                                           stopOnFailure_ t))
        = stopOnFailure_
          && remote_failed Bridge.uninstall_failed
               (fst (Bridge.runTizenAppScript config "uninstall"
                                              [packageName_] t))) /\
    (forall subcommand appUri stopOnFailure_,
        is_rejected (fst (Bridge.launch config subcommand appUri
                                        stopOnFailure_ t))
        = stopOnFailure_
          && remote_failed Bridge.launch_failed
               (fst (Bridge.runTizenAppScript config subcommand [appUri] t))) /\
    (forall subcommand appUri stopOnFailure_ stdout,
        fst (Bridge.runTizenAppScript config subcommand [appUri] t)
        = Resolved stdout ->
        Bridge.launch_failed stdout = false ->
        fst (Bridge.launch config subcommand appUri stopOnFailure_ t)
        = Resolved (Some stdout)).
Proof.
  intros config t. split; [|split].
  - intros packageName_ stopOnFailure_.
    unfold Bridge.uninstall. unfold_q.
    destruct (Bridge.runTizenAppScript config "uninstall" [packageName_] t)
      as [[stdout|e] t1]; simpl.
    + destruct (Bridge.uninstall_failed stdout), stopOnFailure_; reflexivity.
    + destruct stopOnFailure_; reflexivity.
  - intros subcommand appUri stopOnFailure_.
    unfold Bridge.launch. unfold_q.
    destruct (Bridge.runTizenAppScript config subcommand [appUri] t)
      as [[stdout|e] t1]; simpl.
    + destruct (Bridge.launch_failed stdout), stopOnFailure_; reflexivity.
    + destruct stopOnFailure_; reflexivity.
  - intros subcommand appUri stopOnFailure_ stdout Hrun Hok.
    unfold Bridge.launch. unfold_q.
    destruct (Bridge.runTizenAppScript config subcommand [appUri] t)
      as [r t1]. simpl in Hrun. subst r. now rewrite Hok.
Qed.

Lemma stopOnFailure_decides_rejection_witness :
  fst (Bridge.runTizenAppScript debugConfig "debug" ["app"] [])
  = Resolved "launched; PORT 26099" /\
  Bridge.launch_failed "launched; PORT 26099" = false /\
  fst (Bridge.launch debugConfig "debug" "app" true [])
  = Resolved (Some "launched; PORT 26099").
Proof.
  split; [reflexivity|]. split; [reflexivity|].
  destruct (stopOnFailure_decides_rejection debugConfig []) as (_ & _ & Hok).
  exact (Hok "debug" "app" true _ eq_refl eq_refl).
Defined.

(** X2: without a path of the application script on the bridge (unset or
    empty), nothing that goes through the script reaches the sdb wrapper,
    the file lister or the browser: the invocation is rejected with the
    trace untouched, and so are [installOne] and [uninstall] when it stops
    on failure; [launch] when it stops on failure is rejected with the same
    error after two lines on the logger and nothing else; when they do not
    stop on failure, [uninstall] and [launch] are fulfilled after their
    warning, still without a call. *)
Theorem no_script_path_no_remote_call :
  forall config : BridgeConfig,
    Js.present (tizenAppScriptPath config) = None ->
    forall t : Trace,
      let err := Error ("cannot run tizen-app.sh as tizenAppScriptPath "
                          ++ "is not set on Bridge") in
      (forall command args_,
          Bridge.runTizenAppScript config command args_ t = (Rejected err, t)) /\
      (forall remoteFile,
          Bridge.installOne config remoteFile t = (Rejected err, t)) /\
      (forall packageName_,
          Bridge.uninstall config packageName_ true t = (Rejected err, t) /\
          Bridge.uninstall config packageName_ false t
          = (Resolved tt,
             (t ++ [Log LWarn
                        (LStr "could not uninstall package; continuing anyway")])
             %list)) /\
      (forall subcommand appUri,
          let warning :=
            "app with id " ++ appUri ++ " could not be "
              ++ (if String.eqb subcommand "stop"
                  then "stopped" else "launched") in
          Bridge.launch config subcommand appUri true t
          = (Rejected err,
             (t ++ [Log LError (LStr warning);
                    Log LError (LStr (message err))])%list) /\
          Bridge.launch config subcommand appUri false t
          = (Resolved None,
             (t ++ [Log LWarn (LStr (warning ++ "; continuing anyway"))])
             %list)).
Proof.
  intros config Hpath t err.
  assert (Hrun : forall command args_,
             Bridge.runTizenAppScript config command args_ t
             = (Rejected err, t)).
  { intros command args_. unfold Bridge.runTizenAppScript.
    now rewrite Hpath. }
  split; [exact Hrun|]. split; [|split].
  - intros remoteFile. unfold Bridge.installOne. unfold_q.
    now rewrite Hrun.
  - intros packageName_. unfold Bridge.uninstall. unfold_q.
    rewrite Hrun. split; reflexivity.
  - intros subcommand appUri. unfold Bridge.launch. unfold_q.
    rewrite Hrun. cbv zeta. split; [|reflexivity].
    now rewrite <- app_assoc.
Qed.

Lemma no_script_path_no_remote_call_witness :
  Js.present (tizenAppScriptPath lsConfig) = None /\
  Bridge.uninstall lsConfig "pkg" true []
  = (Rejected (Error ("cannot run tizen-app.sh as tizenAppScriptPath "
                        ++ "is not set on Bridge")), []) /\
  Bridge.launch lsConfig "start" "app" true []
  = (Rejected (Error ("cannot run tizen-app.sh as tizenAppScriptPath "
                        ++ "is not set on Bridge")),
     [Log LError (LStr "app with id app could not be launched");
      Log LError (LStr ("cannot run tizen-app.sh as tizenAppScriptPath "
                          ++ "is not set on Bridge"))]).
Proof.
  split; [reflexivity|].
  destruct (no_script_path_no_remote_call lsConfig eq_refl [])
    as (_ & _ & Hun & Hlaunch).
  split; [exact (proj1 (Hun "pkg"))|].
  exact (proj1 (Hlaunch "start" "app")).
Defined.

(** ** Installation *)

(** X3: [installOne] is rejected exactly when the script invocation is
    rejected or its output contains the token [key[end] val[fail]]: a
    rejection of the invocation is passed on as it is, and the token in
    the output of an invocation that succeeded gives the error
    "installation failed". *)
Theorem installOne_fails_on_token :
  forall (config : BridgeConfig) (remoteFile : string) (t : Trace)
         (r : Result string) (t1 : Trace),
    Bridge.runTizenAppScript config "install" [remoteFile] t = (r, t1) ->
    is_rejected (fst (Bridge.installOne config remoteFile t))
    = remote_failed (Js.includes "key[end] val[fail]") r /\
    fst (Bridge.installOne config remoteFile t)
    = (if remote_failed (Js.includes "key[end] val[fail]") r
       then Rejected (remote_error (fun _ => Error "installation failed") r)
       else Resolved tt) /\
    (forall e, r = Rejected e ->
               snd (Bridge.installOne config remoteFile t) = t1).
Proof.
  intros config remoteFile t r t1 Hrun.
  unfold Bridge.installOne. unfold_q. rewrite Hrun.
  destruct r as [stdout|e]; simpl.
  - destruct (Js.includes "key[end] val[fail]" stdout); repeat split;
      intros e He; discriminate.
  - repeat split.
Qed.

Lemma installOne_fails_on_token_witness :
  let config :=
    recordingConfig
      (answersOf (shellSdb (fun _ => Resolved "key[end] val[fail]")) [])
      (Some "/opt/tizen-app.sh") in
  Bridge.runTizenAppScript config "install" ["/tmp/package.wgt"] []
  = (Resolved "key[end] val[fail]",
     [SdbShell "/opt/tizen-app.sh install /tmp/package.wgt"]) /\
  fst (Bridge.installOne config "/tmp/package.wgt" [])
  = Rejected (Error "installation failed").
Proof.
  intros config. split; [reflexivity|].
  destruct (installOne_fails_on_token config "/tmp/package.wgt" [] _ _ eq_refl)
    as (_ & Hfst & _).
  exact Hfst.
Defined.

Lemma installOne_recorded (answers : Answers) (script remoteFile : string)
      (t : Trace) :
  Js.present (Some script) = Some script ->
  exists rest,
    snd (Bridge.installOne (recordingConfig answers (Some script))
                           remoteFile t)
    = (t ++ installOne_entry script remoteFile :: rest)%list.
Proof.
  intros Hscript.
  unfold Bridge.installOne, Bridge.runTizenAppScript, installOne_entry.
  cbn [tizenAppScriptPath recordingConfig]. rewrite Hscript.
  unfold_q. cbn [sdbWrapper recordingConfig recordingSdb sdb_shell length
                 Nat.ltb Nat.leb Js.join String.concat].
  destruct (on_shell (sdb_answers answers) t _) as [stdout|e]; simpl.
  - destruct (Js.includes "key[end] val[fail]" stdout); simpl;
      repeat rewrite <- app_assoc; simpl; eexists; reflexivity.
  - eexists. reflexivity.
Qed.

(** X4: [install] starts [installOne] on every file of the resolved list,
    in order and whatever the others report; it is rejected with the error
    "error while installing package" when one of them is rejected (the
    [resolve] that follows the [reject] in the callback changes nothing),
    and fulfilled otherwise. *)
Theorem install_fan_out :
  forall (answers : Answers) (script : string) (spec : FileSpec)
         (files : list string) (t0 t1 : Trace),
    Js.present (Some script) = Some script ->
    let config := recordingConfig answers (Some script) in
    Bridge.listRemoteFiles config spec t0 = (Resolved files, t1) ->
    let runs := run_each (Bridge.installOne config) files t1 in
    let result := Bridge.install config spec t0 in
    (exists added,
        snd result = (t1 ++ added)%list /\
        Subsequence (map (installOne_entry script) files) added) /\
    fst result = (if some_rejected runs
                  then Rejected (Error "error while installing package")
                  else Resolved tt).
Proof.
  intros answers script spec files t0 t1 Hscript config Hlist runs result.
  assert (Hresult :
            result =
            match first_error runs with
            | Some err =>
                (Rejected (Error "error while installing package"),
                 (last_trace t1 runs ++ [Log LError (LErr err)])%list)
            | None =>
                (Resolved tt,
                 (last_trace t1 runs
                    ++ [if (length files =? 0)%nat
                        then Log LWarn (LStr "no packages to install")
                        else Log LOk (LStr "all packages installed")])%list)
            end).
  { unfold result, Bridge.install. unfold Q.then_ at 1. unfold Q.then2 at 1.
    rewrite Hlist.
    rewrite (async_each_run_each (Bridge.installOne config) files t1).
    fold runs.
    destruct (first_error runs); [reflexivity|].
    unfold_q. now destruct (length files =? 0)%nat. }
  split.
  - destruct (run_each_segments (Bridge.installOne config)
                (installOne_entry script)
                (fun f t => installOne_recorded answers script f t Hscript)
                files t1) as (segments & Hall & Hlast).
    fold runs in Hlast. rewrite Hresult.
    destruct (first_error runs) as [err|]; simpl snd; rewrite Hlast;
      rewrite <- app_assoc; eexists; (split; [reflexivity|]);
      now apply Subsequence_segments.
  - rewrite Hresult, first_error_some_rejected.
    now destruct (first_error runs).
Qed.

Lemma install_fan_out_witness :
  let answers :=
    answersOf (shellSdb (fun cmd => if Js.includes "two" cmd
                                    then Resolved "key[end] val[fail]"
                                    else Resolved "key[end] val[ok]")) [] in
  let config := recordingConfig answers (Some "/opt/tizen-app.sh") in
  let files := ["/tmp/one.wgt"; "/tmp/two.wgt"; "/tmp/three.wgt"] in
  Js.present (Some "/opt/tizen-app.sh") = Some "/opt/tizen-app.sh" /\
  Bridge.listRemoteFiles config (FArray files) [] = (Resolved files, []) /\
  fst (Bridge.install config (FArray files) [])
  = Rejected (Error "error while installing package") /\
  filter (fun event => match event with SdbShell _ => true | _ => false end)
         (snd (Bridge.install config (FArray files) []))
  = [SdbShell "/opt/tizen-app.sh install /tmp/one.wgt";
     SdbShell "/opt/tizen-app.sh install /tmp/two.wgt";
     SdbShell "/opt/tizen-app.sh install /tmp/three.wgt"].
Proof.
  intros answers config files.
  split; [reflexivity|]. split; [reflexivity|].
  destruct (install_fan_out answers "/opt/tizen-app.sh" (FArray files) files
                            [] [] eq_refl eq_refl) as [_ Hfst].
  split; [exact Hfst|reflexivity].
Defined.

(** X5: an empty list of files is not an error for [install]: it warns and
    is fulfilled, without any call.  For a pattern that warning is never
    reached: an empty listing is split into one empty file name, on which
    [installOne] is run like on any other. *)
Theorem install_of_nothing :
  forall (config : BridgeConfig) (t : Trace),
    Bridge.install config (FArray []) t
    = (Resolved tt,
       (t ++ [Log LWarn (LStr "no packages to install")])%list) /\
    (forall pattern filter stdout t1,
        sdb_shell (sdbWrapper config) ("ls -1 -c " ++ pattern) t
        = (Resolved stdout, t1) ->
        Js.drop_lone_newline (Js.remove_cr stdout) = "" ->
        Bridge.install config (FPattern pattern filter) t =
        match Bridge.installOne config "" t1 with
        | (Resolved _, t2) =>
            (Resolved tt,
             (t2 ++ [Log LOk (LStr "all packages installed")])%list)
        | (Rejected e, t2) =>
            (Rejected (Error "error while installing package"),
             (t2 ++ [Log LError (LErr e)])%list)
        end).
Proof.
  intros config t. split; [reflexivity|].
  intros pattern filter stdout t1 Hls Hempty.
  unfold Bridge.install, Bridge.listRemoteFiles.
  unfold Q.fail, Q.then_, Q.then2. rewrite Hls, Hempty.
  assert (Hfiles : forall b : bool,
             (if b then Q.resolve (firstn 1 (Js.split Js.LF ""))
              else Q.resolve (Js.split Js.LF "")) t1
             = (Resolved [""], t1)) by (now intros []).
  rewrite Hfiles. unfold Q.resolve. cbn [async_each].
  destruct (Bridge.installOne config "" t1) as [[u|e] t2]; reflexivity.
Qed.

Lemma install_of_nothing_witness :
  sdb_shell (sdbWrapper quietConfig) ("ls -1 -c " ++ "/home/developer/*.wgt") []
  = (Resolved "", [SdbShell "ls -1 -c /home/developer/*.wgt"]) /\
  Js.drop_lone_newline (Js.remove_cr "") = "" /\
  Bridge.install quietConfig (FPattern "/home/developer/*.wgt" None) []
  = (Resolved tt,
     [SdbShell "ls -1 -c /home/developer/*.wgt";
      SdbShell "/opt/tizen-app.sh install ";
      Log LWrite (LStr "");
      Log LOk (LStr "installed package ");
      Log LOk (LStr "all packages installed")]).
Proof.
  split; [reflexivity|]. split; [reflexivity|].
  destruct (install_of_nothing quietConfig []) as [_ Hpattern].
  rewrite (Hpattern "/home/developer/*.wgt" None "" _ eq_refl eq_refl).
  reflexivity.
Defined.

(** ** Pushing files *)

(** X6: [pushRaw] turns a rejection of the sdb push whose message contains
    "failed to copy", "cannot stat" or "device not found" into the error
    "could not push file to device", after logging the message; any other
    rejection is passed on as it is, without a log; a push that succeeded
    is logged and fulfilled. *)
Theorem pushRaw_classifies_errors :
  forall (config : BridgeConfig) (localFile remotePath : string) (t : Trace),
    match sdb_push (sdbWrapper config) localFile remotePath t with
    | (Resolved _, t1) =>
        Bridge.pushRaw config localFile remotePath t
        = (Resolved tt,
           (t1 ++ [Log LOk (LStr ("pushed local:" ++ localFile
                                    ++ " to remote:" ++ remotePath))])%list)
    | (Rejected e, t1) =>
        let known := Js.includes "failed to copy" (message e)
                     || Js.includes "cannot stat" (message e)
                     || Js.includes "device not found" (message e) in
        (known = true ->
         Bridge.pushRaw config localFile remotePath t
         = (Rejected (Error "could not push file to device"),
            (t1 ++ [Log LError (LStr (message e))])%list)) /\
        (known = false ->
         Bridge.pushRaw config localFile remotePath t = (Rejected e, t1))
    end.
Proof.
  intros config localFile remotePath t.
  unfold Bridge.pushRaw. unfold_q.
  destruct (sdb_push (sdbWrapper config) localFile remotePath t)
    as [[out|e] t1]; [reflexivity|].
  cbv zeta. split; intros ->; reflexivity.
Qed.

Lemma pushRaw_classifies_errors_witness :
  let refuse message_ :=
    recordingConfig
      (answersOf {| on_shell := fun _ _ => Resolved "";
                    on_push := fun _ _ _ => Rejected (Error message_);
                    on_forward := fun _ _ _ => Resolved "";
                    on_root := fun _ _ => Resolved "" |} [])
      None in
  Bridge.pushRaw (refuse "error: device not found") "a.wgt" "/tmp/a.wgt" []
  = (Rejected (Error "could not push file to device"),
     [SdbPush "a.wgt" "/tmp/a.wgt";
      Log LError (LStr "error: device not found")]) /\
  Bridge.pushRaw (refuse "protocol fault") "a.wgt" "/tmp/a.wgt" []
  = (Rejected (Error "protocol fault"), [SdbPush "a.wgt" "/tmp/a.wgt"]).
Proof.
  intros refuse. split.
  - exact (proj1 (pushRaw_classifies_errors
                    (refuse "error: device not found") "a.wgt" "/tmp/a.wgt" [])
                 eq_refl).
  - exact (proj2 (pushRaw_classifies_errors
                    (refuse "protocol fault") "a.wgt" "/tmp/a.wgt" [])
                 eq_refl).
Defined.

(** X7: with [overwrite] false, [pushOne] first runs [stat] on the
    destination.  When that succeeds the file is not pushed and no [chmod]
    is applied: the promise is fulfilled after a warning.  When it fails
    with a message other than "No such file or directory" the error is
    passed on and nothing is pushed.  Only the failure with exactly that
    message leads to the push. *)
Theorem pushOne_without_overwrite :
  forall (answers : Answers) (scriptPath : option string)
         (localFile remoteDir_ : string) (chmodArg : option string)
         (t : Trace),
    let config := recordingConfig answers scriptPath in
    let remotePath := Bridge.getDestination localFile remoteDir_ in
    let stat := SdbShell ("stat " ++ remotePath) in
    let run := Bridge.pushOne config localFile remoteDir_ false chmodArg t in
    match on_shell (sdb_answers answers) t ("stat " ++ remotePath) with
    | Resolved _ =>
        run = (Resolved tt,
               (t ++ [stat;
                      Log LWarn (LStr ("not pushing to " ++ remotePath
                                       ++ " as file exists and overwrite is false"))])
               %list)
    | Rejected e =>
        if String.eqb (message e) "No such file or directory"
        then exists rest,
            snd run = (t ++ stat :: SdbPush localFile remotePath :: rest)%list
        else run = (Rejected e, (t ++ [stat; Log LError (LErr e)])%list)
    end.
Proof.
  intros answers scriptPath localFile remoteDir_ chmodArg t config remotePath
         stat run.
  unfold run, Bridge.pushOne, Bridge.fileExists, Bridge.pushRaw, Bridge.chmod.
  fold remotePath. unfold_q.
  cbn [sdbWrapper config recordingConfig recordingSdb sdb_shell sdb_push].
  destruct (on_shell (sdb_answers answers) t ("stat " ++ remotePath))
    as [out|e].
  - now rewrite <- app_assoc.
  - destruct (String.eqb (message e) "No such file or directory").
    + repeat (match goal with
              | |- context [match on_push ?a ?t0 ?l ?r with _ => _ end] =>
                  destruct (on_push a t0 l r)
              | |- context [match on_shell ?a ?t0 ?c with _ => _ end] =>
                  destruct (on_shell a t0 c)
              | |- context [match Js.present ?c with _ => _ end] =>
                  destruct (Js.present c)
              | |- context [if ?b then _ else _] => destruct b
              end; simpl);
        repeat rewrite <- app_assoc; simpl; eexists; reflexivity.
    + now rewrite <- app_assoc.
Qed.

(** ** Scripts and the browser *)

Lemma join_cons (sep a b : string) (l : list string) :
  Js.join sep (a :: b :: l) = a ++ sep ++ Js.join sep (b :: l).
Proof. reflexivity. Qed.

(** The command line of [runScript]: the interpreter, the script and the
    arguments, separated by single spaces. *)
Lemma runScript_command (script : string) (args_ : list string) :
  (if (0 <? length args_)%nat
   then (Bridge.scriptInterpreterPath ++ " " ++ script)
          ++ " " ++ Js.join " " args_
   else Bridge.scriptInterpreterPath ++ " " ++ script)
  = Js.join " " (Bridge.scriptInterpreterPath :: script :: args_).
Proof.
  rewrite join_cons. destruct args_ as [|a l].
  - reflexivity.
  - cbn [length Nat.ltb Nat.leb]. rewrite join_cons.
    now rewrite append_assoc.
Qed.

(** X8: [runScript] runs, in the sdb shell, the interpreter [/bin/sh], the
    script and the arguments joined by single spaces (nothing follows the
    script when there is no argument).  It is fulfilled with the output of
    the shell; whatever the rejection of the shell, it is rejected with
    the error "error occurred while running command" followed by that
    command line, the original message going to the logger only. *)
Theorem runScript_wraps_errors :
  forall (config : BridgeConfig) (script : string) (args_ : list string)
         (t : Trace),
    let cmd := Js.join " " ("/bin/sh" :: script :: args_) in
    match sdb_shell (sdbWrapper config) cmd
                    (t ++ [Log LOk (LStr ("running: " ++ cmd))])%list with
    | (Resolved stdout, t1) =>
        Bridge.runScript config script args_ t
        = (Resolved stdout, (t1 ++ [Log LWrite (LStr stdout)])%list)
    | (Rejected e, t1) =>
        Bridge.runScript config script args_ t
        = (Rejected (Error ("error occurred while running command " ++ cmd)),
           (t1 ++ [Log LError (LStr (message e))])%list)
    end.
Proof.
  intros config script args_ t cmd.
  unfold Bridge.runScript. rewrite (runScript_command script args_).
  change (Js.join " " (Bridge.scriptInterpreterPath :: script :: args_))
    with cmd.
  unfold_q.
  destruct (sdb_shell (sdbWrapper config) cmd
                      (t ++ [Log LOk (LStr ("running: " ++ cmd))])%list)
    as [[stdout|e] t1]; reflexivity.
Qed.

Lemma strip_prefix_none_prefix (p s : string) :
  Js.strip_prefix p s = None <-> String.prefix p s = false.
Proof.
  revert s. induction p as [|a p IH]; intros s; simpl.
  - destruct s; split; discriminate.
  - destruct s as [|b s]; [split; reflexivity|].
    change (String.prefix (String a p) (String b s))
      with (match ascii_dec a b with
            | left _ => String.prefix p s
            | right _ => false
            end).
    destruct (ascii_dec a b) as [->|Hne].
    + rewrite Ascii.eqb_refl. apply IH.
    + destruct (Ascii.eqb_spec a b); [contradiction|]. split; reflexivity.
Qed.

Lemma includes_unfold (p s : string) :
  Js.includes p s =
  if String.prefix p s then true
  else match s with
       | EmptyString => false
       | String _ s' => Js.includes p s'
       end.
Proof. destruct s; reflexivity. Qed.

Lemma replace_first_unfold (p r s : string) :
  Js.replace_first p r s =
  match Js.strip_prefix p s with
  | Some rest => r ++ rest
  | None => match s with
            | EmptyString => EmptyString
            | String c s' => String c (Js.replace_first p r s')
            end
  end.
Proof. destruct s; reflexivity. Qed.

(** Replacing a text that does not occur changes nothing. *)
Lemma replace_first_absent (p r s : string) :
  Js.includes p s = false -> Js.replace_first p r s = s.
Proof.
  induction s as [|c s IH]; rewrite includes_unfold, replace_first_unfold;
    intros H.
  - destruct (String.prefix p "") eqn:Hp; [discriminate|].
    apply strip_prefix_none_prefix in Hp. now rewrite Hp.
  - destruct (String.prefix p (String c s)) eqn:Hp; [discriminate|].
    apply strip_prefix_none_prefix in Hp. rewrite Hp.
    now rewrite (IH H).
Qed.

Lemma strip_prefix_app (p s x rest : string) :
  Js.strip_prefix p s = Some rest ->
  Js.strip_prefix p (s ++ x) = Some (rest ++ x).
Proof.
  intros H. apply strip_prefix_spec in H. subst s.
  apply strip_prefix_spec. apply append_assoc.
Qed.

Lemma strip_prefix_app_long (p : string) :
  forall s x : string,
    String.length p <= String.length s ->
    Js.strip_prefix p s = None -> Js.strip_prefix p (s ++ x) = None.
Proof.
  induction p as [|a p IH]; intros s x Hlen H; [destruct s; discriminate|].
  destruct s as [|b s]; [simpl in Hlen; lia|].
  change (String b s ++ x) with (String b (s ++ x)).
  cbn [Js.strip_prefix] in *.
  destruct (Ascii.eqb a b); [|reflexivity].
  apply IH; [simpl in Hlen; lia|exact H].
Qed.

Lemma length_append (a b : string) :
  String.length (a ++ b) = String.length a + String.length b.
Proof. induction a as [|c a IH]; simpl; [reflexivity|now rewrite IH]. Qed.

(** No occurrence of [%URL%] starts in [pre] when [pre] followed by the
    first four characters of the mark holds none: the mark that follows
    [pre] is then the first one, and the one that is replaced. *)
Lemma replace_first_url (url pre post : string) :
  Js.includes "%URL%" (pre ++ "%URL") = false ->
  Js.replace_first "%URL%" url (pre ++ "%URL%" ++ post) = pre ++ url ++ post.
Proof.
  induction pre as [|c pre IH]; intros H.
  - change ("" ++ "%URL%" ++ post) with ("%URL%" ++ post).
    rewrite replace_first_unfold.
    assert (Hstrip : Js.strip_prefix "%URL%" ("%URL%" ++ post) = Some post)
      by (now apply strip_prefix_spec).
    now rewrite Hstrip.
  - change (String c pre ++ "%URL") with (String c (pre ++ "%URL")) in H.
    rewrite (includes_unfold "%URL%" (String c (pre ++ "%URL"))) in H.
    destruct (String.prefix "%URL%" (String c (pre ++ "%URL"))) eqn:Hp;
      [discriminate|].
    apply strip_prefix_none_prefix in Hp.
    apply (strip_prefix_app_long "%URL%" _ ("%" ++ post)) in Hp;
      [|simpl; rewrite length_append; simpl; lia].
    change (String c (pre ++ "%URL") ++ "%" ++ post)
      with (String c ((pre ++ "%URL") ++ "%" ++ post)) in Hp.
    rewrite append_assoc in Hp.
    change (String c pre ++ "%URL%" ++ post)
      with (String c (pre ++ "%URL%" ++ post)).
    rewrite replace_first_unfold.
    change ("%URL" ++ "%" ++ post) with ("%URL%" ++ post) in Hp.
    rewrite Hp.
    change (String c pre ++ url ++ post) with (String c (pre ++ url ++ post)).
    f_equal. apply IH. exact H.
Qed.

(** A text in which [%URL%] occurs has a first occurrence. *)
Lemma first_url_mark (s : string) :
  Js.includes "%URL%" s = true ->
  exists pre post,
    s = pre ++ "%URL%" ++ post /\
    Js.includes "%URL%" (pre ++ "%URL") = false.
Proof.
  induction s as [|c s IH]; intros H; [discriminate|].
  rewrite (includes_unfold "%URL%" (String c s)) in H.
  destruct (String.prefix "%URL%" (String c s)) eqn:Hp.
  - destruct (Js.strip_prefix "%URL%" (String c s)) as [post|] eqn:Hs.
    + apply strip_prefix_spec in Hs. exists "", post. now split.
    + apply strip_prefix_none_prefix in Hs. congruence.
  - destruct (IH H) as (pre & post & -> & Hfirst).
    exists (String c pre), post. split; [reflexivity|].
    change (String c pre ++ "%URL") with (String c (pre ++ "%URL")).
    rewrite (includes_unfold "%URL%" (String c (pre ++ "%URL"))), Hfirst.
    destruct (String.prefix "%URL%" (String c (pre ++ "%URL"))) eqn:Hq;
      [|reflexivity].
    exfalso.
    destruct (Js.strip_prefix "%URL%" (String c (pre ++ "%URL")))
      as [rest|] eqn:Hs.
    + apply (strip_prefix_app _ _ ("%" ++ post)) in Hs.
      change (String c (pre ++ "%URL") ++ "%" ++ post)
        with (String c ((pre ++ "%URL") ++ "%" ++ post)) in Hs.
      rewrite append_assoc in Hs.
      change ("%URL" ++ "%" ++ post) with ("%URL%" ++ post) in Hs.
      apply strip_prefix_none_prefix in Hp.
      congruence.
    + apply strip_prefix_none_prefix in Hs. congruence.
Qed.

(** X9: [runBrowser] without a browser wrapper on the bridge is rejected
    at once, nothing being called.  With one, the command given to the
    wrapper is the template in which the first [%URL%] is replaced by the
    debug URL of the local port (a template without [%URL%] is given as it
    is; every template is of one of the two kinds, whatever comes before
    the first [%URL%]), and the outcome of the wrapper is the outcome of
    [runBrowser].  The port is supposed to be
    written in full (a string, or a number below 2^53) and without a
    dollar sign, which [replace] would interpret in the replacement
    text. *)
Theorem runBrowser_substitutes_url :
  forall (config : BridgeConfig) (localPort_ : JsPort) (t : Trace),
    let url := "http://localhost:" ++ port_to_string localPort_
                                   ++ "/inspector.html?page=1" in
    (browserWrapper config = None ->
     forall browserCmd_,
       Bridge.runBrowser config browserCmd_ localPort_ t
       = (Rejected (Error ("cannot run browser: no browserWrapper "
                             ++ "configured for Bridge")), t)) /\
    (forall wrapper sent browserCmd_,
        browserWrapper config = Some wrapper ->
        exact_port localPort_ = true ->
        no_char "$" (port_to_string localPort_) = true ->
        (exists pre post,
            browserCmd_ = pre ++ "%URL%" ++ post /\
            Js.includes "%URL%" (pre ++ "%URL") = false /\
            sent = pre ++ url ++ post)
        \/ (Js.includes "%URL%" browserCmd_ = false /\ sent = browserCmd_) ->
        Bridge.runBrowser config browserCmd_ localPort_ t =
        match wrapper sent t with
        | (Resolved stdout, t1) =>
            (Resolved stdout, (t1 ++ [Log LWrite (LStr stdout)])%list)
        | (Rejected e, t1) =>
            (Rejected e, (t1 ++ [Log LError (LStr (message e))])%list)
        end) /\
    (forall browserCmd_,
        Js.includes "%URL%" browserCmd_ = true ->
        exists pre post,
          browserCmd_ = pre ++ "%URL%" ++ post /\
          Js.includes "%URL%" (pre ++ "%URL") = false).
Proof.
  intros config localPort_ t url. split; [|split].
  - intros Hnone browserCmd_. unfold Bridge.runBrowser. now rewrite Hnone.
  - intros wrapper sent browserCmd_ Hsome _ _ Hsent.
    unfold Bridge.runBrowser. rewrite Hsome.
    assert (Hcmd : Js.replace_first "%URL%" (Bridge.getDebugUrl localPort_)
                                    browserCmd_ = sent).
    { destruct Hsent as [(pre & post & -> & Hpre & ->)|[Habsent ->]].
      - now apply replace_first_url.
      - now apply replace_first_absent. }
    rewrite Hcmd. unfold_q.
    destruct (wrapper sent t) as [[stdout|e] t1]; reflexivity.
  - exact first_url_mark.
Qed.

Lemma runBrowser_substitutes_url_witness :
  let url := "http://localhost:9000/inspector.html?page=1" in
  browserWrapper quietConfig
  = Some (fun cmd t => (on_browser (answersOf quietSdb []) t cmd,
                        (t ++ [Browser cmd])%list)) /\
  exact_port (PortNum 9000) = true /\
  no_char "$" (port_to_string (PortNum 9000)) = true /\
  Js.includes "%URL%" ("echo 100% " ++ "%URL") = false /\
  Bridge.runBrowser quietConfig ("echo 100% " ++ "%URL%" ++ " %URL%")
                    (PortNum 9000) []
  = (Resolved "",
     [Browser ("echo 100% " ++ url ++ " %URL%");
      Log LWrite (LStr "")]).
Proof.
  intros url. split; [reflexivity|]. split; [reflexivity|].
  split; [reflexivity|]. split; [reflexivity|].
  destruct (runBrowser_substitutes_url quietConfig (PortNum 9000) [])
    as (_ & Hsome & _).
  rewrite (Hsome _ ("echo 100% " ++ url ++ " %URL%")
                 ("echo 100% " ++ "%URL%" ++ " %URL%")
                 eq_refl eq_refl eq_refl).
  - reflexivity.
  - left. exists "echo 100% ", " %URL%". repeat split.
Defined.


(** * Further properties of the tasks *)

(** ** Validation of the request *)

Lemma select_unknown (bridge : BridgeI) (getMeta : Promise Meta)
      (data : TaskData) (action_ : string) (asRoot_ : bool) :
  ~ In action_ known_actions ->
  Tasks.select bridge getMeta data action_ asRoot_ = (None, asRoot_).
Proof.
  intros Hnot. unfold Tasks.select.
  assert (Hne : forall known, In known known_actions ->
                              String.eqb action_ known = false).
  { intros known Hin. apply String.eqb_neq. intros ->. now apply Hnot. }
  rewrite !Hne by (unfold known_actions; simpl; tauto).
  reflexivity.
Qed.

(** X10: a request without action (absent or empty), or with an action
    that is not one of the seven known ones, is rejected at once: the trace
    is left as it was, whatever the bridge, whatever [asRoot] (the device is
    not switched to root). *)
Theorem tizenTask_validates_action :
  forall (bridge : BridgeI) (getMeta : Promise Meta) (data : TaskData)
         (t : Trace),
    (Js.present (action data) = None ->
     Tasks.tizenTask bridge getMeta data t
     = (Rejected (Error "tizen task requires action argument"), t)) /\
    (forall action_,
        Js.present (action data) = Some action_ ->
        ~ In action_ known_actions ->
        Tasks.tizenTask bridge getMeta data t
        = (Rejected (Error ("action " ++ Js.DQUOTE ++ action_ ++ Js.DQUOTE
                              ++ " was not recognised as valid")), t)).
Proof.
  intros bridge getMeta data t. split.
  - intros Hnone. unfold Tasks.tizenTask. now rewrite Hnone.
  - intros action_ Hsome Hnot. unfold Tasks.tizenTask.
    rewrite Hsome, (select_unknown bridge getMeta data action_ _ Hnot).
    reflexivity.
Qed.

Lemma tizenTask_validates_action_witness :
  let data := with_asRoot (Some true) (dataFor "watch") in
  Js.present (action data) = Some "watch" /\
  ~ In "watch" known_actions /\
  Tasks.tizenTask (theBridge quietConfig) (Q.resolve exampleMeta) data []
  = (Rejected (Error ("action " ++ Js.DQUOTE ++ "watch" ++ Js.DQUOTE
                        ++ " was not recognised as valid")), []).
Proof.
  intros data.
  assert (Hnot : ~ In "watch" known_actions).
  { unfold known_actions. simpl. intros H.
    repeat (destruct H as [H|H]; [discriminate|]). exact H. }
  split; [reflexivity|]. split; [exact Hnot|].
  exact (proj2 (tizenTask_validates_action
                  (theBridge quietConfig) (Q.resolve exampleMeta) data [])
               "watch" eq_refl Hnot).
Defined.

(** ** The root bracket *)

(** X11: under the root bracket, once [root(true)] has succeeded, the
    outcome of the task is the outcome of the command when [root(false)]
    succeeds, and the rejection of [root(false)] when it fails: in that case
    the error (or the value) of the command is lost. *)
Theorem root_off_failure_masks_command :
  forall (bridge : BridgeI) (getMeta : Promise Meta) (data : TaskData)
         (action_ : string) (cmd : Promise (option string))
         (t t1 t2 t3 : Trace) (u : unit)
         (r : Result (option string)) (r3 : Result unit),
    Js.present (action data) = Some action_ ->
    Tasks.select bridge getMeta data action_
                 (match asRoot data with Some b => b | None => false end)
    = (Some cmd, true) ->
    bridge_root bridge true t = (Resolved u, t1) ->
    cmd t1 = (r, t2) ->
    bridge_root bridge false t2 = (r3, t3) ->
    Tasks.tizenTask bridge getMeta data t
    = (match r3 with
       | Rejected e3 => Rejected e3
       | Resolved _ => r
       end, t3).
Proof.
  intros bridge getMeta data action_ cmd t t1 t2 t3 u r r3
         Haction Hselect Hon Hcmd Hoff.
  rewrite (tizenTask_as_root bridge getMeta data action_ cmd t Haction Hselect).
  rewrite Hon, Hcmd. unfold root_off_after. rewrite Hoff.
  now destruct r3.
Qed.

Lemma root_off_failure_masks_command_witness :
  let bridge := theBridge rootOffFailsConfig in
  let data := installData None in
  let t1 := snd (bridge_root bridge true []) in
  let t2 := snd (Tasks.install bridge data t1) in
  Js.present (action data) = Some "install" /\
  fst (bridge_root bridge true []) = Resolved tt /\
  fst (Tasks.install bridge data t1)
  = Rejected (Error "error while installing package") /\
  fst (bridge_root bridge false t2)
  = Rejected (Error "error: device offline") /\
  fst (Tasks.tizenTask bridge (Q.resolve exampleMeta) data [])
  = Rejected (Error "error: device offline").
Proof.
  intros bridge data t1 t2.
  split; [reflexivity|]. split; [reflexivity|]. split; [reflexivity|].
  split; [reflexivity|].
  rewrite (root_off_failure_masks_command
             bridge (Q.resolve exampleMeta) data "install"
             (Tasks.install bridge data) [] t1 t2
             (snd (bridge_root bridge false t2)) tt
             (Rejected (Error "error while installing package"))
             (Rejected (Error "error: device offline"))
             eq_refl eq_refl eq_refl eq_refl eq_refl).
  reflexivity.
Defined.

(** X12: a command that refuses the request (no [remoteFiles] for
    [install], no [localFiles] or [remoteDir] for [push], no [remoteScript]
    for [script]) does so before any call on the bridge or on the
    configuration; but under the root bracket (always for [install], and
    for [push] and [script] when the request asks for root) that refusal
    comes between [root(true)] and [root(false)], which are both called. *)
Theorem validation_inside_root_bracket :
  forall (bridge : BridgeI) (getMeta : Promise Meta) (data : TaskData)
         (t : Trace),
    let needs action_ property :=
      Error ("tizen " ++ Js.DQUOTE ++ action_ ++ Js.DQUOTE
                      ++ " action needs a " ++ property ++ " property") in
    (present_spec (remoteFiles data) = None ->
     Tasks.install bridge data t
     = (Rejected (needs "install" "remoteFiles"), t)) /\
    (present_spec (localFiles data) = None ->
     Tasks.push bridge data t = (Rejected (needs "push" "localFiles"), t)) /\
    (present_spec (localFiles data) <> None ->
     Js.present (remoteDir data) = None ->
     Tasks.push bridge data t = (Rejected (needs "push" "remoteDir"), t)) /\
    (Js.present (remoteScript data) = None ->
     Tasks.script bridge getMeta data t
     = (Rejected (needs "script" "remoteScript"), t)) /\
    (forall u t1,
        bridge_root bridge true t = (Resolved u, t1) ->
        (action data = Some "install" ->
         present_spec (remoteFiles data) = None ->
         Tasks.tizenTask bridge getMeta data t
         = root_off_after bridge (Rejected (needs "install" "remoteFiles")) t1)
        /\
        (action data = Some "push" -> asRoot data = Some true ->
         present_spec (localFiles data) = None ->
         Tasks.tizenTask bridge getMeta data t
         = root_off_after bridge (Rejected (needs "push" "localFiles")) t1)
        /\
        (action data = Some "push" -> asRoot data = Some true ->
         present_spec (localFiles data) <> None ->
         Js.present (remoteDir data) = None ->
         Tasks.tizenTask bridge getMeta data t
         = root_off_after bridge (Rejected (needs "push" "remoteDir")) t1)
        /\
        (action data = Some "script" -> asRoot data = Some true ->
         Js.present (remoteScript data) = None ->
         Tasks.tizenTask bridge getMeta data t
         = root_off_after bridge (Rejected (needs "script" "remoteScript"))
                          t1)).
Proof.
  intros bridge getMeta data t needs.
  assert (Hinstall :
            present_spec (remoteFiles data) = None ->
            forall t', Tasks.install bridge data t'
                       = (Rejected (needs "install" "remoteFiles"), t')).
  { intros H t'. unfold Tasks.install. now rewrite H. }
  assert (Hfiles :
            present_spec (localFiles data) = None ->
            forall t', Tasks.push bridge data t'
                       = (Rejected (needs "push" "localFiles"), t')).
  { intros H t'. unfold Tasks.push. now rewrite H. }
  assert (Hdir :
            present_spec (localFiles data) <> None ->
            Js.present (remoteDir data) = None ->
            forall t', Tasks.push bridge data t'
                       = (Rejected (needs "push" "remoteDir"), t')).
  { intros Hsome H t'. unfold Tasks.push.
    destruct (present_spec (localFiles data)); [|congruence].
    now rewrite H. }
  assert (Hscript :
            Js.present (remoteScript data) = None ->
            forall t', Tasks.script bridge getMeta data t'
                       = (Rejected (needs "script" "remoteScript"), t')).
  { intros H t'. unfold Tasks.script. now rewrite H. }
  split; [intros H; now apply Hinstall|].
  split; [intros H; now apply Hfiles|].
  split; [intros H1 H2; now apply Hdir|].
  split; [intros H; now apply Hscript|].
  intros u t1 Hon. split; [|split; [|split]].
  - intros Haction H.
    rewrite (tizenTask_as_root bridge getMeta data "install"
               (Tasks.install bridge data) t).
    + rewrite Hon. now rewrite (Hinstall H t1).
    + now rewrite Haction.
    + apply select_install.
  - intros Haction Hroot H.
    rewrite (tizenTask_as_root bridge getMeta data "push"
               (Tasks.push bridge data) t).
    + rewrite Hon. now rewrite (Hfiles H t1).
    + now rewrite Haction.
    + now rewrite Hroot.
  - intros Haction Hroot H1 H2.
    rewrite (tizenTask_as_root bridge getMeta data "push"
               (Tasks.push bridge data) t).
    + rewrite Hon. now rewrite (Hdir H1 H2 t1).
    + now rewrite Haction.
    + now rewrite Hroot.
  - intros Haction Hroot H.
    rewrite (tizenTask_as_root bridge getMeta data "script"
               (Tasks.script bridge getMeta data) t).
    + rewrite Hon. now rewrite (Hscript H t1).
    + now rewrite Haction.
    + now rewrite Hroot.
Qed.

Lemma validation_inside_root_bracket_witness :
  let bracket :=
    [SdbRoot true;
     Log LWrite (LStr "");
     Log LWarn (LStr ("*** called " ++ Js.DQUOTE ++ "sdb root on" ++ Js.DQUOTE
                        ++ "; commands now running as root ***"));
     SdbRoot false;
     Log LWrite (LStr "");
     Log LOk (LStr ("*** called " ++ Js.DQUOTE ++ "sdb root off" ++ Js.DQUOTE
                      ++ "; commands no longer running as root ***"))] in
  Tasks.tizenTask (theBridge quietConfig) (Q.resolve exampleMeta)
                  (dataFor "install") []
  = (Rejected (Error ("tizen " ++ Js.DQUOTE ++ "install" ++ Js.DQUOTE
                        ++ " action needs a remoteFiles property")),
     bracket) /\
  Tasks.tizenTask (theBridge quietConfig) (Q.resolve exampleMeta)
                  (with_asRoot (Some true) (dataFor "script")) []
  = (Rejected (Error ("tizen " ++ Js.DQUOTE ++ "script" ++ Js.DQUOTE
                        ++ " action needs a remoteScript property")),
     bracket).
Proof.
  intros bracket. split.
  - destruct (validation_inside_root_bracket
                (theBridge quietConfig) (Q.resolve exampleMeta)
                (dataFor "install") [])
      as (_ & _ & _ & _ & Hbracket).
    destruct (Hbracket tt _ eq_refl) as (Hinstall & _).
    rewrite (Hinstall eq_refl eq_refl). reflexivity.
  - destruct (validation_inside_root_bracket
                (theBridge quietConfig) (Q.resolve exampleMeta)
                (with_asRoot (Some true) (dataFor "script")) [])
      as (_ & _ & _ & _ & Hbracket).
    destruct (Hbracket tt _ eq_refl) as (_ & _ & _ & Hscript).
    rewrite (Hscript eq_refl eq_refl eq_refl). reflexivity.
Defined.

(** ** What a task never calls *)

(** X13: a request that is not run as root ([asRoot] absent or false, and
    an action other than [install]) never calls [root] on the bridge: the
    run is the same with any other [root] method. *)
Theorem no_root_without_asRoot :
  forall (bridge : BridgeI) (getMeta : Promise Meta) (data : TaskData)
         (root_ : bool -> Promise unit) (t : Trace),
    asRoot data <> Some true ->
    Js.present (action data) <> Some "install" ->
    Tasks.tizenTask (with_root root_ bridge) getMeta data t
    = Tasks.tizenTask bridge getMeta data t.
Proof.
  intros bridge getMeta data root_ t Hroot Haction.
  unfold Tasks.tizenTask.
  assert (HasRoot : match asRoot data with Some b => b | None => false end
                    = false)
    by (destruct (asRoot data) as [[|]|]; congruence).
  rewrite HasRoot.
  destruct (Js.present (action data)) as [action_|]; [|reflexivity].
  assert (Hne : String.eqb action_ "install" = false)
    by (apply String.eqb_neq; congruence).
  unfold Tasks.select. rewrite Hne.
  destruct (String.eqb action_ "push"); [reflexivity|].
  destruct (String.eqb action_ "uninstall"); [reflexivity|].
  destruct (String.eqb action_ "script"); [reflexivity|].
  destruct (String.eqb action_ "start" || String.eqb action_ "stop"
            || String.eqb action_ "debug"); reflexivity.
Qed.

Lemma no_root_without_asRoot_witness :
  let refusing : bool -> Promise unit :=
    fun _ => Q.reject (Error "root must not be called") in
  let data := dataFor "uninstall" in
  asRoot data <> Some true /\
  Js.present (action data) <> Some "install" /\
  Tasks.tizenTask (with_root refusing (theBridge quietConfig))
                  (Q.resolve exampleMeta) data []
  = (Resolved None,
     [SdbShell "/opt/tizen-app.sh uninstall pkg";
      Log LWrite (LStr "");
      Log LOk (LStr "package with name pkg uninstalled")]).
Proof.
  intros refusing data.
  assert (H1 : asRoot data <> Some true) by discriminate.
  assert (H2 : Js.present (action data) <> Some "install") by discriminate.
  split; [exact H1|]. split; [exact H2|].
  rewrite (no_root_without_asRoot (theBridge quietConfig)
             (Q.resolve exampleMeta) data refusing [] H1 H2).
  reflexivity.
Defined.

(** X14: only the [debug] action forwards a port or runs the browser: for
    every other request the run is the same with any other [portForward]
    and [runBrowser] methods on the bridge. *)
Theorem only_debug_forwards_a_port :
  forall (bridge : BridgeI) (getMeta : Promise Meta) (data : TaskData)
         (portForward_ : JsPort -> N -> Promise string)
         (runBrowser_ : string -> JsPort -> Promise string) (t : Trace),
    Js.present (action data) <> Some "debug" ->
    Tasks.tizenTask (with_debugging portForward_ runBrowser_ bridge)
                    getMeta data t
    = Tasks.tizenTask bridge getMeta data t.
Proof.
  intros bridge getMeta data portForward_ runBrowser_ t Haction.
  unfold Tasks.tizenTask.
  destruct (Js.present (action data)) as [action_|]; [|reflexivity].
  assert (Hne : String.eqb action_ "debug" = false)
    by (apply String.eqb_neq; congruence).
  unfold Tasks.select, Tasks.launch.
  destruct (String.eqb action_ "debug"); [discriminate|].
  destruct (String.eqb action_ "push"); [reflexivity|].
  destruct (String.eqb action_ "install"); [reflexivity|].
  destruct (String.eqb action_ "uninstall"); [reflexivity|].
  destruct (String.eqb action_ "script"); [reflexivity|].
  destruct (String.eqb action_ "start" || String.eqb action_ "stop" || false);
    reflexivity.
Qed.

Lemma only_debug_forwards_a_port_witness :
  let data := dataFor "start" in
  let refusing : JsPort -> N -> Promise string :=
    fun _ _ => Q.reject (Error "portForward must not be called") in
  let browsing : string -> JsPort -> Promise string :=
    fun _ _ => Q.reject (Error "runBrowser must not be called") in
  Js.present (action data) <> Some "debug" /\
  Tasks.tizenTask (with_debugging refusing browsing (theBridge debugConfig))
                  (Q.resolve exampleMeta) data []
  = (Resolved None,
     [SdbShell "/opt/tizen-app.sh start app";
      Log LWrite (LStr "launched; PORT 26099");
      Log LOk (LStr "app with id app launched")]).
Proof.
  intros data refusing browsing.
  assert (H : Js.present (action data) <> Some "debug") by discriminate.
  split; [exact H|].
  rewrite (only_debug_forwards_a_port (theBridge debugConfig)
             (Q.resolve exampleMeta) data refusing browsing [] H).
  reflexivity.
Defined.

(** ** Tasks that tolerate the failures of the device *)

Lemma tolerant_uninstall_is_fulfilled (config : BridgeConfig)
      (packageName_ : string) (t : Trace) :
  fst (Bridge.uninstall config packageName_ false t) = Resolved tt.
Proof.
  unfold Bridge.uninstall. unfold_q.
  destruct (Bridge.runTizenAppScript config "uninstall" [packageName_] t)
    as [[stdout|e] t1]; simpl; [|reflexivity].
  now destruct (Bridge.uninstall_failed stdout).
Qed.

Lemma tolerant_launch_is_fulfilled (config : BridgeConfig)
      (subcommand appUri : string) (t : Trace) :
  is_rejected (fst (Bridge.launch config subcommand appUri false t)) = false.
Proof.
  unfold Bridge.launch. unfold_q.
  destruct (Bridge.runTizenAppScript config subcommand [appUri] t)
    as [[stdout|e] t1]; simpl; [|reflexivity].
  now destruct (Bridge.launch_failed stdout).
Qed.

(** X15: unless the request sets [stopOnFailure] to true, the [uninstall]
    task and the [start] and [stop] tasks fail only when the metadata of
    the application cannot be obtained, whatever happens on the device; and
    when the metadata cannot be obtained, nothing is called on the
    bridge. *)
Theorem tolerant_tasks_fail_only_on_metadata :
  forall (config : BridgeConfig) (getMeta : Promise Meta) (data : TaskData)
         (t : Trace),
    stopOnFailure data <> Some true ->
    is_rejected (fst (Tasks.uninstall (theBridge config) getMeta data t))
    = is_rejected (fst (getMeta t)) /\
    (forall subcommand,
        String.eqb subcommand "debug" = false ->
        is_rejected (fst (Tasks.launch (theBridge config) getMeta data
                                       subcommand t))
        = is_rejected (fst (getMeta t))) /\
    (forall e t1,
        getMeta t = (Rejected e, t1) ->
        Tasks.uninstall (theBridge config) getMeta data t = (Rejected e, t1) /\
        forall subcommand,
          Tasks.launch (theBridge config) getMeta data subcommand t
          = (Rejected e, t1)).
Proof.
  intros config getMeta data t Hdata.
  assert (Hsof : match stopOnFailure data with
                 | Some true => true
                 | _ => false
                 end = false)
    by (destruct (stopOnFailure data) as [[|]|]; congruence).
  split; [|split].
  - unfold Tasks.uninstall. rewrite Hsof.
    unfold Q.then_ at 1. unfold Q.then2 at 1.
    destruct (getMeta t) as [[meta|e] t1]; [|reflexivity].
    unfold Q.then_, Q.then2. cbn [bridge_uninstall theBridge].
    pose proof (tolerant_uninstall_is_fulfilled config (packageName meta) t1)
      as Hok.
    destruct (Bridge.uninstall config (packageName meta) false t1) as [r t2].
    simpl in Hok. now subst r.
  - intros subcommand Hsub. unfold Tasks.launch. rewrite Hsof, Hsub.
    unfold Q.then_ at 1. unfold Q.then2 at 1.
    destruct (getMeta t) as [[meta|e] t1]; [|reflexivity].
    unfold Q.then_, Q.then2. cbn [bridge_launch theBridge].
    pose proof (tolerant_launch_is_fulfilled config subcommand (id meta) t1)
      as Hok.
    destruct (Bridge.launch config subcommand (id meta) false t1)
      as [[v|e] t2]; [reflexivity|discriminate].
  - intros e t1 Hmeta. split.
    + unfold Tasks.uninstall. unfold Q.then_ at 1. unfold Q.then2 at 1.
      now rewrite Hmeta.
    + intros subcommand. unfold Tasks.launch.
      unfold Q.then_ at 1. unfold Q.then2 at 1. now rewrite Hmeta.
Qed.

Lemma tolerant_tasks_fail_only_on_metadata_witness :
  stopOnFailure (dataFor "uninstall") <> Some true /\
  fst (Bridge.runTizenAppScript failingScriptConfig "uninstall" ["pkg"] [])
  = Resolved "package is not installed" /\
  is_rejected (fst (Tasks.uninstall (theBridge failingScriptConfig)
                                    (Q.resolve exampleMeta)
                                    (dataFor "uninstall") []))
  = false.
Proof.
  assert (H : stopOnFailure (dataFor "uninstall") <> Some true)
    by discriminate.
  split; [exact H|]. split; [reflexivity|].
  destruct (tolerant_tasks_fail_only_on_metadata
              failingScriptConfig (Q.resolve exampleMeta)
              (dataFor "uninstall") [] H) as (Hun & _ & _).
  rewrite Hun. reflexivity.
Defined.

(** ** The port of the debugger *)

Lemma parseInt_acc_string_of_uint (d : Decimal.uint) :
  forall acc : N,
    Js.parseInt_acc acc (NilEmpty.string_of_uint d) = uint_value acc d.
Proof.
  induction d; intros acc; simpl; try reflexivity; apply IHd.
Qed.

Lemma uint_value_of_uint_acc (d : Decimal.uint) :
  forall acc : positive,
    uint_value (Npos acc) d = Npos (Pos.of_uint_acc d acc).
Proof.
  induction d; intros acc; cbn [uint_value Pos.of_uint_acc];
    try reflexivity; rewrite <- IHd; f_equal; lia.
Qed.

Lemma uint_value_of_uint (d : Decimal.uint) : uint_value 0 d = N.of_uint d.
Proof.
  unfold N.of_uint.
  induction d; simpl; try reflexivity; try exact IHd;
    apply uint_value_of_uint_acc.
Qed.

(** Reading back the decimal writing of a number gives the number. *)
Lemma parseInt_of_N (n : N) : Js.parseInt (Js.of_N n) = n.
Proof.
  unfold Js.parseInt, Js.of_N.
  rewrite parseInt_acc_string_of_uint, uint_value_of_uint.
  apply DecimalN.Unsigned.of_to.
Qed.

Lemma all_digits_string_of_uint (d : Decimal.uint) :
  all_digits (NilEmpty.string_of_uint d) = true.
Proof. unfold all_digits. induction d; simpl; auto. Qed.

Lemma of_N_nonempty (n : N) : Js.of_N n <> "".
Proof.
  unfold Js.of_N. destruct n as [|p]; [discriminate|].
  pose proof (DecimalPos.Unsigned.to_uint_nonnil p) as Hnil.
  simpl. destruct (Pos.to_uint p); [congruence| | | | | | | | | |];
    discriminate.
Qed.

(** No match of the pattern starts inside a text that has none and runs
    into a following [PORT ]. *)
Lemma port_here_before_port (p x : string) :
  p <> "" -> Js.port_here p = None ->
  Js.port_here (p ++ "PORT " ++ x) = None.
Proof.
  intros Hne. unfold Js.port_here.
  destruct p as [|c1 [|c2 [|c3 [|c4 [|c5 [|c6 p]]]]]]; [congruence| | | | | |];
    cbn [append Js.strip_prefix];
    repeat match goal with
           | |- context [Ascii.eqb ?a ?b] =>
               first [ is_var b; destruct (Ascii.eqb_spec a b); [subst b|]
                     | let v := eval vm_compute in (Ascii.eqb a b) in
                       change (Ascii.eqb a b) with v ]
           end; cbv iota; try (intros _; reflexivity).
  cbn [Js.take_digits].
  destruct (Js.is_digit c6); [discriminate|reflexivity].
Qed.

(** The pattern is found where the text [PORT ] and digits follow a text
    without a match. *)
Lemma match_port_found (pre ds post : string) :
  Js.match_port pre = None ->
  ds <> "" -> all_digits ds = true -> starts_with_digit post = false ->
  Js.match_port (pre ++ "PORT " ++ ds ++ post) = Some ds.
Proof.
  intros Hpre Hne Hd Hpost. apply match_port_spec.
  exists pre, ("PORT " ++ ds ++ post). split; [reflexivity|]. split.
  - apply port_here_spec. now exists post.
  - intros p1 p2 -> Hp2.
    apply port_here_before_port; [exact Hp2|].
    exact (proj1 (match_port_none _) Hpre p1 p2 eq_refl).
Qed.

(** X16: when the launch in debug mode prints [PORT ] followed by the
    decimal writing of a port number (below 2^53, so that the number read
    is exact), after a text in which the pattern does not occur and before
    a character that is not a digit, the debug task forwards the local port
    to exactly that number, and then goes on with the browser as the
    request asks. *)
Theorem debug_forwards_the_printed_port :
  forall (bridge : BridgeI) (getMeta : Promise Meta) (data : TaskData)
         (meta : Meta) (n : N) (pre post : string) (t0 t1 t2 : Trace),
    (n < 2 ^ 53)%N ->
    getMeta t0 = (Resolved meta, t1) ->
    bridge_launch bridge "debug" (id meta)
                  (match stopOnFailure data with
                   | Some true => true
                   | _ => false
                   end) t1
    = (Resolved (Some (pre ++ "PORT " ++ Js.of_N n ++ post)), t2) ->
    Js.match_port pre = None ->
    starts_with_digit post = false ->
    let localPort_ := match present_port (localPort data) with
                      | Some p => p
                      | None => PortStr "8888"
                      end in
    Tasks.launch bridge getMeta data "debug" t0
    = (bridge_portForward bridge localPort_ n >>= fun _ =>
         match Js.present (browserCmd data) with
         | Some cmd =>
             bridge_runBrowser bridge cmd localPort_
               >>= fun stdout => Q.resolve (Some stdout)
         | None => Q.resolve None
         end) t2.
Proof.
  intros bridge getMeta data meta n pre post t0 t1 t2 _ Hmeta Hlaunch
         Hpre Hpost localPort_.
  unfold Tasks.launch. fold localPort_.
  unfold Q.then_ at 1. unfold Q.then2 at 1. rewrite Hmeta.
  unfold Q.then_ at 1. unfold Q.then2 at 1. rewrite Hlaunch.
  rewrite String.eqb_refl.
  rewrite (match_port_found pre (Js.of_N n) post Hpre (of_N_nonempty n)
                            (all_digits_string_of_uint (N.to_uint n)) Hpost).
  now rewrite parseInt_of_N.
Qed.

Lemma debug_forwards_the_printed_port_witness :
  (26099 < 2 ^ 53)%N /\
  Q.resolve exampleMeta [] = (Resolved exampleMeta, []) /\
  "launched; " ++ "PORT " ++ Js.of_N 26099 ++ "" = "launched; PORT 26099" /\
  Js.match_port "launched; " = None /\
  starts_with_digit "" = false /\
  filter (fun event => match event with SdbForward _ _ => true | _ => false end)
         (snd (Tasks.launch (theBridge debugConfig) (Q.resolve exampleMeta)
                            debugData "debug" []))
  = [SdbForward (PortStr "8888") 26099].
Proof.
  split; [reflexivity|]. split; [reflexivity|]. split; [reflexivity|].
  split; [reflexivity|]. split; [reflexivity|].
  rewrite (debug_forwards_the_printed_port
             (theBridge debugConfig) (Q.resolve exampleMeta) debugData
             exampleMeta 26099 "launched; " ""
             [] [] (snd (bridge_launch (theBridge debugConfig) "debug" "app"
                                       false []))
             eq_refl eq_refl eq_refl eq_refl eq_refl).
  reflexivity.
Defined.

(** ** The script task and the preparation task *)

(** X17: the [script] task runs in the sdb shell the interpreter
    [/bin/sh], the remote script, the package name and the identifier of
    the application, and then the arguments of the request, all separated
    by single spaces.  It is fulfilled with the output of the shell, and
    rejected, whatever the error of the shell, with the error that names
    this command line. *)
Theorem script_task_runs_with_identity :
  forall (answers : Answers) (scriptPath : option string)
         (getMeta : Promise Meta) (data : TaskData) (remoteScript_ : string)
         (meta : Meta) (t0 t1 : Trace),
    Js.present (remoteScript data) = Some remoteScript_ ->
    getMeta t0 = (Resolved meta, t1) ->
    let cmd := Js.join " " ("/bin/sh" :: remoteScript_
                              :: packageName meta :: id meta
                              :: match args data with
                                 | Some a => a
                                 | None => []
                                 end) in
    let running := (t1 ++ [Log LOk (LStr ("running: " ++ cmd))])%list in
    Tasks.script (theBridge (recordingConfig answers scriptPath))
                 getMeta data t0
    = match on_shell (sdb_answers answers) running cmd with
      | Resolved stdout =>
          (Resolved (Some stdout),
           (running ++ [SdbShell cmd; Log LWrite (LStr stdout)])%list)
      | Rejected e =>
          (Rejected (Error ("error occurred while running command " ++ cmd)),
           (running ++ [SdbShell cmd; Log LError (LStr (message e))])%list)
      end.
Proof.
  intros answers scriptPath getMeta data remoteScript_ meta t0 t1
         Hscript Hmeta cmd running.
  unfold Tasks.script. rewrite Hscript.
  unfold Q.then_ at 1. unfold Q.then2 at 1. rewrite Hmeta.
  cbn [bridge_runScript theBridge app]. unfold Bridge.runScript.
  rewrite (runScript_command remoteScript_
             (packageName meta :: id meta
                :: match args data with Some a => a | None => [] end)).
  change (Js.join " " (Bridge.scriptInterpreterPath :: remoteScript_
                         :: packageName meta :: id meta
                         :: match args data with
                            | Some a => a
                            | None => []
                            end)) with cmd.
  unfold_q. cbn [sdbWrapper recordingConfig recordingSdb sdb_shell].
  fold running.
  destruct (on_shell (sdb_answers answers) running cmd) as [stdout|e];
    rewrite <- app_assoc; reflexivity.
Qed.

Lemma script_task_runs_with_identity_witness :
  let data :=
    {| action := Some "script"; asRoot := None; localFiles := None;
       remoteDir := None; overwrite := None; chmod := None;
       remoteFiles := None; stopOnFailure := None;
       remoteScript := Some "/home/developer/dump.sh";
       args := Some ["--all"]; localPort := None; browserCmd := None |} in
  Js.present (remoteScript data) = Some "/home/developer/dump.sh" /\
  Q.resolve exampleMeta [] = (Resolved exampleMeta, []) /\
  Tasks.script (theBridge quietConfig) (Q.resolve exampleMeta) data []
  = (Resolved (Some ""),
     [Log LOk (LStr "running: /bin/sh /home/developer/dump.sh pkg app --all");
      SdbShell "/bin/sh /home/developer/dump.sh pkg app --all";
      Log LWrite (LStr "")]).
Proof.
  intros data. split; [reflexivity|]. split; [reflexivity|].
  unfold quietConfig.
  rewrite (script_task_runs_with_identity
             (answersOf quietSdb []) (Some "/opt/tizen-app.sh")
             (Q.resolve exampleMeta) data "/home/developer/dump.sh"
             exampleMeta [] [] eq_refl eq_refl).
  reflexivity.
Defined.

(** X18: the preparation task pushes the local copy of the application
    script to the script directory with [overwrite] true and [chmod] [+x]:
    with a recording bridge the file is pushed to the directory followed by
    its base name without any [stat] before, and made executable after a
    push that succeeded.  When the bridge has no local script, or no script
    directory, the task is rejected and nothing is called. *)
Theorem tizenPrepareTask_pushes_the_script :
  forall (answers : Answers) (scriptPath : option string)
         (tizenAppScriptLocal tizenAppScriptDir : option string) (t : Trace),
    let bridge := theBridge (recordingConfig answers scriptPath) in
    (Js.present tizenAppScriptLocal = None ->
     tizenPrepareTask bridge tizenAppScriptLocal tizenAppScriptDir t
     = (Rejected (Error ("tizen " ++ Js.DQUOTE ++ "push" ++ Js.DQUOTE
                           ++ " action needs a localFiles property")), t)) /\
    (Js.present tizenAppScriptLocal <> None ->
     Js.present tizenAppScriptDir = None ->
     tizenPrepareTask bridge tizenAppScriptLocal tizenAppScriptDir t
     = (Rejected (Error ("tizen " ++ Js.DQUOTE ++ "push" ++ Js.DQUOTE
                           ++ " action needs a remoteDir property")), t)) /\
    (forall localScript remoteDir_ stdout,
        Js.present tizenAppScriptLocal = Some localScript ->
        Js.present tizenAppScriptDir = Some remoteDir_ ->
        on_list answers t (FString localScript) = Resolved [localScript] ->
        let remotePath := Bridge.getDestination localScript remoteDir_ in
        let listed := (t ++ [ListFiles (FString localScript)])%list in
        on_push (sdb_answers answers) listed localScript remotePath
        = Resolved stdout ->
        exists rest,
          snd (tizenPrepareTask bridge tizenAppScriptLocal
                                tizenAppScriptDir t)
          = (listed
               ++ [SdbPush localScript remotePath;
                   Log LOk (LStr ("pushed local:" ++ localScript
                                    ++ " to remote:" ++ remotePath));
                   SdbShell ("chmod " ++ "+x" ++ " " ++ remotePath)]
               ++ rest)%list).
Proof.
  intros answers scriptPath tizenAppScriptLocal tizenAppScriptDir t bridge.
  assert (Hspec : forall l,
             Js.present tizenAppScriptLocal = Some l ->
             present_spec (option_map FString tizenAppScriptLocal)
             = Some (FString l)).
  { intros l Hl. unfold Js.present in Hl.
    destruct tizenAppScriptLocal as [s|]; simpl in *; [|discriminate].
    destruct (String.eqb s ""); simpl in Hl; [discriminate|].
    now injection Hl as ->. }
  split; [|split].
  - intros Hnone. unfold tizenPrepareTask, Tasks.push. cbn [localFiles].
    unfold Js.present in Hnone.
    destruct tizenAppScriptLocal as [s|]; simpl in *; [|reflexivity].
    destruct (String.eqb s ""); simpl in Hnone; [reflexivity|discriminate].
  - intros Hsome Hnone.
    destruct (Js.present tizenAppScriptLocal) as [l|] eqn:Hl; [|congruence].
    unfold tizenPrepareTask, Tasks.push. cbn [localFiles remoteDir].
    now rewrite (Hspec l eq_refl), Hnone.
  - intros localScript remoteDir_ stdout Hl Hd Hlist remotePath listed Hpush.
    unfold tizenPrepareTask, Tasks.push.
    cbn [localFiles remoteDir overwrite chmod].
    rewrite (Hspec localScript Hl), Hd.
    unfold bridge. cbn [bridge_push theBridge].
    unfold Bridge.push, Bridge.pushOne, Bridge.pushRaw, Bridge.chmod.
    fold remotePath. unfold_q.
    cbn [fileLister sdbWrapper recordingConfig recordingSdb sdb_push
         sdb_shell Js.present Js.truthy].
    rewrite Hlist. fold listed. cbn [async_each]. fold remotePath.
    rewrite Hpush. simpl.
    destruct (on_shell (sdb_answers answers) _ _) as [out|e]; simpl;
      repeat rewrite <- app_assoc; simpl; eexists; reflexivity.
Qed.

Lemma tizenPrepareTask_pushes_the_script_witness :
  let answers := echoAnswers quietSdb in
  let bridge := theBridge (recordingConfig answers None) in
  Js.present (Some "bin/tizen-app.sh") = Some "bin/tizen-app.sh" /\
  Js.present (Some "/opt/home/developer/") = Some "/opt/home/developer/" /\
  on_list answers [] (FString "bin/tizen-app.sh")
  = Resolved ["bin/tizen-app.sh"] /\
  tizenPrepareTask bridge (Some "bin/tizen-app.sh")
                   (Some "/opt/home/developer/") []
  = (Resolved None,
     [ListFiles (FString "bin/tizen-app.sh");
      SdbPush "bin/tizen-app.sh" "/opt/home/developer/tizen-app.sh";
      Log LOk (LStr ("pushed local:bin/tizen-app.sh"
                       ++ " to remote:/opt/home/developer/tizen-app.sh"));
      SdbShell "chmod +x /opt/home/developer/tizen-app.sh";
      Log LWrite (LStr "");
      Log LOk (LStr "did chmod +x on /opt/home/developer/tizen-app.sh");
      Log LOk (LStr "all files pushed")]).
Proof.
  intros answers bridge.
  split; [reflexivity|]. split; [reflexivity|]. split; [reflexivity|].
  destruct (tizenPrepareTask_pushes_the_script
              answers None (Some "bin/tizen-app.sh")
              (Some "/opt/home/developer/") []) as (_ & _ & Hpush).
  destruct (Hpush "bin/tizen-app.sh" "/opt/home/developer/" ""
                  eq_refl eq_refl eq_refl eq_refl) as [rest Hrest].
  reflexivity.
Defined.


(** * The file lister *)

Lemma insert_sorted_Permutation (cmp : string -> string -> Z) (x : string)
      (l : list string) :
  Permutation (insert_sorted cmp x l) (x :: l).
Proof.
  induction l as [|y rest IH]; simpl; [reflexivity|].
  destruct (cmp x y <=? 0)%Z; [reflexivity|].
  rewrite IH. apply perm_swap.
Qed.

Lemma insertion_sort_Permutation (cmp : string -> string -> Z)
      (l : list string) :
  Permutation (insertion_sort cmp l) l.
Proof.
  induction l as [|x rest IH]; simpl; [reflexivity|].
  rewrite insert_sorted_Permutation. now rewrite IH.
Qed.

Lemma insert_sorted_descending (key : string -> Z) (x : string)
      (l : list string) :
  StronglySorted (fun a b => (key b <= key a)%Z) l ->
  StronglySorted (fun a b => (key b <= key a)%Z)
                 (insert_sorted (fun a b => (key b - key a)%Z) x l).
Proof.
  induction 1 as [|y rest Hsorted IH Hall]; simpl.
  - repeat constructor.
  - destruct (Z.leb_spec (key y - key x) 0) as [Hle|Hgt].
    + constructor; [now constructor|].
      constructor; [lia|].
      rewrite Forall_forall in *. intros z Hz. specialize (Hall z Hz). lia.
    + constructor; [exact IH|].
      rewrite Forall_forall in *. intros z Hz.
      apply (Permutation_in _ (insert_sorted_Permutation _ x rest)) in Hz.
      destruct Hz as [<-|Hz]; [lia|now apply Hall].
Qed.

Lemma insertion_sort_descending (key : string -> Z) (l : list string) :
  StronglySorted (fun a b => (key b <= key a)%Z)
                 (insertion_sort (fun a b => (key b - key a)%Z) l).
Proof.
  induction l as [|x rest IH]; simpl; [constructor|].
  now apply insert_sorted_descending.
Qed.

Section FileListerFacts.

Variable statSync : string -> Result Z.
Variable sort : (string -> string -> Z) -> list string -> list string.
Variable glob : Trace -> string -> Result (list string).

(** What the language guarantees of [sort]: the array keeps its elements,
    and with a comparator that is the difference of two keys they end up
    in descending order of that key. *)
Hypothesis sort_Permutation :
  forall cmp l, Permutation (sort cmp l) l.
Hypothesis sort_descending :
  forall (key : string -> Z) l,
    StronglySorted (fun a b => (key b <= key a)%Z)
                   (sort (fun a b => (key b - key a)%Z) l).

Lemma getLatest_of_readable (filePaths : list string) :
  filePaths <> [] ->
  FileLister.stat_error statSync filePaths = None ->
  exists latest,
    FileLister.getLatest statSync sort filePaths = Resolved (Some latest) /\
    In latest filePaths /\
    forall path, In path filePaths ->
                 (FileLister.mtime statSync path
                  <= FileLister.mtime statSync latest)%Z.
Proof.
  intros Hne Hstat. unfold FileLister.getLatest. rewrite Hstat.
  destruct filePaths as [|p [|q rest]]; [congruence| |].
  - exists p. simpl. repeat split; [now left|].
    intros path [<-|[]]. lia.
  - cbn [length Nat.ltb Nat.leb].
    set (cmp := fun a b => (FileLister.mtime statSync b
                            - FileLister.mtime statSync a)%Z).
    pose proof (sort_Permutation cmp (p :: q :: rest)) as Hperm.
    pose proof (sort_descending (FileLister.mtime statSync) (p :: q :: rest))
      as Hsorted.
    fold cmp in Hsorted.
    destruct (sort cmp (p :: q :: rest)) as [|latest others] eqn:Hs.
    { apply Permutation_nil in Hperm. discriminate. }
    exists latest. simpl. repeat split.
    + apply (Permutation_in _ Hperm). now left.
    + intros path Hin.
      apply (Permutation_in _ (Permutation_sym Hperm)) in Hin.
      inversion Hsorted as [|? ? _ Hall]; subst.
      destruct Hin as [<-|Hin]; [lia|].
      rewrite Forall_forall in Hall. now apply Hall.
Qed.

(** X19: [getLatest] returns [undefined] for no path and the path itself
    for a single one, without reading its time; for two paths or more that
    can all be read it returns one of them whose modification time is the
    greatest, whatever their order; and it throws when one of two paths or
    more cannot be read. *)
Theorem getLatest_returns_the_most_recent :
  forall filePaths : list string,
    FileLister.getLatest statSync sort [] = Resolved None /\
    (forall path,
        FileLister.getLatest statSync sort [path] = Resolved (Some path)) /\
    (filePaths <> [] ->
     FileLister.stat_error statSync filePaths = None ->
     exists latest,
       FileLister.getLatest statSync sort filePaths = Resolved (Some latest) /\
       In latest filePaths /\
       forall path, In path filePaths ->
                    (FileLister.mtime statSync path
                     <= FileLister.mtime statSync latest)%Z) /\
    (forall e,
        (1 < length filePaths)%nat ->
        FileLister.stat_error statSync filePaths = Some e ->
        FileLister.getLatest statSync sort filePaths = Rejected e).
Proof.
  intros filePaths. split; [reflexivity|]. split; [reflexivity|]. split.
  - apply getLatest_of_readable.
  - intros e Hlen Hstat. unfold FileLister.getLatest.
    apply Nat.ltb_lt in Hlen. now rewrite Hlen, Hstat.
Qed.

(** X20: [list] gives back a path as a list of one element and a list of
    paths as it is, without looking at the file system.  For a pattern it
    gives what [glob] matches, or is rejected with the error of [glob];
    with the filter [latest] the list always has exactly one element,
    which is the most recent match, and [undefined] when nothing
    matches. *)
Theorem list_resolves_the_specification :
  forall t : Trace,
    (forall path,
        FileLister.list statSync sort glob (FString path) t
        = (Resolved [Some path], t)) /\
    (forall paths,
        FileLister.list statSync sort glob (FArray paths) t
        = (Resolved (map Some paths), t)) /\
    (forall pattern filter e,
        glob t pattern = Rejected e ->
        FileLister.list statSync sort glob (FPattern pattern filter) t
        = (Rejected e, t)) /\
    (forall pattern files,
        glob t pattern = Resolved files ->
        FileLister.list statSync sort glob (FPattern pattern None) t
        = (Resolved (map Some files), t)) /\
    (forall pattern,
        glob t pattern = Resolved [] ->
        FileLister.list statSync sort glob (FPattern pattern (Some "latest")) t
        = (Resolved [None], t)) /\
    (forall pattern files,
        glob t pattern = Resolved files ->
        files <> [] ->
        FileLister.stat_error statSync files = None ->
        exists latest,
          FileLister.list statSync sort glob
                          (FPattern pattern (Some "latest")) t
          = (Resolved [Some latest], t) /\
          In latest files /\
          forall path, In path files ->
                       (FileLister.mtime statSync path
                        <= FileLister.mtime statSync latest)%Z).
Proof.
  intros t. split; [reflexivity|]. split; [reflexivity|].
  split; [|split; [|split]].
  - intros pattern filter e Hglob. unfold FileLister.list. now rewrite Hglob.
  - intros pattern files Hglob. unfold FileLister.list. now rewrite Hglob.
  - intros pattern Hglob. unfold FileLister.list. now rewrite Hglob.
  - intros pattern files Hglob Hne Hstat.
    destruct (getLatest_of_readable files Hne Hstat)
      as (latest & Hlatest & Hin & Hmax).
    exists latest. split; [|now split].
    unfold FileLister.list. rewrite Hglob, String.eqb_refl.
    now rewrite Hlatest.
Qed.

End FileListerFacts.

Lemma getLatest_returns_the_most_recent_witness :
  let files := ["data/oldest.txt"; "data/youngest.txt"; "data/older.txt"] in
  files <> [] /\
  FileLister.stat_error testStat files = None /\
  FileLister.getLatest testStat insertion_sort files
  = Resolved (Some "data/youngest.txt").
Proof.
  intros files.
  assert (Hne : files <> []) by discriminate.
  split; [exact Hne|]. split; [reflexivity|].
  destruct (getLatest_returns_the_most_recent
              testStat insertion_sort
              insertion_sort_Permutation insertion_sort_descending files)
    as (_ & _ & Hlatest & _).
  destruct (Hlatest Hne eq_refl) as (latest & Hget & _ & _).
  reflexivity.
Defined.

Lemma list_resolves_the_specification_witness :
  let glob : Trace -> string -> Result (list string) :=
    fun _ _ => Resolved ["data/older.txt"; "data/oldest.txt"] in
  glob [] "data/old*" = Resolved ["data/older.txt"; "data/oldest.txt"] /\
  FileLister.stat_error testStat ["data/older.txt"; "data/oldest.txt"] = None /\
  FileLister.list testStat insertion_sort glob
                  (FPattern "data/old*" (Some "latest")) []
  = (Resolved [Some "data/older.txt"], []).
Proof.
  intros glob. split; [reflexivity|]. split; [reflexivity|].
  destruct (list_resolves_the_specification
              testStat insertion_sort glob
              insertion_sort_Permutation insertion_sort_descending [])
    as (_ & _ & _ & _ & _ & Hlatest).
  destruct (Hlatest "data/old*" ["data/older.txt"; "data/oldest.txt"]
                    eq_refl ltac:(discriminate) eq_refl)
    as (latest & Hlist & _ & _).
  reflexivity.
Defined.


(** * The sdb wrapper *)

Lemma execute_outcome (host : Host) (sdbCmd command : string) (t : Trace) :
  let cmdline := sdbCmd ++ " " ++ command in
  let out := host_exec host t cmdline in
  snd (SdbWrapper.execute host sdbCmd command t) = (t ++ [Exec cmdline])%list /\
  is_rejected (fst (SdbWrapper.execute host sdbCmd command t))
  = negb (exec_clean out) /\
  (forall stdout,
      fst (SdbWrapper.execute host sdbCmd command t) = Resolved stdout ->
      stdout = exec_stdout out /\
      Js.includes "command not found" stdout = false /\
      Js.includes "No such file or directory" stdout = false).
Proof.
  intros cmdline out.
  unfold SdbWrapper.execute, exec_clean. fold cmdline. fold out.
  destruct (exec_err out) as [err|]; simpl.
  { split; [reflexivity|]. split; [reflexivity|].
    intros stdout H; discriminate. }
  destruct (Js.includes "command not found" (exec_stdout out)) eqn:H1; simpl.
  { split; [reflexivity|]. split; [reflexivity|].
    intros stdout H; discriminate. }
  destruct (Js.includes "No such file or directory" (exec_stdout out))
    eqn:H2; simpl.
  { split; [reflexivity|]. split; [reflexivity|].
    intros stdout H; discriminate. }
  destruct (Js.includes "failed" (exec_stderr out)) eqn:H3; simpl.
  { split; [reflexivity|]. split; [reflexivity|].
    intros stdout H; discriminate. }
  split; [reflexivity|]. split; [reflexivity|].
  intros stdout H. injection H as <-. now repeat split.
Qed.

(** X21: [execute] runs [sdb] once, on the command line made of [sdbCmd],
    a space and the command.  Its promise is fulfilled, with the standard
    output, exactly when [exec] reported no error, the output contains
    neither "command not found" nor "No such file or directory" and the
    error stream does not contain "failed"; so an output that is given back
    never contains these two marks.  [shell], [forward] and [root] are that
    one run and nothing else: [shell] of the remote command between double
    quotes, [forward] of [forward tcp:<local> tcp:<remote>] (for ports
    that are written in full, the remote one being below 2^53), and [root]
    of [root on] or [root off]. *)
Theorem execute_fulfils_only_clean_runs :
  forall (host : Host) (sdbCmd : string) (t : Trace),
    (forall command,
        let cmdline := sdbCmd ++ " " ++ command in
        let out := host_exec host t cmdline in
        snd (SdbWrapper.execute host sdbCmd command t)
        = (t ++ [Exec cmdline])%list /\
        is_rejected (fst (SdbWrapper.execute host sdbCmd command t))
        = negb (exec_clean out) /\
        (forall stdout,
            fst (SdbWrapper.execute host sdbCmd command t) = Resolved stdout ->
            stdout = exec_stdout out /\
            Js.includes "command not found" stdout = false /\
            Js.includes "No such file or directory" stdout = false)) /\
    (forall remoteCommand,
        let cmdline := sdbCmd ++ " shell " ++ Js.DQUOTE ++ remoteCommand
                              ++ Js.DQUOTE in
        let out := host_exec host t cmdline in
        let run := SdbWrapper.shell host sdbCmd remoteCommand t in
        snd run = (t ++ [Exec cmdline])%list /\
        is_rejected (fst run) = negb (exec_clean out) /\
        (exec_clean out = true -> fst run = Resolved (exec_stdout out))) /\
    (forall localPort_ remotePort,
        exact_port localPort_ = true ->
        (remotePort < 2 ^ 53)%N ->
        let cmdline := sdbCmd ++ " forward tcp:" ++ port_to_string localPort_
                              ++ " tcp:" ++ Js.of_N remotePort in
        let out := host_exec host t cmdline in
        let run := SdbWrapper.forward host sdbCmd localPort_ remotePort t in
        snd run = (t ++ [Exec cmdline])%list /\
        is_rejected (fst run) = negb (exec_clean out) /\
        (exec_clean out = true -> fst run = Resolved (exec_stdout out))) /\
    (forall on : bool,
        let cmdline := sdbCmd ++ " root " ++ (if on then "on" else "off") in
        let out := host_exec host t cmdline in
        let run := SdbWrapper.root host sdbCmd on t in
        snd run = (t ++ [Exec cmdline])%list /\
        is_rejected (fst run) = negb (exec_clean out) /\
        (exec_clean out = true -> fst run = Resolved (exec_stdout out))).
Proof.
  intros host sdbCmd t.
  assert (Hexec : forall command,
             let cmdline := sdbCmd ++ " " ++ command in
             let out := host_exec host t cmdline in
             let run := SdbWrapper.execute host sdbCmd command t in
             snd run = (t ++ [Exec cmdline])%list /\
             is_rejected (fst run) = negb (exec_clean out) /\
             (exec_clean out = true -> fst run = Resolved (exec_stdout out))).
  { intros command cmdline out run. subst run out cmdline.
    destruct (execute_outcome host sdbCmd command t) as (Htrace & Hrej & Hout).
    cbv zeta in Htrace, Hrej, Hout.
    split; [exact Htrace|]. split; [exact Hrej|].
    intros Hclean. rewrite Hclean in Hrej.
    destruct (fst (SdbWrapper.execute host sdbCmd command t)) as [stdout|e];
      [|discriminate].
    now destruct (Hout stdout eq_refl) as (-> & _). }
  split; [intros command; apply execute_outcome|].
  split; [|split].
  - intros remoteCommand.
    apply (Hexec ("shell " ++ Js.DQUOTE ++ remoteCommand ++ Js.DQUOTE)).
  - intros localPort_ remotePort _ _.
    apply (Hexec ("forward tcp:" ++ port_to_string localPort_
                                 ++ " tcp:" ++ Js.of_N remotePort)).
  - intros on. apply (Hexec ("root " ++ (if on then "on" else "off"))).
Qed.

Lemma execute_fulfils_only_clean_runs_witness :
  let host := {| host_exec := fun _ _ =>
                   {| exec_err := None; exec_stdout := "PORT 26099";
                      exec_stderr := "" |};
                 host_stat := fun _ _ => None |} in
  fst (SdbWrapper.execute host "sdb" "shell ls" []) = Resolved "PORT 26099" /\
  Js.includes "command not found" "PORT 26099" = false /\
  SdbWrapper.forward host "sdb" (PortNum 8888) 26099 []
  = (Resolved "PORT 26099", [Exec "sdb forward tcp:8888 tcp:26099"]) /\
  snd (SdbWrapper.root host "sdb" false []) = [Exec "sdb root off"].
Proof.
  intros host. split; [reflexivity|].
  destruct (execute_fulfils_only_clean_runs host "sdb" [])
    as (Hexec & _ & Hforward & Hroot).
  destruct (Hexec "shell ls") as (_ & _ & Hclean).
  split; [exact (proj1 (proj2 (Hclean "PORT 26099" eq_refl)))|].
  destruct (Hforward (PortNum 8888) 26099%N eq_refl eq_refl)
    as (Htrace & _ & Hout).
  split.
  - rewrite (surjective_pairing
               (SdbWrapper.forward host "sdb" (PortNum 8888) 26099 [])).
    rewrite Htrace, (Hout eq_refl). reflexivity.
  - exact (proj1 (Hroot false)).
Defined.

(** X22: [push] of the wrapper reads the local file first.  When that
    fails, the promise is rejected with this error and [sdb] is not run.
    Otherwise [sdb push] is run once on the two paths, and its outcome is
    the outcome of the push. *)
Theorem sdb_push_checks_the_local_file :
  forall (host : Host) (sdbCmd localFile remotePath : string) (t : Trace),
    match host_stat host t localFile with
    | Some err =>
        SdbWrapper.push host sdbCmd localFile remotePath t
        = (Rejected err, (t ++ [FsStat localFile])%list)
    | None =>
        SdbWrapper.push host sdbCmd localFile remotePath t
        = SdbWrapper.execute host sdbCmd
            ("push " ++ localFile ++ " " ++ remotePath)
            (t ++ [FsStat localFile])%list /\
        snd (SdbWrapper.push host sdbCmd localFile remotePath t)
        = (t ++ [FsStat localFile;
                 Exec (sdbCmd ++ " " ++ "push " ++ localFile
                              ++ " " ++ remotePath)])%list
    end.
Proof.
  intros host sdbCmd localFile remotePath t. unfold SdbWrapper.push.
  destruct (host_stat host t localFile) as [err|]; [reflexivity|].
  split; [reflexivity|].
  unfold SdbWrapper.execute.
  destruct (exec_err _); simpl; [now rewrite <- app_assoc|].
  repeat match goal with
         | |- context [if ?b then _ else _] => destruct b
         end; simpl; now rewrite <- app_assoc.
Qed.

Lemma prefix_of_longer (p q : string) :
  forall s, String.prefix (p ++ q) s = true -> String.prefix p s = true.
Proof.
  induction p as [|a p IH]; intros s H; [now destruct s|].
  destruct s as [|b s]; [discriminate|].
  change (String.prefix (String a p ++ q) (String b s))
    with (match ascii_dec a b with
          | left _ => String.prefix (p ++ q) s
          | right _ => false
          end) in H.
  change (String.prefix (String a p) (String b s))
    with (match ascii_dec a b with
          | left _ => String.prefix p s
          | right _ => false
          end).
  destruct (ascii_dec a b); [now apply IH|discriminate].
Qed.

(** A text that contains a longer pattern contains its beginning. *)
Lemma includes_of_longer (p q s : string) :
  Js.includes (p ++ q) s = true -> Js.includes p s = true.
Proof.
  induction s as [|c s IH]; intros H.
  - rewrite (includes_unfold (p ++ q) "") in H.
    rewrite (includes_unfold p "").
    destruct (String.prefix (p ++ q) "") eqn:Hp; [|discriminate].
    now rewrite (prefix_of_longer p q _ Hp).
  - rewrite (includes_unfold (p ++ q) (String c s)) in H.
    rewrite (includes_unfold p (String c s)).
    destruct (String.prefix (p ++ q) (String c s)) eqn:Hp.
    + now rewrite (prefix_of_longer p q _ Hp).
    + destruct (String.prefix p (String c s)); [reflexivity|now apply IH].
Qed.

(** X23: on the wrapper of the repository, a push that [sdb] reports as
    failed on its error stream with "failed to copy" reaches the caller of
    [pushRaw] as the error "could not push file to device", the report
    going to the logger; and the push of a local file that cannot be read
    never runs [sdb]. *)
Theorem pushRaw_over_the_wrapper :
  forall (host : Host) (localFile remotePath : string) (t : Trace),
    let statted := (t ++ [FsStat localFile])%list in
    let cmdline := "sdb" ++ " " ++ "push " ++ localFile ++ " " ++ remotePath in
    let out := host_exec host statted cmdline in
    (host_stat host t localFile = None ->
     exec_err out = None ->
     Js.includes "command not found" (exec_stdout out) = false ->
     Js.includes "No such file or directory" (exec_stdout out) = false ->
     Js.includes "failed to copy" (exec_stderr out) = true ->
     Bridge.pushRaw (sdbConfig host) localFile remotePath t
     = (Rejected (Error "could not push file to device"),
        (statted ++ [Exec cmdline; Log LError (LStr (exec_stderr out))])%list)) /\
    (forall err,
        host_stat host t localFile = Some err ->
        forall cmd, ~ In (Exec cmd)
                         (skipn (length t)
                                (snd (Bridge.pushRaw (sdbConfig host) localFile
                                                     remotePath t)))).
Proof.
  intros host localFile remotePath t statted cmdline out. split.
  - intros Hstat Herr H1 H2 Hcopy.
    assert (Hfailed : Js.includes "failed" (exec_stderr out) = true)
      by (apply (includes_of_longer "failed" " to copy"); exact Hcopy).
    unfold Bridge.pushRaw. unfold_q.
    cbn [sdbWrapper sdbConfig SdbWrapper.wrapper sdb_push].
    unfold SdbWrapper.push. rewrite Hstat. fold statted.
    unfold SdbWrapper.execute. fold cmdline. fold out.
    rewrite Herr, H1, H2, Hfailed. cbn [message]. rewrite Hcopy.
    cbn [orb]. now rewrite <- app_assoc.
  - intros err Hstat cmd.
    unfold Bridge.pushRaw. unfold_q.
    cbn [sdbWrapper sdbConfig SdbWrapper.wrapper sdb_push].
    unfold SdbWrapper.push. rewrite Hstat.
    destruct (Js.includes "failed to copy" (message err)
              || Js.includes "cannot stat" (message err)
              || Js.includes "device not found" (message err));
      simpl snd; try rewrite <- app_assoc;
      rewrite skipn_app, skipn_all, Nat.sub_diag; simpl;
      intros H; repeat (destruct H as [H|H]; [discriminate|]); exact H.
Qed.

Lemma pushRaw_over_the_wrapper_witness :
  Bridge.pushRaw (sdbConfig failingHost) "a.wgt" "/tmp/a.wgt" []
  = (Rejected (Error "could not push file to device"),
     [FsStat "a.wgt"; Exec "sdb push a.wgt /tmp/a.wgt";
      Log LError (LStr "failed to copy 'a.wgt' to '/tmp/a.wgt'")]) /\
  snd (Bridge.pushRaw (sdbConfig failingHost) "missing.wgt" "/tmp/m.wgt" [])
  = [FsStat "missing.wgt"].
Proof.
  destruct (pushRaw_over_the_wrapper failingHost "a.wgt" "/tmp/a.wgt" [])
    as [Hcopy _].
  split; [|reflexivity].
  exact (Hcopy eq_refl eq_refl eq_refl eq_refl eq_refl).
Defined.


(** * The configuration before its first successful parse *)

(** X24: a [getMeta] that fails caches nothing.  It fails with the
    exception of the file system when the file cannot be read, and with the
    one of the parser when the document cannot be parsed; either way the
    object is left as it was, so that a later call reads the file again,
    and succeeds once the file is there.  Until the first success the path
    that is read is the current value of [configFile]: the path given at
    creation, the default [config.xml] when none (or an empty one) was
    given, and the path assigned last otherwise. *)
Theorem getMeta_failure_is_not_cached :
  forall parse : string -> Result Meta,
    (forall fs this e this' reads,
        TizenConfig.getMeta parse fs this = (Rejected e, this', reads) ->
        this' = this /\ TizenConfig.configParsed this = None /\
        reads = [TizenConfig.configFile this] /\
        (fs (TizenConfig.configFile this) = Rejected e \/
         exists text, fs (TizenConfig.configFile this) = Resolved text /\
                      parse text = Rejected e)) /\
    (forall fs this text meta,
        TizenConfig.configParsed this = None ->
        fs (TizenConfig.configFile this) = Resolved text ->
        parse text = Resolved meta ->
        TizenConfig.getMeta parse fs this
        = (Resolved meta,
           {| TizenConfig.configFile := TizenConfig.configFile this;
              TizenConfig.configParsed := Some meta |},
           [TizenConfig.configFile this])) /\
    (forall fs configFile_,
        snd (TizenConfig.getMeta parse fs (TizenConfig.create configFile_))
        = [match configFile_ with
           | Some path => if String.eqb path "" then "config.xml" else path
           | None => "config.xml"
           end]) /\
    (forall configFile_ path fs,
        snd (TizenConfig.run parse (TizenConfig.create configFile_)
                             [TizenConfig.SetConfigFile path;
                              TizenConfig.CallGetMeta fs])
        = [None;
           Some (match fs path with
                 | Resolved text => parse text
                 | Rejected e => Rejected e
                 end, [path])]).
Proof.
  intros parse. split; [|split; [|split]].
  - intros fs this e this' reads. unfold TizenConfig.getMeta.
    destruct (TizenConfig.configParsed this) as [cached|]; [discriminate|].
    destruct (fs (TizenConfig.configFile this)) as [text|e0] eqn:Hfs.
    + destruct (parse text) as [meta|e'] eqn:Hparse; [discriminate|].
      intros H. injection H as <- <- <-.
      repeat split. right. now exists text.
    + intros H. injection H as <- <- <-. repeat split. now left.
  - intros fs this text meta Hcache Hfile Hparse.
    unfold TizenConfig.getMeta. now rewrite Hcache, Hfile, Hparse.
  - intros fs configFile_. unfold TizenConfig.getMeta, TizenConfig.create.
    cbn [TizenConfig.configParsed TizenConfig.configFile].
    assert (Hpath : match Js.present configFile_ with
                    | Some f => f
                    | None => "config.xml"
                    end
                    = match configFile_ with
                      | Some path =>
                          if String.eqb path "" then "config.xml" else path
                      | None => "config.xml"
                      end).
    { destruct configFile_ as [[|c path]|]; reflexivity. }
    rewrite Hpath.
    destruct (fs _) as [text|e]; [|reflexivity].
    destruct (parse text); reflexivity.
  - intros configFile_ path fs. simpl. unfold TizenConfig.getMeta. simpl.
    destruct (fs path) as [text|]; [|reflexivity].
    destruct (parse text); reflexivity.
Qed.

Lemma getMeta_failure_is_not_cached_witness :
  let fresh := TizenConfig.create (Some "other.xml") in
  TizenConfig.getMeta toyParse emptyFs fresh
  = (Rejected (Error "no file at other.xml"), fresh, ["other.xml"]) /\
  TizenConfig.getMeta toyParse toyFs fresh
  = (Resolved {| id := "app"; uri := "uri"; packageName := "pkg2";
                 content := "index.html" |},
     {| TizenConfig.configFile := "other.xml";
        TizenConfig.configParsed :=
          Some {| id := "app"; uri := "uri"; packageName := "pkg2";
                  content := "index.html" |} |},
     ["other.xml"]).
Proof.
  intros fresh. split; [reflexivity|].
  destruct (getMeta_failure_is_not_cached toyParse) as (Hfail & Hretry & _).
  destruct (Hfail emptyFs fresh _ _ _ eq_refl) as (_ & Hnone & _).
  exact (Hretry toyFs fresh "pkg2" _ Hnone eq_refl eq_refl).
Defined.


(** * The tasks with completion callbacks (lib/tasks-maker.js) *)

Lemma select_cb_known (bridge : BridgeCb) (getMeta : Result Meta)
      (data : TaskData) (a : string) (asRoot_ : bool) :
  In a callback_actions ->
  exists cmd,
    TasksCb.select bridge getMeta data a asRoot_
    = (Some cmd, asRoot_ || String.eqb a "install") /\
    fst (TasksCb.select bridge getMeta data a false) = Some cmd.
Proof.
  intros Hin. unfold callback_actions, known_actions in Hin. simpl in Hin.
  decompose [or] Hin; try contradiction; subst a;
    eexists; (split; [|reflexivity]); vm_compute String.eqb;
    unfold TasksCb.select; vm_compute String.eqb; cbn [orb];
    now rewrite ?Bool.orb_false_r, ?Bool.orb_true_r.
Qed.

Lemma runs_as_root_flag (data : TaskData) (a : string) :
  (match asRoot data with Some b => b | None => false end
   || String.eqb a "install")%bool
  = runs_as_root data a.
Proof.
  unfold runs_as_root. destruct (asRoot data) as [[|]|]; reflexivity.
Qed.

Lemma tizenTask_cb_selected (bridge : BridgeCb) (getMeta : Result Meta)
      (data : TaskData) (a : string) (cmd : Callback (option string)) :
  Js.present (action data) = Some a ->
  In a callback_actions ->
  fst (TasksCb.select bridge getMeta data a false) = Some cmd ->
  TasksCb.tizenTask bridge getMeta data
  = if runs_as_root data a
    then Cb.on (cb_root bridge true)
               (fun r => match r with
                         | Rejected err => Cb.done (Rejected err)
                         | Resolved _ =>
                             Cb.on cmd
                                   (fun r =>
                                      Cb.on (cb_root bridge false)
                                            (fun r' =>
                                               match r with
                                               | Rejected err =>
                                                   Cb.done (Rejected err)
                                               | Resolved _ => Cb.done r'
                                               end))
                         end)
    else cmd.
Proof.
  intros Ha Hin Hcmd. unfold TasksCb.tizenTask. rewrite Ha.
  destruct (select_cb_known bridge getMeta data a
              (match asRoot data with Some b => b | None => false end) Hin)
    as (cmd' & Hsel & Hfst).
  rewrite Hsel, runs_as_root_flag.
  rewrite Hcmd in Hfst. injection Hfst as <-. reflexivity.
Qed.

(** X25: the root bracket of the callback version.  When the task runs as
    root (on request, or because the action is [install]) and turning root
    on reports an error, the task reports that error and does nothing else:
    its outcome and its events are those of that one call, for every
    bridge, so that neither the command nor [root(false)] is called.  When
    root is on and the command has called back, root is turned off; an
    error of the command is then what the task reports, whatever turning
    root off reports, and after a successful command the task reports what
    turning root off reports, the result of the command being dropped. *)
Theorem callback_root_bracket :
  forall (bridge : BridgeCb) (getMeta : Result Meta) (data : TaskData)
         (a : string) (t : Trace),
    Js.present (action data) = Some a ->
    In a callback_actions ->
    runs_as_root data a = true ->
    (forall e t1,
        cb_root bridge true t = (Some (Rejected e), t1) ->
        TasksCb.tizenTask bridge getMeta data t = (Some (Rejected e), t1)) /\
    (forall cmd v t1 r t2 r' t3,
        fst (TasksCb.select bridge getMeta data a false) = Some cmd ->
        cb_root bridge true t = (Some (Resolved v), t1) ->
        cmd t1 = (Some r, t2) ->
        cb_root bridge false t2 = (Some r', t3) ->
        TasksCb.tizenTask bridge getMeta data t
        = (Some (match r with
                 | Rejected e => Rejected e
                 | Resolved _ => r'
                 end), t3)).
Proof.
  intros bridge getMeta data a t Ha Hin Hroot. split.
  - intros e t1 Hon.
    destruct (select_cb_known bridge getMeta data a false Hin)
      as (cmd & _ & Hcmd).
    rewrite (tizenTask_cb_selected bridge getMeta data a cmd Ha Hin Hcmd).
    rewrite Hroot. unfold Cb.on, Cb.done. now rewrite Hon.
  - intros cmd v t1 r t2 r' t3 Hcmd Hon Hrun Hoff.
    rewrite (tizenTask_cb_selected bridge getMeta data a cmd Ha Hin Hcmd).
    rewrite Hroot. unfold Cb.on, Cb.done. rewrite Hon, Hrun, Hoff.
    now destruct r.
Qed.

Lemma callback_root_bracket_witness :
  let refusing := nodeify (theBridge rootFailsConfig) None None in
  let stuck := nodeify (theBridge rootOffFailsConfig) None None in
  let data := installData None in
  let t1 := snd (cb_root stuck true []) in
  let t2 := snd (TasksCb.install stuck data t1) in
  TasksCb.tizenTask refusing (Resolved exampleMeta) data []
  = (Some (Rejected (Error "error: device not found")),
     [SdbRoot true; Log LError (LStr "error: device not found")]) /\
  fst (cb_root stuck false t2)
  = Some (Rejected (Error "error: device offline")) /\
  fst (TasksCb.tizenTask stuck (Resolved exampleMeta) data [])
  = Some (Rejected (Error "error while installing package")).
Proof.
  intros refusing stuck data t1 t2.
  assert (Hin : In "install" callback_actions)
    by (right; left; reflexivity).
  split; [|split; [reflexivity|]].
  - destruct (callback_root_bracket refusing (Resolved exampleMeta) data
                                    "install" [] eq_refl Hin eq_refl)
      as (Hon & _).
    exact (Hon _ _ eq_refl).
  - destruct (callback_root_bracket stuck (Resolved exampleMeta) data
                                    "install" [] eq_refl Hin eq_refl)
      as (_ & Hcmd).
    rewrite (Hcmd (TasksCb.install stuck data) None t1
                  (Rejected (Error "error while installing package")) t2
                  (Rejected (Error "error: device offline"))
                  (snd (cb_root stuck false t2))
                  eq_refl eq_refl eq_refl eq_refl).
    reflexivity.
Defined.

(** X26: the [watch] action of the callback version never reports success.
    Without the root bracket it does nothing at all: no call on the bridge,
    and the completion callback is never invoked.  Inside the bracket root
    is turned on and that is all: the task reports the error of that call
    if there is one, and otherwise never completes, root staying on.  The
    promise-based version does not know the action and rejects it. *)
Theorem watch_never_completes :
  forall (bridge : BridgeCb) (getMeta : Result Meta) (data : TaskData)
         (t : Trace),
    Js.present (action data) = Some "watch" ->
    (forall v, fst (TasksCb.tizenTask bridge getMeta data t)
               <> Some (Resolved v)) /\
    (asRoot data <> Some true ->
     TasksCb.tizenTask bridge getMeta data t = (None, t)) /\
    (asRoot data = Some true ->
     snd (TasksCb.tizenTask bridge getMeta data t)
     = snd (cb_root bridge true t) /\
     task_error (fst (TasksCb.tizenTask bridge getMeta data t))
     = task_error (fst (cb_root bridge true t))) /\
    (forall (promised : BridgeI) (meta : Promise Meta),
        Tasks.tizenTask promised meta data t
        = (Rejected (Error ("action " ++ Js.DQUOTE ++ "watch" ++ Js.DQUOTE
                              ++ " was not recognised as valid")), t)).
Proof.
  intros bridge getMeta data t Ha.
  assert (Hin : In "watch" callback_actions)
    by (unfold callback_actions, known_actions; simpl; tauto).
  pose proof (tizenTask_cb_selected bridge getMeta data "watch" TasksCb.watch
                                    Ha Hin eq_refl) as Htask.
  unfold runs_as_root in Htask.
  change (String.eqb "watch" "install") with false in Htask.
  repeat split.
  - intros v. rewrite Htask.
    destruct (asRoot data) as [[|]|]; try discriminate.
    unfold Cb.on, Cb.done, TasksCb.watch, Cb.never.
    destruct (cb_root bridge true t) as [[[u|e]|] t1]; discriminate.
  - intros Hroot. rewrite Htask.
    destruct (asRoot data) as [[|]|]; [congruence|reflexivity|reflexivity].
  - rewrite Htask, H.
    unfold Cb.on, Cb.done, TasksCb.watch, Cb.never.
    now destruct (cb_root bridge true t) as [[[u|e]|] t1].
  - rewrite Htask, H.
    unfold Cb.on, Cb.done, TasksCb.watch, Cb.never.
    now destruct (cb_root bridge true t) as [[[u|e]|] t1].
  - intros promised meta. unfold Tasks.tizenTask. now rewrite Ha.
Qed.

Lemma watch_never_completes_witness :
  TasksCb.tizenTask (nodeify (theBridge quietConfig) None None)
                    (Resolved exampleMeta) (dataFor "watch") []
  = (None, []).
Proof.
  destruct (watch_never_completes
              (nodeify (theBridge quietConfig) None None)
              (Resolved exampleMeta) (dataFor "watch") [] eq_refl)
    as (_ & Hidle & _).
  apply Hidle. discriminate.
Defined.

(** X27: the debug chain of the callback version, once the metadata is
    there.  An error of the launch is the error of the task.  A launch
    that passes no output (nothing, or the empty string) fails the task
    with [could not launch app in debug mode]; an output without a port
    fails it with [no remote port available for debugging]; in these three
    cases the task ends with the launch, whatever the bridge, so that no
    port is forwarded and no browser is run.  With a port in the output
    (a number below 2^53, up to which [parseInt] is exact), that port is
    forwarded from the local port ([8888] unless one is given); an error
    there is the error of the task and no browser is run; otherwise the
    browser is run when a command is given, and its outcome is the outcome
    of the task. *)
Theorem callback_debug_chain :
  forall (bridge : BridgeCb) (meta : Meta) (data : TaskData) (t : Trace),
    let localPort_ := match present_port (localPort data) with
                      | Some p => p
                      | None => PortStr "8888"
                      end in
    let stopOnFailure_ := match stopOnFailure data with
                          | Some true => true
                          | _ => false
                          end in
    let launched := cb_launch bridge "debug" (id meta) stopOnFailure_ t in
    let task := TasksCb.launch bridge (Resolved meta) data "debug" t in
    (forall e t1, launched = (Some (Rejected e), t1) ->
                  task = (Some (Rejected e), t1)) /\
    (forall result t1,
        launched = (Some (Resolved result), t1) ->
        Js.present result = None ->
        task = (Some (Rejected (Error "could not launch app in debug mode")),
                t1)) /\
    (forall stdout t1,
        launched = (Some (Resolved (Some stdout)), t1) ->
        stdout <> "" ->
        Js.match_port stdout = None ->
        task = (Some (Rejected
                        (Error "no remote port available for debugging")),
                t1)) /\
    (forall stdout digits t1,
        launched = (Some (Resolved (Some stdout)), t1) ->
        Js.match_port stdout = Some digits ->
        (Js.parseInt digits < 2 ^ 53)%N ->
        let forwarded :=
          cb_portForward bridge localPort_ (Js.parseInt digits) t1 in
        (forall e t2, forwarded = (Some (Rejected e), t2) ->
                      task = (Some (Rejected e), t2)) /\
        (forall v t2, forwarded = (Some (Resolved v), t2) ->
                      task = match Js.present (browserCmd data) with
                             | Some cmd =>
                                 cb_runBrowser bridge cmd localPort_ t2
                             | None => (Some (Resolved None), t2)
                             end)).
Proof.
  intros bridge meta data t localPort_ stopOnFailure_ launched task.
  assert (Hpresent : forall stdout,
             stdout <> "" -> Js.present (Some stdout) = Some stdout).
  { intros stdout Hne. destruct stdout; [congruence|reflexivity]. }
  assert (Htask : task
                  = match launched with
                    | (Some (Rejected err), t1) => (Some (Rejected err), t1)
                    | (Some (Resolved result), t1) =>
                        match Js.present result with
                        | Some stdout =>
                            match Js.match_port stdout with
                            | None =>
                                (Some (Rejected
                                         (Error ("no remote port available "
                                                   ++ "for debugging"))), t1)
                            | Some digits =>
                                match cb_portForward bridge localPort_
                                        (Js.parseInt digits) t1 with
                                | (Some (Rejected err), t2) =>
                                    (Some (Rejected err), t2)
                                | (Some (Resolved _), t2) =>
                                    match Js.present (browserCmd data) with
                                    | Some cmd =>
                                        cb_runBrowser bridge cmd localPort_ t2
                                    | None => (Some (Resolved None), t2)
                                    end
                                | (None, t2) => (None, t2)
                                end
                            end
                        | None =>
                            (Some (Rejected
                                     (Error ("could not launch app "
                                               ++ "in debug mode"))), t1)
                        end
                    | (None, t1) => (None, t1)
                    end).
  { subst task launched localPort_ stopOnFailure_.
    unfold TasksCb.launch, Cb.on, Cb.done.
    change (String.eqb "debug" "debug") with true. cbv beta iota zeta.
    destruct (cb_launch bridge "debug" (id meta) _ t)
      as [[[result|err]|] t1]; [|reflexivity|reflexivity].
    destruct (Js.present result) as [stdout|]; [|reflexivity].
    destruct (Js.match_port stdout) as [digits|]; [|reflexivity].
    destruct (cb_portForward bridge _ (Js.parseInt digits) t1)
      as [[[v|err]|] t2]; try reflexivity.
    now destruct (Js.present (browserCmd data)). }
  rewrite Htask. clear Htask.
  split; [|split; [|split]].
  - intros e t1 ->. reflexivity.
  - intros result t1 -> Hnone. now rewrite Hnone.
  - intros stdout t1 -> Hne Hport.
    now rewrite (Hpresent stdout Hne), Hport.
  - intros stdout digits t1 -> Hport _ forwarded.
    assert (Hne : stdout <> "") by (intros ->; discriminate).
    rewrite (Hpresent stdout Hne), Hport. fold forwarded.
    split.
    + intros e t2 ->. reflexivity.
    + intros v t2 ->. reflexivity.
Qed.

Lemma callback_debug_chain_witness :
  let bridge := nodeify (theBridge debugConfig) None None in
  let t1 := snd (cb_launch bridge "debug" "app" false []) in
  let t2 := snd (cb_portForward bridge (PortStr "8888") 26099 t1) in
  fst (cb_launch bridge "debug" "app" false [])
  = Some (Resolved (Some "launched; PORT 26099")) /\
  Js.match_port "launched; PORT 26099" = Some "26099" /\
  (Js.parseInt "26099" < 2 ^ 53)%N /\
  TasksCb.launch bridge (Resolved exampleMeta) debugData "debug" []
  = cb_runBrowser bridge "chrome %URL%" (PortStr "8888") t2.
Proof.
  intros bridge t1 t2. split; [reflexivity|]. split; [reflexivity|].
  split; [reflexivity|].
  destruct (callback_debug_chain bridge exampleMeta debugData [])
    as (_ & _ & _ & Hport).
  destruct (Hport "launched; PORT 26099" "26099" t1 eq_refl eq_refl eq_refl)
    as (_ & Hforwarded).
  exact (Hforwarded (Some "") t2 eq_refl).
Defined.

(** * The two versions of the tasks *)

Lemma call_back_then {A : Type} (value : A -> option string)
      (p : Promise A) (f : A -> Promise (option string)) (t : Trace) :
  (forall v t', is_rejected (fst (f v t')) = false /\ snd (f v t') = t') ->
  task_error (fst (call_back value p t)) = error_of (fst ((p >>= f) t)) /\
  snd (call_back value p t) = snd ((p >>= f) t) /\
  fst (call_back value p t) <> None.
Proof.
  intros Hf. unfold call_back, Q.then_, Q.then2, Q.reject.
  destruct (p t) as [[v|e] t'] eqn:Hp; simpl.
  - destruct (Hf v t') as (Hok & Htrace).
    destruct (f v t') as [[w|e] t'']; simpl in *; [|discriminate].
    subst t''. now repeat split.
  - now repeat split.
Qed.

Lemma report_alike_call_back {A : Type} (value : A -> option string)
      (p : Promise A) (w : option string) :
  report_alike (call_back value p) (p >>= fun _ => Q.resolve w).
Proof.
  intros t. apply call_back_then. intros v t'. now split.
Qed.

Lemma report_alike_done {A B : Type} (e : JsError) :
  report_alike (Cb.done (A := A) (Rejected e)) (Q.reject (A := B) e).
Proof.
  intros t. now repeat split.
Qed.

Section Agreement.

Variable bridge : BridgeI.
Variable getMeta : Result Meta.
Variables local dir : option string.
Variable data : TaskData.

Lemma push_alike :
  report_alike (TasksCb.push (nodeify bridge local dir) data)
               (Tasks.push bridge data).
Proof.
  unfold TasksCb.push, Tasks.push.
  destruct (present_spec (localFiles data)); [|apply report_alike_done].
  destruct (Js.present (remoteDir data)); [|apply report_alike_done].
  apply report_alike_call_back.
Qed.

Lemma install_alike :
  report_alike (TasksCb.install (nodeify bridge local dir) data)
               (Tasks.install bridge data).
Proof.
  unfold TasksCb.install, Tasks.install.
  destruct (present_spec (remoteFiles data)); [|apply report_alike_done].
  apply report_alike_call_back.
Qed.

Lemma uninstall_alike :
  report_alike (TasksCb.uninstall (nodeify bridge local dir) getMeta data)
               (Tasks.uninstall bridge (fun t => (getMeta, t)) data).
Proof.
  unfold TasksCb.uninstall, Tasks.uninstall.
  destruct getMeta as [m|e]; intros t.
  - apply (report_alike_call_back (fun _ => None)
             (bridge_uninstall bridge (packageName m) _) Tasks.undefined t).
  - now repeat split.
Qed.

Lemma script_alike :
  report_alike (TasksCb.script (nodeify bridge local dir) getMeta data)
               (Tasks.script bridge (fun t => (getMeta, t)) data).
Proof.
  unfold TasksCb.script, Tasks.script.
  destruct (Js.present (remoteScript data)); [|apply report_alike_done].
  destruct getMeta as [m|e]; intros t.
  - apply (call_back_then Some (bridge_runScript bridge s _)
                          (fun stdout => Q.resolve (Some stdout)) t).
    intros v t'. now split.
  - now repeat split.
Qed.

Lemma launch_alike (subcommand : string) :
  String.eqb subcommand "debug" = false ->
  report_alike (TasksCb.launch (nodeify bridge local dir) getMeta data
                               subcommand)
               (Tasks.launch bridge (fun t => (getMeta, t)) data subcommand).
Proof.
  intros Hsub. unfold TasksCb.launch, Tasks.launch.
  rewrite Hsub.
  destruct getMeta as [m|e]; intros t.
  - apply (report_alike_call_back (fun v => v)
             (bridge_launch bridge subcommand (id m) _) Tasks.undefined t).
  - now repeat split.
Qed.

Lemma select_alike (a : string) (asRoot_ : bool) :
  a <> "debug" -> a <> "watch" ->
  match TasksCb.select (nodeify bridge local dir) getMeta data a asRoot_,
        Tasks.select bridge (fun t => (getMeta, t)) data a asRoot_ with
  | (Some c, b), (Some p, b') => report_alike c p /\ b = b'
  | (None, _), (None, _) => True
  | _, _ => False
  end.
Proof.
  intros Hdebug Hwatch. unfold TasksCb.select, Tasks.select.
  destruct (String.eqb a "push"); [split; [apply push_alike|reflexivity]|].
  destruct (String.eqb a "install");
    [split; [apply install_alike|reflexivity]|].
  destruct (String.eqb a "uninstall");
    [split; [apply uninstall_alike|reflexivity]|].
  destruct (String.eqb a "script");
    [split; [apply script_alike|reflexivity]|].
  destruct (String.eqb_spec a "debug") as [|_]; [contradiction|].
  rewrite Bool.orb_false_r.
  destruct (String.eqb a "start" || String.eqb a "stop")%bool eqn:Hlaunch.
  - split; [|reflexivity]. apply launch_alike.
    now apply String.eqb_neq.
  - destruct (String.eqb_spec a "watch") as [|_]; [contradiction|exact I].
Qed.

End Agreement.

(** X28: the two versions of the tasks report alike.  Over the same bridge
    (the callbacks of the older version being invoked when the promises of
    the newer one are settled) and the same metadata, and when switching
    root on and off does not fail, a request for any action but [debug]
    and [watch] (also a request with an unknown action or without one)
    leaves the same events in both versions, and the older version invokes
    its callback, with an error exactly when the newer one rejects its
    promise, and with the same error.  The same holds of the task that
    prepares the device, in every case. *)
Theorem callback_and_promise_tasks_agree :
  forall (bridge : BridgeI) (getMeta : Result Meta) (local dir : option string)
         (t : Trace),
    (forall data : TaskData,
        (forall on t', is_rejected (fst (bridge_root bridge on t')) = false) ->
        Js.present (action data) <> Some "debug" ->
        Js.present (action data) <> Some "watch" ->
        let called :=
          TasksCb.tizenTask (nodeify bridge local dir) getMeta data t in
        let promised :=
          Tasks.tizenTask bridge (fun t' => (getMeta, t')) data t in
        task_error (fst called) = error_of (fst promised) /\
        snd called = snd promised /\
        fst called <> None) /\
    (let called := TasksCb.tizenPrepareTask (nodeify bridge local dir) t in
     let promised := tizenPrepareTask bridge local dir t in
     task_error (fst called) = error_of (fst promised) /\
     snd called = snd promised /\
     fst called <> None).
Proof.
  intros bridge getMeta local dir t. split;
    [|apply (push_alike bridge local dir _ t)].
  intros data Hroot Hdebug Hwatch called promised.
  subst called promised. unfold TasksCb.tizenTask, Tasks.tizenTask.
  destruct (Js.present (action data)) as [a|]; [|now repeat split].
  assert (Ha : a <> "debug") by congruence.
  assert (Hb : a <> "watch") by congruence.
  pose proof (select_alike bridge getMeta local dir data a
                (match asRoot data with Some b => b | None => false end)
                Ha Hb) as Hsel.
  destruct (TasksCb.select _ _ _ _ _) as [[c|] b];
    destruct (Tasks.select _ _ _ _ _) as [[p|] b'];
    try contradiction; [|now repeat split].
  destruct Hsel as (Halike & <-).
  destruct b; [|apply Halike].
  unfold Cb.on, Cb.done, Q.finally, Q.then_, Q.then2, Q.reject.
  cbn [cb_root nodeify]. unfold call_back.
  pose proof (Hroot true t) as Hon.
  destruct (bridge_root bridge true t) as [[u|e] t1];
    [clear Hon|discriminate].
  destruct (Halike t1) as (Herr & Htrace & Hcalled).
  destruct (c t1) as [[r|] t2]; [|now elim Hcalled].
  destruct (p t1) as [r' t2']. simpl in Herr, Htrace. subst t2'.
  pose proof (Hroot false t2) as Hoff.
  destruct (bridge_root bridge false t2) as [[u'|e] t3];
    [clear Hoff|discriminate].
  destruct r as [v|e]; destruct r' as [v'|e']; simpl in *;
    try discriminate; (split; [assumption || reflexivity|]);
    split; try reflexivity; discriminate.
Qed.

Lemma callback_and_promise_tasks_agree_witness :
  task_error (fst (TasksCb.tizenTask (nodeify (theBridge quietConfig)
                                              None None)
                                     (Resolved exampleMeta)
                                     (installData None) []))
  = None /\
  snd (TasksCb.tizenTask (nodeify (theBridge quietConfig) None None)
                         (Resolved exampleMeta) (installData None) [])
  = snd (Tasks.tizenTask (theBridge quietConfig) (Q.resolve exampleMeta)
                         (installData None) []).
Proof.
  assert (Hroot : forall on t',
             is_rejected (fst (bridge_root (theBridge quietConfig) on t'))
             = false) by (intros [|] t'; reflexivity).
  destruct (callback_and_promise_tasks_agree
              (theBridge quietConfig) (Resolved exampleMeta) None None [])
    as (Htask & _).
  destruct (Htask (installData None) Hroot)
    as (Herr & Htrace & _); [discriminate|discriminate|].
  split; [|exact Htrace].
  rewrite Herr. reflexivity.
Defined.

(** * What the bridge passes on from sdb *)

Lemma chmod_passes_on (config : BridgeConfig) (remotePath mode : string)
      (t : Trace) :
  let called := sdb_shell (sdbWrapper config)
                          ("chmod " ++ mode ++ " " ++ remotePath) t in
  error_of (fst (Bridge.chmod config remotePath mode t))
  = error_of (fst called) /\
  exists logs,
    snd (Bridge.chmod config remotePath mode t) = (snd called ++ logs)%list /\
    forallb is_log logs = true.
Proof.
  unfold Bridge.chmod. unfold_q. cbv zeta.
  destruct (sdb_shell (sdbWrapper config) _ t) as [[out|e] t1];
    (split; [reflexivity|]); eexists; split; simpl;
    try (rewrite <- app_assoc; reflexivity); reflexivity.
Qed.

(** X29: what [chmod], [portForward] and [root] of the bridge pass on.
    Each of them makes one call on the sdb wrapper: it is rejected exactly
    when that call is, and with the error of that call as it is;
    [portForward] is moreover fulfilled with the output of that call.
    After the call they only write to the log, and the message of a
    rejection is logged at the error level. *)
Theorem sdb_errors_pass_through :
  forall (config : BridgeConfig) (t : Trace),
    (forall remotePath mode,
        let called := sdb_shell (sdbWrapper config)
                                ("chmod " ++ mode ++ " " ++ remotePath) t in
        let run := Bridge.chmod config remotePath mode t in
        error_of (fst run) = error_of (fst called) /\
        exists logs, snd run = (snd called ++ logs)%list /\
                     forallb is_log logs = true /\
                     forall e, fst called = Rejected e ->
                               In (Log LError (LStr (message e))) logs) /\
    (forall localPort_ remotePort,
        let called := sdb_forward (sdbWrapper config) localPort_ remotePort t in
        let run := Bridge.portForward config localPort_ remotePort t in
        fst run = fst called /\
        exists logs, snd run = (snd called ++ logs)%list /\
                     forallb is_log logs = true /\
                     forall e, fst called = Rejected e ->
                               In (Log LError (LStr (message e))) logs) /\
    (forall on,
        let called := sdb_root (sdbWrapper config) on t in
        let run := Bridge.root config on t in
        error_of (fst run) = error_of (fst called) /\
        exists logs, snd run = (snd called ++ logs)%list /\
                     forallb is_log logs = true /\
                     forall e, fst called = Rejected e ->
                               In (Log LError (LStr (message e))) logs).
Proof.
  intros config t. split; [|split].
  - intros remotePath mode. unfold Bridge.chmod. unfold_q. cbv zeta.
    destruct (sdb_shell (sdbWrapper config) _ t) as [[out|e] t1];
      (split; [reflexivity|]); eexists; simpl;
      (split; [rewrite <- app_assoc; reflexivity|]);
      (split; [reflexivity|]); intros e' He'; [discriminate|].
    injection He' as <-. now left.
  - intros localPort_ remotePort. unfold Bridge.portForward. unfold_q.
    cbv zeta.
    destruct (sdb_forward (sdbWrapper config) _ _ t) as [[out|e] t1];
      (split; [reflexivity|]); eexists; simpl;
      (split; [try rewrite <- app_assoc; reflexivity|]);
      (split; [reflexivity|]); intros e' He'; [discriminate|].
    injection He' as <-. now left.
  - intros on. unfold Bridge.root. unfold_q. cbv zeta.
    destruct (sdb_root (sdbWrapper config) on t) as [[out|e] t1].
    + split; [now destruct on|].
      exists [Log LWrite (LStr out);
              if on
              then Log LWarn (LStr ("*** called " ++ Js.DQUOTE ++ "sdb root on"
                                      ++ Js.DQUOTE ++ "; "
                                      ++ "commands now running as root ***"))
              else Log LOk (LStr ("*** called " ++ Js.DQUOTE ++ "sdb root off"
                                    ++ Js.DQUOTE ++ "; "
                                    ++ "commands no longer running as root ***"))].
      split; [destruct on; simpl; now rewrite <- app_assoc|].
      split; [now destruct on|]. intros e He. discriminate.
    + split; [reflexivity|]. eexists. simpl.
      split; [reflexivity|]. split; [reflexivity|].
      intros e' He'. injection He' as <-. now left.
Qed.

Lemma sdb_errors_pass_through_witness :
  Bridge.root rootFailsConfig true []
  = (Rejected (Error "error: device not found"),
     [SdbRoot true; Log LError (LStr "error: device not found")]) /\
  In (Log LError (LStr "error: device not found"))
     (snd (Bridge.root rootFailsConfig true [])).
Proof.
  split; [reflexivity|].
  destruct (sdb_errors_pass_through rootFailsConfig []) as (_ & _ & Hroot).
  destruct (Hroot true) as (_ & logs & Htrace & _ & Hlogged).
  rewrite Htrace. apply in_or_app. right.
  exact (Hlogged _ eq_refl).
Defined.

(** X30: with [overwrite] true, [pushOne] copies the file to its
    destination without looking at the device first, and applies [chmod]
    only after a successful copy.  A failed copy is the failure of
    [pushOne] and no [chmod] is run.  After a successful copy, and when a
    mode is given (an empty one counts as none), [chmod mode destination]
    is the next and only further command sent to the device, and its
    failure is the failure of [pushOne], with the error of sdb as it is;
    without a mode nothing more is done. *)
Theorem chmod_follows_a_successful_copy :
  forall (answers : Answers) (scriptPath : option string)
         (localFile remoteDir_ : string) (chmodArg : option string)
         (t : Trace),
    let config := recordingConfig answers scriptPath in
    let remotePath := Bridge.getDestination localFile remoteDir_ in
    let copied := Bridge.pushRaw config localFile remotePath t in
    let run := Bridge.pushOne config localFile remoteDir_ true chmodArg t in
    (exists rest,
        snd copied = (t ++ SdbPush localFile remotePath :: rest)%list /\
        forallb is_log rest = true) /\
    (forall e, fst copied = Rejected e -> run = (Rejected e, snd copied)) /\
    (forall u, fst copied = Resolved u -> Js.present chmodArg = None ->
               run = (Resolved tt, snd copied)) /\
    (forall u mode,
        fst copied = Resolved u -> Js.present chmodArg = Some mode ->
        let cmd := "chmod " ++ mode ++ " " ++ remotePath in
        error_of (fst run)
        = error_of (on_shell (sdb_answers answers) (snd copied) cmd) /\
        exists logs,
          snd run = (snd copied ++ SdbShell cmd :: logs)%list /\
          forallb is_log logs = true).
Proof.
  intros answers scriptPath localFile remoteDir_ chmodArg t config remotePath
         copied run.
  assert (Hrun : run = match copied with
                       | (Resolved _, t1) =>
                           match Js.present chmodArg with
                           | Some mode => Bridge.chmod config remotePath mode t1
                           | None => (Resolved tt, t1)
                           end
                       | (Rejected e, t1) => (Rejected e, t1)
                       end).
  { subst run copied. unfold Bridge.pushOne. fold remotePath.
    unfold Q.then_ at 1. unfold Q.then2 at 1. unfold Q.reject at 1.
    destruct (Bridge.pushRaw config localFile remotePath t) as [[u|e] t1];
      [|reflexivity].
    now destruct (Js.present chmodArg). }
  split; [|split; [|split]].
  - subst copied. unfold Bridge.pushRaw. unfold_q.
    cbn [sdbWrapper config recordingConfig recordingSdb sdb_push].
    destruct (on_push (sdb_answers answers) t localFile remotePath)
      as [out|e].
    + eexists. split; [rewrite <- app_assoc; reflexivity|reflexivity].
    + destruct (Js.includes "failed to copy" (message e)
                || Js.includes "cannot stat" (message e)
                || Js.includes "device not found" (message e))%bool.
      * eexists. split; [rewrite <- app_assoc; reflexivity|reflexivity].
      * exists []. split; reflexivity.
  - intros e He. rewrite Hrun. destruct copied as [[u|e'] t1];
      simpl in He; [discriminate|]. now injection He as ->.
  - intros u Hu Hnone. rewrite Hrun, Hnone.
    destruct copied as [[u'|e'] t1]; simpl in Hu; [reflexivity|discriminate].
  - intros u mode Hu Hmode cmd. rewrite Hrun, Hmode.
    destruct copied as [[u'|e'] t1]; simpl in Hu; [|discriminate].
    destruct (chmod_passes_on config remotePath mode t1)
      as (Herr & logs & Htrace & Hlogs).
    simpl snd. split.
    + rewrite Herr. reflexivity.
    + exists logs. split; [|exact Hlogs].
      rewrite Htrace. subst config.
      cbn [sdbWrapper recordingConfig recordingSdb sdb_shell snd].
      now rewrite <- app_assoc.
Qed.

Lemma chmod_follows_a_successful_copy_witness :
  let run := Bridge.pushOne quietConfig "tizen-app.sh" "/opt/" true
                            (Some "+x") [] in
  fst (Bridge.pushRaw quietConfig "tizen-app.sh" "/opt/tizen-app.sh" [])
  = Resolved tt /\
  error_of (fst run) = None /\
  exists logs,
    snd run
    = ([SdbPush "tizen-app.sh" "/opt/tizen-app.sh";
        Log LOk (LStr "pushed local:tizen-app.sh to remote:/opt/tizen-app.sh");
        SdbShell "chmod +x /opt/tizen-app.sh"] ++ logs)%list.
Proof.
  intros run. split; [reflexivity|].
  destruct (chmod_follows_a_successful_copy
              (answersOf quietSdb []) (Some "/opt/tizen-app.sh")
              "tizen-app.sh" "/opt/" (Some "+x") [])
    as (_ & _ & _ & Hchmod).
  destruct (Hchmod tt "+x" eq_refl eq_refl) as (Herr & logs & Htrace & _).
  split; [exact Herr|].
  exists logs. exact Htrace.
Defined.
